(** * Modbus over Serial Line, master side: Modbus_OSL.c

    A shallow embedding of the master transaction engine of
    [Modbus_Project_Master/Master/Modbus_OSL.c] and the properties of its
    retry tracker, timeout table, reception hooks and transmit loop.

    Conventions.  A C [unsigned char] is a [Z] in [0, 256) and every store
    into one is written with its wrap-around ([uint8]); [uint32_t] likewise
    ([uint32]).  The file-scope [static] variables of the module, the
    hardware registers it drives and the two collaborating modules
    (Modbus_OSL_RTU, Modbus_App) are gathered in one record, [OSL], that
    every function threads explicitly.  A call that may never come back
    (the [while(1)] of [Modbus_Fatal_Error], a transmit loop whose exit test
    never fails) returns an [outcome]. *)

From Stdlib Require Import ZArith List Bool Lia.
Import ListNotations.
Open Scope Z_scope.

(** ** Machine integers *)

Definition uint8 (z : Z) : Z := z mod 256.
Definition uint32 (z : Z) : Z := z mod 4294967296.
(** Two's complement value of the low eight bits. *)
Definition int8 (z : Z) : Z := (z + 128) mod 256 - 128.

Definition uchar (z : Z) : Prop := 0 <= z < 256.

(** The C standard leaves the signedness of plain [char] to the
    implementation; [Modbus_OSL_Send] declares its loop counter [char i].
    Both readings are kept. *)
Inductive char_kind : Type := SignedChar | UnsignedChar.

Definition char_of (ck : char_kind) (z : Z) : Z :=
  match ck with
  | SignedChar => int8 z
  | UnsignedChar => uint8 z
  end.

(** ** Enumerations of Modbus_OSL.h

    The header is not part of the sources; the enumerators are those the
    module names.  The first enumerator of each type is taken to be the
    value of a zeroed variable. *)

Inductive Modbus_OSL_Modes : Type :=
| MDEFAULT
| MODBUS_OSL_MODE_RTU
| MODBUS_OSL_MODE_ASCII.

Inductive Modbus_OSL_Frames : Type :=
| MODBUS_OSL_Frame_OK
| MODBUS_OSL_Frame_NOK.

(** Modelled from the spec: the seven states of the master diagram,
    {Initial, Idle, Emission, WaitReply, Delay, Error, Processing}, declared
    in the missing Modbus_OSL.h.  The module names all of them but
    Emission. *)
Inductive Modbus_OSL_MainStates : Type :=
| MODBUS_OSL_INITIAL
| MODBUS_OSL_IDLE
| MODBUS_OSL_EMISSION
| MODBUS_OSL_WAITREPLY
| MODBUS_OSL_DELAY
| MODBUS_OSL_ERROR
| MODBUS_OSL_PROCESSING.

(** Sub-states of the reception diagram.  The module only names three of
    them; [MODBUS_OSL_State_other] stands for the remaining enumerators. *)
Inductive Modbus_OSL_States : Type :=
| MODBUS_OSL_RTU_IDLE
| MODBUS_OSL_RTU_EMISSION
| MODBUS_OSL_ASCII_IDLE
| MODBUS_OSL_State_other (tag : nat).

(** ** Hardware and collaborators *)

(** One general purpose timer: the loaded count and whether it runs. *)
Record Timer : Type := { TimerLoad : Z; TimerEnabled : bool }.

(** Calls into the application layer (Modbus_App.c, not part of the
    sources) that only hand data over; the model records them in order. *)
Inductive App_call : Type :=
| App_Receive_Char (c idx : Z)
| App_L_Msg_Set (n : Z)
| App_No_Response.

(** The state every function works on.
    - [Modbus_OSL_*]: the static variables of Modbus_OSL.c;
    - [TIMER0], [TIMER2], [UART1_TX] (characters put on the line, oldest
      first), [UART1_RX] (characters waiting in the receiver),
      [GPIO_PORTF_DATA_R] (bit 0 drives LED1), [IntMaster] (processor
      interrupts enabled): the hardware;
    - [RTU_Msg], [RTU_L_Msg]: the receive buffer of Modbus_OSL_RTU (its
      cells are [unsigned char]) and its length, read through
      [Modbus_OSL_RTU_Char_Get] and [Modbus_OSL_RTU_L_Msg_Get];
    - [App_calls]: the calls made to the application layer, oldest first;
    - [MainState_writes]: history of the values stored into
      [Modbus_OSL_MainState], oldest first.  It is not a program variable:
      it lets a property speak about the states a transaction went
      through. *)
Record OSL : Type := {
  Modbus_OSL_Baudrate : Z;
  Modbus_OSL_Timeout_R : Z;
  Modbus_OSL_Timeout_B : Z;
  Modbus_OSL_Mode : Modbus_OSL_Modes;
  Modbus_OSL_Frame : Modbus_OSL_Frames;
  Modbus_OSL_Processing_Flag : Z;
  Modbus_OSL_Forward_Flag : Z;
  Modbus_OSL_Attempt : Z;
  Modbus_OSL_Max_Attempts : Z;
  Modbus_OSL_Expected_Slave : Z;
  Modbus_OSL_Req_ADU : list Z;
  Modbus_OSL_L_Req_ADU : Z;
  Modbus_OSL_MainState : Modbus_OSL_MainStates;
  Modbus_OSL_State : Modbus_OSL_States;
  TIMER0 : Timer;
  TIMER2 : Timer;
  UART1_TX : list Z;
  UART1_RX : list Z;
  GPIO_PORTF_DATA_R : Z;
  IntMaster : bool;
  RTU_Msg : list Z;
  RTU_L_Msg : Z;
  App_calls : list App_call;
  MainState_writes : list Modbus_OSL_MainStates
}.

(** Field updates.  [write_MainState] is the only one that touches two
    fields: the variable and its history. *)

Definition set_Baudrate (v : Z) (s : OSL) : OSL :=
  {| Modbus_OSL_Baudrate := v;
     Modbus_OSL_Timeout_R := Modbus_OSL_Timeout_R s;
     Modbus_OSL_Timeout_B := Modbus_OSL_Timeout_B s;
     Modbus_OSL_Mode := Modbus_OSL_Mode s;
     Modbus_OSL_Frame := Modbus_OSL_Frame s;
     Modbus_OSL_Processing_Flag := Modbus_OSL_Processing_Flag s;
     Modbus_OSL_Forward_Flag := Modbus_OSL_Forward_Flag s;
     Modbus_OSL_Attempt := Modbus_OSL_Attempt s;
     Modbus_OSL_Max_Attempts := Modbus_OSL_Max_Attempts s;
     Modbus_OSL_Expected_Slave := Modbus_OSL_Expected_Slave s;
     Modbus_OSL_Req_ADU := Modbus_OSL_Req_ADU s;
     Modbus_OSL_L_Req_ADU := Modbus_OSL_L_Req_ADU s;
     Modbus_OSL_MainState := Modbus_OSL_MainState s;
     Modbus_OSL_State := Modbus_OSL_State s; TIMER0 := TIMER0 s;
     TIMER2 := TIMER2 s; UART1_TX := UART1_TX s; UART1_RX := UART1_RX s;
     GPIO_PORTF_DATA_R := GPIO_PORTF_DATA_R s; IntMaster := IntMaster s;
     RTU_Msg := RTU_Msg s; RTU_L_Msg := RTU_L_Msg s;
     App_calls := App_calls s; MainState_writes := MainState_writes s |}.

Definition set_Timeout_R (v : Z) (s : OSL) : OSL :=
  {| Modbus_OSL_Baudrate := Modbus_OSL_Baudrate s; Modbus_OSL_Timeout_R := v;
     Modbus_OSL_Timeout_B := Modbus_OSL_Timeout_B s;
     Modbus_OSL_Mode := Modbus_OSL_Mode s;
     Modbus_OSL_Frame := Modbus_OSL_Frame s;
     Modbus_OSL_Processing_Flag := Modbus_OSL_Processing_Flag s;
     Modbus_OSL_Forward_Flag := Modbus_OSL_Forward_Flag s;
     Modbus_OSL_Attempt := Modbus_OSL_Attempt s;
     Modbus_OSL_Max_Attempts := Modbus_OSL_Max_Attempts s;
     Modbus_OSL_Expected_Slave := Modbus_OSL_Expected_Slave s;
     Modbus_OSL_Req_ADU := Modbus_OSL_Req_ADU s;
     Modbus_OSL_L_Req_ADU := Modbus_OSL_L_Req_ADU s;
     Modbus_OSL_MainState := Modbus_OSL_MainState s;
     Modbus_OSL_State := Modbus_OSL_State s; TIMER0 := TIMER0 s;
     TIMER2 := TIMER2 s; UART1_TX := UART1_TX s; UART1_RX := UART1_RX s;
     GPIO_PORTF_DATA_R := GPIO_PORTF_DATA_R s; IntMaster := IntMaster s;
     RTU_Msg := RTU_Msg s; RTU_L_Msg := RTU_L_Msg s;
     App_calls := App_calls s; MainState_writes := MainState_writes s |}.

Definition set_Timeout_B (v : Z) (s : OSL) : OSL :=
  {| Modbus_OSL_Baudrate := Modbus_OSL_Baudrate s;
     Modbus_OSL_Timeout_R := Modbus_OSL_Timeout_R s;
     Modbus_OSL_Timeout_B := v; Modbus_OSL_Mode := Modbus_OSL_Mode s;
     Modbus_OSL_Frame := Modbus_OSL_Frame s;
     Modbus_OSL_Processing_Flag := Modbus_OSL_Processing_Flag s;
     Modbus_OSL_Forward_Flag := Modbus_OSL_Forward_Flag s;
     Modbus_OSL_Attempt := Modbus_OSL_Attempt s;
     Modbus_OSL_Max_Attempts := Modbus_OSL_Max_Attempts s;
     Modbus_OSL_Expected_Slave := Modbus_OSL_Expected_Slave s;
     Modbus_OSL_Req_ADU := Modbus_OSL_Req_ADU s;
     Modbus_OSL_L_Req_ADU := Modbus_OSL_L_Req_ADU s;
     Modbus_OSL_MainState := Modbus_OSL_MainState s;
     Modbus_OSL_State := Modbus_OSL_State s; TIMER0 := TIMER0 s;
     TIMER2 := TIMER2 s; UART1_TX := UART1_TX s; UART1_RX := UART1_RX s;
     GPIO_PORTF_DATA_R := GPIO_PORTF_DATA_R s; IntMaster := IntMaster s;
     RTU_Msg := RTU_Msg s; RTU_L_Msg := RTU_L_Msg s;
     App_calls := App_calls s; MainState_writes := MainState_writes s |}.

Definition set_Mode (v : Modbus_OSL_Modes) (s : OSL) : OSL :=
  {| Modbus_OSL_Baudrate := Modbus_OSL_Baudrate s;
     Modbus_OSL_Timeout_R := Modbus_OSL_Timeout_R s;
     Modbus_OSL_Timeout_B := Modbus_OSL_Timeout_B s; Modbus_OSL_Mode := v;
     Modbus_OSL_Frame := Modbus_OSL_Frame s;
     Modbus_OSL_Processing_Flag := Modbus_OSL_Processing_Flag s;
     Modbus_OSL_Forward_Flag := Modbus_OSL_Forward_Flag s;
     Modbus_OSL_Attempt := Modbus_OSL_Attempt s;
     Modbus_OSL_Max_Attempts := Modbus_OSL_Max_Attempts s;
     Modbus_OSL_Expected_Slave := Modbus_OSL_Expected_Slave s;
     Modbus_OSL_Req_ADU := Modbus_OSL_Req_ADU s;
     Modbus_OSL_L_Req_ADU := Modbus_OSL_L_Req_ADU s;
     Modbus_OSL_MainState := Modbus_OSL_MainState s;
     Modbus_OSL_State := Modbus_OSL_State s; TIMER0 := TIMER0 s;
     TIMER2 := TIMER2 s; UART1_TX := UART1_TX s; UART1_RX := UART1_RX s;
     GPIO_PORTF_DATA_R := GPIO_PORTF_DATA_R s; IntMaster := IntMaster s;
     RTU_Msg := RTU_Msg s; RTU_L_Msg := RTU_L_Msg s;
     App_calls := App_calls s; MainState_writes := MainState_writes s |}.

Definition set_Frame (v : Modbus_OSL_Frames) (s : OSL) : OSL :=
  {| Modbus_OSL_Baudrate := Modbus_OSL_Baudrate s;
     Modbus_OSL_Timeout_R := Modbus_OSL_Timeout_R s;
     Modbus_OSL_Timeout_B := Modbus_OSL_Timeout_B s;
     Modbus_OSL_Mode := Modbus_OSL_Mode s; Modbus_OSL_Frame := v;
     Modbus_OSL_Processing_Flag := Modbus_OSL_Processing_Flag s;
     Modbus_OSL_Forward_Flag := Modbus_OSL_Forward_Flag s;
     Modbus_OSL_Attempt := Modbus_OSL_Attempt s;
     Modbus_OSL_Max_Attempts := Modbus_OSL_Max_Attempts s;
     Modbus_OSL_Expected_Slave := Modbus_OSL_Expected_Slave s;
     Modbus_OSL_Req_ADU := Modbus_OSL_Req_ADU s;
     Modbus_OSL_L_Req_ADU := Modbus_OSL_L_Req_ADU s;
     Modbus_OSL_MainState := Modbus_OSL_MainState s;
     Modbus_OSL_State := Modbus_OSL_State s; TIMER0 := TIMER0 s;
     TIMER2 := TIMER2 s; UART1_TX := UART1_TX s; UART1_RX := UART1_RX s;
     GPIO_PORTF_DATA_R := GPIO_PORTF_DATA_R s; IntMaster := IntMaster s;
     RTU_Msg := RTU_Msg s; RTU_L_Msg := RTU_L_Msg s;
     App_calls := App_calls s; MainState_writes := MainState_writes s |}.

Definition set_Processing_Flag (v : Z) (s : OSL) : OSL :=
  {| Modbus_OSL_Baudrate := Modbus_OSL_Baudrate s;
     Modbus_OSL_Timeout_R := Modbus_OSL_Timeout_R s;
     Modbus_OSL_Timeout_B := Modbus_OSL_Timeout_B s;
     Modbus_OSL_Mode := Modbus_OSL_Mode s;
     Modbus_OSL_Frame := Modbus_OSL_Frame s; Modbus_OSL_Processing_Flag := v;
     Modbus_OSL_Forward_Flag := Modbus_OSL_Forward_Flag s;
     Modbus_OSL_Attempt := Modbus_OSL_Attempt s;
     Modbus_OSL_Max_Attempts := Modbus_OSL_Max_Attempts s;
     Modbus_OSL_Expected_Slave := Modbus_OSL_Expected_Slave s;
     Modbus_OSL_Req_ADU := Modbus_OSL_Req_ADU s;
     Modbus_OSL_L_Req_ADU := Modbus_OSL_L_Req_ADU s;
     Modbus_OSL_MainState := Modbus_OSL_MainState s;
     Modbus_OSL_State := Modbus_OSL_State s; TIMER0 := TIMER0 s;
     TIMER2 := TIMER2 s; UART1_TX := UART1_TX s; UART1_RX := UART1_RX s;
     GPIO_PORTF_DATA_R := GPIO_PORTF_DATA_R s; IntMaster := IntMaster s;
     RTU_Msg := RTU_Msg s; RTU_L_Msg := RTU_L_Msg s;
     App_calls := App_calls s; MainState_writes := MainState_writes s |}.

Definition set_Forward_Flag (v : Z) (s : OSL) : OSL :=
  {| Modbus_OSL_Baudrate := Modbus_OSL_Baudrate s;
     Modbus_OSL_Timeout_R := Modbus_OSL_Timeout_R s;
     Modbus_OSL_Timeout_B := Modbus_OSL_Timeout_B s;
     Modbus_OSL_Mode := Modbus_OSL_Mode s;
     Modbus_OSL_Frame := Modbus_OSL_Frame s;
     Modbus_OSL_Processing_Flag := Modbus_OSL_Processing_Flag s;
     Modbus_OSL_Forward_Flag := v;
     Modbus_OSL_Attempt := Modbus_OSL_Attempt s;
     Modbus_OSL_Max_Attempts := Modbus_OSL_Max_Attempts s;
     Modbus_OSL_Expected_Slave := Modbus_OSL_Expected_Slave s;
     Modbus_OSL_Req_ADU := Modbus_OSL_Req_ADU s;
     Modbus_OSL_L_Req_ADU := Modbus_OSL_L_Req_ADU s;
     Modbus_OSL_MainState := Modbus_OSL_MainState s;
     Modbus_OSL_State := Modbus_OSL_State s; TIMER0 := TIMER0 s;
     TIMER2 := TIMER2 s; UART1_TX := UART1_TX s; UART1_RX := UART1_RX s;
     GPIO_PORTF_DATA_R := GPIO_PORTF_DATA_R s; IntMaster := IntMaster s;
     RTU_Msg := RTU_Msg s; RTU_L_Msg := RTU_L_Msg s;
     App_calls := App_calls s; MainState_writes := MainState_writes s |}.

Definition set_Attempt (v : Z) (s : OSL) : OSL :=
  {| Modbus_OSL_Baudrate := Modbus_OSL_Baudrate s;
     Modbus_OSL_Timeout_R := Modbus_OSL_Timeout_R s;
     Modbus_OSL_Timeout_B := Modbus_OSL_Timeout_B s;
     Modbus_OSL_Mode := Modbus_OSL_Mode s;
     Modbus_OSL_Frame := Modbus_OSL_Frame s;
     Modbus_OSL_Processing_Flag := Modbus_OSL_Processing_Flag s;
     Modbus_OSL_Forward_Flag := Modbus_OSL_Forward_Flag s;
     Modbus_OSL_Attempt := v;
     Modbus_OSL_Max_Attempts := Modbus_OSL_Max_Attempts s;
     Modbus_OSL_Expected_Slave := Modbus_OSL_Expected_Slave s;
     Modbus_OSL_Req_ADU := Modbus_OSL_Req_ADU s;
     Modbus_OSL_L_Req_ADU := Modbus_OSL_L_Req_ADU s;
     Modbus_OSL_MainState := Modbus_OSL_MainState s;
     Modbus_OSL_State := Modbus_OSL_State s; TIMER0 := TIMER0 s;
     TIMER2 := TIMER2 s; UART1_TX := UART1_TX s; UART1_RX := UART1_RX s;
     GPIO_PORTF_DATA_R := GPIO_PORTF_DATA_R s; IntMaster := IntMaster s;
     RTU_Msg := RTU_Msg s; RTU_L_Msg := RTU_L_Msg s;
     App_calls := App_calls s; MainState_writes := MainState_writes s |}.

Definition set_Max_Attempts (v : Z) (s : OSL) : OSL :=
  {| Modbus_OSL_Baudrate := Modbus_OSL_Baudrate s;
     Modbus_OSL_Timeout_R := Modbus_OSL_Timeout_R s;
     Modbus_OSL_Timeout_B := Modbus_OSL_Timeout_B s;
     Modbus_OSL_Mode := Modbus_OSL_Mode s;
     Modbus_OSL_Frame := Modbus_OSL_Frame s;
     Modbus_OSL_Processing_Flag := Modbus_OSL_Processing_Flag s;
     Modbus_OSL_Forward_Flag := Modbus_OSL_Forward_Flag s;
     Modbus_OSL_Attempt := Modbus_OSL_Attempt s;
     Modbus_OSL_Max_Attempts := v;
     Modbus_OSL_Expected_Slave := Modbus_OSL_Expected_Slave s;
     Modbus_OSL_Req_ADU := Modbus_OSL_Req_ADU s;
     Modbus_OSL_L_Req_ADU := Modbus_OSL_L_Req_ADU s;
     Modbus_OSL_MainState := Modbus_OSL_MainState s;
     Modbus_OSL_State := Modbus_OSL_State s; TIMER0 := TIMER0 s;
     TIMER2 := TIMER2 s; UART1_TX := UART1_TX s; UART1_RX := UART1_RX s;
     GPIO_PORTF_DATA_R := GPIO_PORTF_DATA_R s; IntMaster := IntMaster s;
     RTU_Msg := RTU_Msg s; RTU_L_Msg := RTU_L_Msg s;
     App_calls := App_calls s; MainState_writes := MainState_writes s |}.

Definition set_Expected_Slave (v : Z) (s : OSL) : OSL :=
  {| Modbus_OSL_Baudrate := Modbus_OSL_Baudrate s;
     Modbus_OSL_Timeout_R := Modbus_OSL_Timeout_R s;
     Modbus_OSL_Timeout_B := Modbus_OSL_Timeout_B s;
     Modbus_OSL_Mode := Modbus_OSL_Mode s;
     Modbus_OSL_Frame := Modbus_OSL_Frame s;
     Modbus_OSL_Processing_Flag := Modbus_OSL_Processing_Flag s;
     Modbus_OSL_Forward_Flag := Modbus_OSL_Forward_Flag s;
     Modbus_OSL_Attempt := Modbus_OSL_Attempt s;
     Modbus_OSL_Max_Attempts := Modbus_OSL_Max_Attempts s;
     Modbus_OSL_Expected_Slave := v;
     Modbus_OSL_Req_ADU := Modbus_OSL_Req_ADU s;
     Modbus_OSL_L_Req_ADU := Modbus_OSL_L_Req_ADU s;
     Modbus_OSL_MainState := Modbus_OSL_MainState s;
     Modbus_OSL_State := Modbus_OSL_State s; TIMER0 := TIMER0 s;
     TIMER2 := TIMER2 s; UART1_TX := UART1_TX s; UART1_RX := UART1_RX s;
     GPIO_PORTF_DATA_R := GPIO_PORTF_DATA_R s; IntMaster := IntMaster s;
     RTU_Msg := RTU_Msg s; RTU_L_Msg := RTU_L_Msg s;
     App_calls := App_calls s; MainState_writes := MainState_writes s |}.

Definition set_Req_ADU (v : list Z) (s : OSL) : OSL :=
  {| Modbus_OSL_Baudrate := Modbus_OSL_Baudrate s;
     Modbus_OSL_Timeout_R := Modbus_OSL_Timeout_R s;
     Modbus_OSL_Timeout_B := Modbus_OSL_Timeout_B s;
     Modbus_OSL_Mode := Modbus_OSL_Mode s;
     Modbus_OSL_Frame := Modbus_OSL_Frame s;
     Modbus_OSL_Processing_Flag := Modbus_OSL_Processing_Flag s;
     Modbus_OSL_Forward_Flag := Modbus_OSL_Forward_Flag s;
     Modbus_OSL_Attempt := Modbus_OSL_Attempt s;
     Modbus_OSL_Max_Attempts := Modbus_OSL_Max_Attempts s;
     Modbus_OSL_Expected_Slave := Modbus_OSL_Expected_Slave s;
     Modbus_OSL_Req_ADU := v; Modbus_OSL_L_Req_ADU := Modbus_OSL_L_Req_ADU s;
     Modbus_OSL_MainState := Modbus_OSL_MainState s;
     Modbus_OSL_State := Modbus_OSL_State s; TIMER0 := TIMER0 s;
     TIMER2 := TIMER2 s; UART1_TX := UART1_TX s; UART1_RX := UART1_RX s;
     GPIO_PORTF_DATA_R := GPIO_PORTF_DATA_R s; IntMaster := IntMaster s;
     RTU_Msg := RTU_Msg s; RTU_L_Msg := RTU_L_Msg s;
     App_calls := App_calls s; MainState_writes := MainState_writes s |}.

Definition set_L_Req_ADU (v : Z) (s : OSL) : OSL :=
  {| Modbus_OSL_Baudrate := Modbus_OSL_Baudrate s;
     Modbus_OSL_Timeout_R := Modbus_OSL_Timeout_R s;
     Modbus_OSL_Timeout_B := Modbus_OSL_Timeout_B s;
     Modbus_OSL_Mode := Modbus_OSL_Mode s;
     Modbus_OSL_Frame := Modbus_OSL_Frame s;
     Modbus_OSL_Processing_Flag := Modbus_OSL_Processing_Flag s;
     Modbus_OSL_Forward_Flag := Modbus_OSL_Forward_Flag s;
     Modbus_OSL_Attempt := Modbus_OSL_Attempt s;
     Modbus_OSL_Max_Attempts := Modbus_OSL_Max_Attempts s;
     Modbus_OSL_Expected_Slave := Modbus_OSL_Expected_Slave s;
     Modbus_OSL_Req_ADU := Modbus_OSL_Req_ADU s; Modbus_OSL_L_Req_ADU := v;
     Modbus_OSL_MainState := Modbus_OSL_MainState s;
     Modbus_OSL_State := Modbus_OSL_State s; TIMER0 := TIMER0 s;
     TIMER2 := TIMER2 s; UART1_TX := UART1_TX s; UART1_RX := UART1_RX s;
     GPIO_PORTF_DATA_R := GPIO_PORTF_DATA_R s; IntMaster := IntMaster s;
     RTU_Msg := RTU_Msg s; RTU_L_Msg := RTU_L_Msg s;
     App_calls := App_calls s; MainState_writes := MainState_writes s |}.

Definition set_State (v : Modbus_OSL_States) (s : OSL) : OSL :=
  {| Modbus_OSL_Baudrate := Modbus_OSL_Baudrate s;
     Modbus_OSL_Timeout_R := Modbus_OSL_Timeout_R s;
     Modbus_OSL_Timeout_B := Modbus_OSL_Timeout_B s;
     Modbus_OSL_Mode := Modbus_OSL_Mode s;
     Modbus_OSL_Frame := Modbus_OSL_Frame s;
     Modbus_OSL_Processing_Flag := Modbus_OSL_Processing_Flag s;
     Modbus_OSL_Forward_Flag := Modbus_OSL_Forward_Flag s;
     Modbus_OSL_Attempt := Modbus_OSL_Attempt s;
     Modbus_OSL_Max_Attempts := Modbus_OSL_Max_Attempts s;
     Modbus_OSL_Expected_Slave := Modbus_OSL_Expected_Slave s;
     Modbus_OSL_Req_ADU := Modbus_OSL_Req_ADU s;
     Modbus_OSL_L_Req_ADU := Modbus_OSL_L_Req_ADU s;
     Modbus_OSL_MainState := Modbus_OSL_MainState s; Modbus_OSL_State := v;
     TIMER0 := TIMER0 s; TIMER2 := TIMER2 s; UART1_TX := UART1_TX s;
     UART1_RX := UART1_RX s; GPIO_PORTF_DATA_R := GPIO_PORTF_DATA_R s;
     IntMaster := IntMaster s; RTU_Msg := RTU_Msg s;
     RTU_L_Msg := RTU_L_Msg s; App_calls := App_calls s;
     MainState_writes := MainState_writes s |}.

Definition set_TIMER0 (v : Timer) (s : OSL) : OSL :=
  {| Modbus_OSL_Baudrate := Modbus_OSL_Baudrate s;
     Modbus_OSL_Timeout_R := Modbus_OSL_Timeout_R s;
     Modbus_OSL_Timeout_B := Modbus_OSL_Timeout_B s;
     Modbus_OSL_Mode := Modbus_OSL_Mode s;
     Modbus_OSL_Frame := Modbus_OSL_Frame s;
     Modbus_OSL_Processing_Flag := Modbus_OSL_Processing_Flag s;
     Modbus_OSL_Forward_Flag := Modbus_OSL_Forward_Flag s;
     Modbus_OSL_Attempt := Modbus_OSL_Attempt s;
     Modbus_OSL_Max_Attempts := Modbus_OSL_Max_Attempts s;
     Modbus_OSL_Expected_Slave := Modbus_OSL_Expected_Slave s;
     Modbus_OSL_Req_ADU := Modbus_OSL_Req_ADU s;
     Modbus_OSL_L_Req_ADU := Modbus_OSL_L_Req_ADU s;
     Modbus_OSL_MainState := Modbus_OSL_MainState s;
     Modbus_OSL_State := Modbus_OSL_State s; TIMER0 := v; TIMER2 := TIMER2 s;
     UART1_TX := UART1_TX s; UART1_RX := UART1_RX s;
     GPIO_PORTF_DATA_R := GPIO_PORTF_DATA_R s; IntMaster := IntMaster s;
     RTU_Msg := RTU_Msg s; RTU_L_Msg := RTU_L_Msg s;
     App_calls := App_calls s; MainState_writes := MainState_writes s |}.

Definition set_TIMER2 (v : Timer) (s : OSL) : OSL :=
  {| Modbus_OSL_Baudrate := Modbus_OSL_Baudrate s;
     Modbus_OSL_Timeout_R := Modbus_OSL_Timeout_R s;
     Modbus_OSL_Timeout_B := Modbus_OSL_Timeout_B s;
     Modbus_OSL_Mode := Modbus_OSL_Mode s;
     Modbus_OSL_Frame := Modbus_OSL_Frame s;
     Modbus_OSL_Processing_Flag := Modbus_OSL_Processing_Flag s;
     Modbus_OSL_Forward_Flag := Modbus_OSL_Forward_Flag s;
     Modbus_OSL_Attempt := Modbus_OSL_Attempt s;
     Modbus_OSL_Max_Attempts := Modbus_OSL_Max_Attempts s;
     Modbus_OSL_Expected_Slave := Modbus_OSL_Expected_Slave s;
     Modbus_OSL_Req_ADU := Modbus_OSL_Req_ADU s;
     Modbus_OSL_L_Req_ADU := Modbus_OSL_L_Req_ADU s;
     Modbus_OSL_MainState := Modbus_OSL_MainState s;
     Modbus_OSL_State := Modbus_OSL_State s; TIMER0 := TIMER0 s; TIMER2 := v;
     UART1_TX := UART1_TX s; UART1_RX := UART1_RX s;
     GPIO_PORTF_DATA_R := GPIO_PORTF_DATA_R s; IntMaster := IntMaster s;
     RTU_Msg := RTU_Msg s; RTU_L_Msg := RTU_L_Msg s;
     App_calls := App_calls s; MainState_writes := MainState_writes s |}.

Definition set_UART1_TX (v : list Z) (s : OSL) : OSL :=
  {| Modbus_OSL_Baudrate := Modbus_OSL_Baudrate s;
     Modbus_OSL_Timeout_R := Modbus_OSL_Timeout_R s;
     Modbus_OSL_Timeout_B := Modbus_OSL_Timeout_B s;
     Modbus_OSL_Mode := Modbus_OSL_Mode s;
     Modbus_OSL_Frame := Modbus_OSL_Frame s;
     Modbus_OSL_Processing_Flag := Modbus_OSL_Processing_Flag s;
     Modbus_OSL_Forward_Flag := Modbus_OSL_Forward_Flag s;
     Modbus_OSL_Attempt := Modbus_OSL_Attempt s;
     Modbus_OSL_Max_Attempts := Modbus_OSL_Max_Attempts s;
     Modbus_OSL_Expected_Slave := Modbus_OSL_Expected_Slave s;
     Modbus_OSL_Req_ADU := Modbus_OSL_Req_ADU s;
     Modbus_OSL_L_Req_ADU := Modbus_OSL_L_Req_ADU s;
     Modbus_OSL_MainState := Modbus_OSL_MainState s;
     Modbus_OSL_State := Modbus_OSL_State s; TIMER0 := TIMER0 s;
     TIMER2 := TIMER2 s; UART1_TX := v; UART1_RX := UART1_RX s;
     GPIO_PORTF_DATA_R := GPIO_PORTF_DATA_R s; IntMaster := IntMaster s;
     RTU_Msg := RTU_Msg s; RTU_L_Msg := RTU_L_Msg s;
     App_calls := App_calls s; MainState_writes := MainState_writes s |}.

Definition set_UART1_RX (v : list Z) (s : OSL) : OSL :=
  {| Modbus_OSL_Baudrate := Modbus_OSL_Baudrate s;
     Modbus_OSL_Timeout_R := Modbus_OSL_Timeout_R s;
     Modbus_OSL_Timeout_B := Modbus_OSL_Timeout_B s;
     Modbus_OSL_Mode := Modbus_OSL_Mode s;
     Modbus_OSL_Frame := Modbus_OSL_Frame s;
     Modbus_OSL_Processing_Flag := Modbus_OSL_Processing_Flag s;
     Modbus_OSL_Forward_Flag := Modbus_OSL_Forward_Flag s;
     Modbus_OSL_Attempt := Modbus_OSL_Attempt s;
     Modbus_OSL_Max_Attempts := Modbus_OSL_Max_Attempts s;
     Modbus_OSL_Expected_Slave := Modbus_OSL_Expected_Slave s;
     Modbus_OSL_Req_ADU := Modbus_OSL_Req_ADU s;
     Modbus_OSL_L_Req_ADU := Modbus_OSL_L_Req_ADU s;
     Modbus_OSL_MainState := Modbus_OSL_MainState s;
     Modbus_OSL_State := Modbus_OSL_State s; TIMER0 := TIMER0 s;
     TIMER2 := TIMER2 s; UART1_TX := UART1_TX s; UART1_RX := v;
     GPIO_PORTF_DATA_R := GPIO_PORTF_DATA_R s; IntMaster := IntMaster s;
     RTU_Msg := RTU_Msg s; RTU_L_Msg := RTU_L_Msg s;
     App_calls := App_calls s; MainState_writes := MainState_writes s |}.

Definition set_GPIO_PORTF_DATA_R (v : Z) (s : OSL) : OSL :=
  {| Modbus_OSL_Baudrate := Modbus_OSL_Baudrate s;
     Modbus_OSL_Timeout_R := Modbus_OSL_Timeout_R s;
     Modbus_OSL_Timeout_B := Modbus_OSL_Timeout_B s;
     Modbus_OSL_Mode := Modbus_OSL_Mode s;
     Modbus_OSL_Frame := Modbus_OSL_Frame s;
     Modbus_OSL_Processing_Flag := Modbus_OSL_Processing_Flag s;
     Modbus_OSL_Forward_Flag := Modbus_OSL_Forward_Flag s;
     Modbus_OSL_Attempt := Modbus_OSL_Attempt s;
     Modbus_OSL_Max_Attempts := Modbus_OSL_Max_Attempts s;
     Modbus_OSL_Expected_Slave := Modbus_OSL_Expected_Slave s;
     Modbus_OSL_Req_ADU := Modbus_OSL_Req_ADU s;
     Modbus_OSL_L_Req_ADU := Modbus_OSL_L_Req_ADU s;
     Modbus_OSL_MainState := Modbus_OSL_MainState s;
     Modbus_OSL_State := Modbus_OSL_State s; TIMER0 := TIMER0 s;
     TIMER2 := TIMER2 s; UART1_TX := UART1_TX s; UART1_RX := UART1_RX s;
     GPIO_PORTF_DATA_R := v; IntMaster := IntMaster s; RTU_Msg := RTU_Msg s;
     RTU_L_Msg := RTU_L_Msg s; App_calls := App_calls s;
     MainState_writes := MainState_writes s |}.

Definition set_IntMaster (v : bool) (s : OSL) : OSL :=
  {| Modbus_OSL_Baudrate := Modbus_OSL_Baudrate s;
     Modbus_OSL_Timeout_R := Modbus_OSL_Timeout_R s;
     Modbus_OSL_Timeout_B := Modbus_OSL_Timeout_B s;
     Modbus_OSL_Mode := Modbus_OSL_Mode s;
     Modbus_OSL_Frame := Modbus_OSL_Frame s;
     Modbus_OSL_Processing_Flag := Modbus_OSL_Processing_Flag s;
     Modbus_OSL_Forward_Flag := Modbus_OSL_Forward_Flag s;
     Modbus_OSL_Attempt := Modbus_OSL_Attempt s;
     Modbus_OSL_Max_Attempts := Modbus_OSL_Max_Attempts s;
     Modbus_OSL_Expected_Slave := Modbus_OSL_Expected_Slave s;
     Modbus_OSL_Req_ADU := Modbus_OSL_Req_ADU s;
     Modbus_OSL_L_Req_ADU := Modbus_OSL_L_Req_ADU s;
     Modbus_OSL_MainState := Modbus_OSL_MainState s;
     Modbus_OSL_State := Modbus_OSL_State s; TIMER0 := TIMER0 s;
     TIMER2 := TIMER2 s; UART1_TX := UART1_TX s; UART1_RX := UART1_RX s;
     GPIO_PORTF_DATA_R := GPIO_PORTF_DATA_R s; IntMaster := v;
     RTU_Msg := RTU_Msg s; RTU_L_Msg := RTU_L_Msg s;
     App_calls := App_calls s; MainState_writes := MainState_writes s |}.

Definition set_RTU_Msg (v : list Z) (s : OSL) : OSL :=
  {| Modbus_OSL_Baudrate := Modbus_OSL_Baudrate s;
     Modbus_OSL_Timeout_R := Modbus_OSL_Timeout_R s;
     Modbus_OSL_Timeout_B := Modbus_OSL_Timeout_B s;
     Modbus_OSL_Mode := Modbus_OSL_Mode s;
     Modbus_OSL_Frame := Modbus_OSL_Frame s;
     Modbus_OSL_Processing_Flag := Modbus_OSL_Processing_Flag s;
     Modbus_OSL_Forward_Flag := Modbus_OSL_Forward_Flag s;
     Modbus_OSL_Attempt := Modbus_OSL_Attempt s;
     Modbus_OSL_Max_Attempts := Modbus_OSL_Max_Attempts s;
     Modbus_OSL_Expected_Slave := Modbus_OSL_Expected_Slave s;
     Modbus_OSL_Req_ADU := Modbus_OSL_Req_ADU s;
     Modbus_OSL_L_Req_ADU := Modbus_OSL_L_Req_ADU s;
     Modbus_OSL_MainState := Modbus_OSL_MainState s;
     Modbus_OSL_State := Modbus_OSL_State s; TIMER0 := TIMER0 s;
     TIMER2 := TIMER2 s; UART1_TX := UART1_TX s; UART1_RX := UART1_RX s;
     GPIO_PORTF_DATA_R := GPIO_PORTF_DATA_R s; IntMaster := IntMaster s;
     RTU_Msg := v; RTU_L_Msg := RTU_L_Msg s; App_calls := App_calls s;
     MainState_writes := MainState_writes s |}.

Definition set_RTU_L_Msg (v : Z) (s : OSL) : OSL :=
  {| Modbus_OSL_Baudrate := Modbus_OSL_Baudrate s;
     Modbus_OSL_Timeout_R := Modbus_OSL_Timeout_R s;
     Modbus_OSL_Timeout_B := Modbus_OSL_Timeout_B s;
     Modbus_OSL_Mode := Modbus_OSL_Mode s;
     Modbus_OSL_Frame := Modbus_OSL_Frame s;
     Modbus_OSL_Processing_Flag := Modbus_OSL_Processing_Flag s;
     Modbus_OSL_Forward_Flag := Modbus_OSL_Forward_Flag s;
     Modbus_OSL_Attempt := Modbus_OSL_Attempt s;
     Modbus_OSL_Max_Attempts := Modbus_OSL_Max_Attempts s;
     Modbus_OSL_Expected_Slave := Modbus_OSL_Expected_Slave s;
     Modbus_OSL_Req_ADU := Modbus_OSL_Req_ADU s;
     Modbus_OSL_L_Req_ADU := Modbus_OSL_L_Req_ADU s;
     Modbus_OSL_MainState := Modbus_OSL_MainState s;
     Modbus_OSL_State := Modbus_OSL_State s; TIMER0 := TIMER0 s;
     TIMER2 := TIMER2 s; UART1_TX := UART1_TX s; UART1_RX := UART1_RX s;
     GPIO_PORTF_DATA_R := GPIO_PORTF_DATA_R s; IntMaster := IntMaster s;
     RTU_Msg := RTU_Msg s; RTU_L_Msg := v; App_calls := App_calls s;
     MainState_writes := MainState_writes s |}.

Definition set_App_calls (v : list App_call) (s : OSL) : OSL :=
  {| Modbus_OSL_Baudrate := Modbus_OSL_Baudrate s;
     Modbus_OSL_Timeout_R := Modbus_OSL_Timeout_R s;
     Modbus_OSL_Timeout_B := Modbus_OSL_Timeout_B s;
     Modbus_OSL_Mode := Modbus_OSL_Mode s;
     Modbus_OSL_Frame := Modbus_OSL_Frame s;
     Modbus_OSL_Processing_Flag := Modbus_OSL_Processing_Flag s;
     Modbus_OSL_Forward_Flag := Modbus_OSL_Forward_Flag s;
     Modbus_OSL_Attempt := Modbus_OSL_Attempt s;
     Modbus_OSL_Max_Attempts := Modbus_OSL_Max_Attempts s;
     Modbus_OSL_Expected_Slave := Modbus_OSL_Expected_Slave s;
     Modbus_OSL_Req_ADU := Modbus_OSL_Req_ADU s;
     Modbus_OSL_L_Req_ADU := Modbus_OSL_L_Req_ADU s;
     Modbus_OSL_MainState := Modbus_OSL_MainState s;
     Modbus_OSL_State := Modbus_OSL_State s; TIMER0 := TIMER0 s;
     TIMER2 := TIMER2 s; UART1_TX := UART1_TX s; UART1_RX := UART1_RX s;
     GPIO_PORTF_DATA_R := GPIO_PORTF_DATA_R s; IntMaster := IntMaster s;
     RTU_Msg := RTU_Msg s; RTU_L_Msg := RTU_L_Msg s; App_calls := v;
     MainState_writes := MainState_writes s |}.

Definition write_MainState (v : Modbus_OSL_MainStates) (s : OSL) : OSL :=
  {| Modbus_OSL_Baudrate := Modbus_OSL_Baudrate s;
     Modbus_OSL_Timeout_R := Modbus_OSL_Timeout_R s;
     Modbus_OSL_Timeout_B := Modbus_OSL_Timeout_B s;
     Modbus_OSL_Mode := Modbus_OSL_Mode s;
     Modbus_OSL_Frame := Modbus_OSL_Frame s;
     Modbus_OSL_Processing_Flag := Modbus_OSL_Processing_Flag s;
     Modbus_OSL_Forward_Flag := Modbus_OSL_Forward_Flag s;
     Modbus_OSL_Attempt := Modbus_OSL_Attempt s;
     Modbus_OSL_Max_Attempts := Modbus_OSL_Max_Attempts s;
     Modbus_OSL_Expected_Slave := Modbus_OSL_Expected_Slave s;
     Modbus_OSL_Req_ADU := Modbus_OSL_Req_ADU s;
     Modbus_OSL_L_Req_ADU := Modbus_OSL_L_Req_ADU s;
     Modbus_OSL_MainState := v; Modbus_OSL_State := Modbus_OSL_State s;
     TIMER0 := TIMER0 s; TIMER2 := TIMER2 s; UART1_TX := UART1_TX s;
     UART1_RX := UART1_RX s; GPIO_PORTF_DATA_R := GPIO_PORTF_DATA_R s;
     IntMaster := IntMaster s; RTU_Msg := RTU_Msg s;
     RTU_L_Msg := RTU_L_Msg s; App_calls := App_calls s;
     MainState_writes := MainState_writes s ++ [v] |}.

(** ** Calls that may not return *)

(** [Ret a s]: the call returned [a] and left the state [s].
    [Hang s]: the call never returns; [s] is the state in which control
    entered the loop it never leaves.  In [Modbus_Fatal_Error] that loop is
    empty, so [s] is also the state the machine stays in; in
    [Modbus_OSL_Send] the loop goes on putting characters on the line and
    touches nothing else. *)
Inductive outcome (A : Type) : Type :=
| Ret (a : A) (s : OSL)
| Hang (s : OSL).

Arguments Ret {A} a s.
Arguments Hang {A} s.

Definition bind {A B : Type} (m : outcome A) (k : A -> OSL -> outcome B)
  : outcome B :=
  match m with
  | Ret a s => k a s
  | Hang s => Hang s
  end.

Notation "x <- m ;; k" := (bind m (fun x => k))
  (at level 61, m at next level, right associativity).

(** The state an outcome ends or stalls in. *)
Definition state_of {A : Type} (m : outcome A) : OSL :=
  match m with
  | Ret _ s => s
  | Hang s => s
  end.

Definition returns {A : Type} (m : outcome A) : bool :=
  match m with
  | Ret _ _ => true
  | Hang _ => false
  end.

(** ** Driver library (StellarisWare), as far as the module uses it *)

Definition UART_INT_RX : Z := 0x010.
Definition UART_INT_PE : Z := 0x100.

Definition TimerLoadSet (v : Z) (t : Timer) : Timer :=
  {| TimerLoad := v; TimerEnabled := TimerEnabled t |}.
Definition TimerEnable (t : Timer) : Timer :=
  {| TimerLoad := TimerLoad t; TimerEnabled := true |}.
Definition TimerDisable (t : Timer) : Timer :=
  {| TimerLoad := TimerLoad t; TimerEnabled := false |}.

(** [UARTCharPut(UART1_BASE, c)]: the character goes out on the line. *)
Definition UARTCharPut (c : Z) (s : OSL) : OSL :=
  set_UART1_TX (UART1_TX s ++ [c]) s.

(** [UARTCharGetNonBlocking(UART1_BASE)]: takes the waiting character out of
    the receiver, or answers -1 when there is none. *)
Definition UARTCharGetNonBlocking (s : OSL) : Z * OSL :=
  match UART1_RX s with
  | [] => (-1, s)
  | c :: rest => (c, set_UART1_RX rest s)
  end.

Definition IntMasterDisable (s : OSL) : OSL := set_IntMaster false s.
Definition IntMasterEnable (s : OSL) : OSL := set_IntMaster true s.

(** [GPIO_PORTF_DATA_R |= 0x01] and [GPIO_PORTF_DATA_R &= ~(0x01)]. *)
Definition LED1_on (s : OSL) : OSL :=
  set_GPIO_PORTF_DATA_R (Z.lor (GPIO_PORTF_DATA_R s) 1) s.
Definition LED1_off (s : OSL) : OSL :=
  set_GPIO_PORTF_DATA_R (Z.land (GPIO_PORTF_DATA_R s) (Z.lnot 1)) s.

(** ** Accessors of Modbus_OSL_RTU and sinks of Modbus_App *)

(** [a[i]] for a C array held as a list.  A read outside the list is
    undefined in C; the model answers 0 there. *)
Definition array_get (a : list Z) (i : Z) : Z :=
  if 0 <=? i then nth (Z.to_nat i) a 0 else 0.

(** Modelled from the spec: the accessors of ReceiveBuffer (at most 256
    bytes, owned by the reception machine) of the missing Modbus_OSL_RTU.c:
    the character at an index and the length of the message. *)
Definition Modbus_OSL_RTU_Char_Get (i : Z) (s : OSL) : Z :=
  array_get (RTU_Msg s) i.
Definition Modbus_OSL_RTU_L_Msg_Get (s : OSL) : Z := RTU_L_Msg s.

(** Modelled from the spec: deliver-inbound-PDU (character by character,
    then the length) and notify-no-response of the missing Modbus_App.c.
    They hand data to the application and leave the module alone; the model
    keeps the calls. *)
Definition app_call (c : App_call) (s : OSL) : OSL :=
  set_App_calls (App_calls s ++ [c]) s.

Definition Modbus_App_Receive_Char (c idx : Z) (s : OSL) : OSL :=
  app_call (App_Receive_Char c idx) s.
Definition Modbus_App_L_Msg_Set (n : Z) (s : OSL) : OSL :=
  app_call (App_L_Msg_Set n) s.
Definition Modbus_App_No_Response (s : OSL) : OSL :=
  app_call App_No_Response s.

(** What the module takes from its platform and from the two modules that
    are not part of the sources.
    - [plain_char]: the signedness the compiler gives plain [char];
    - [SysCtlClockGet]: the processor clock in Hz;
    - [BDEFAULT], [B19200]: the two enumerators of [enum Baud]
      (Modbus_OSL.h) that [Modbus_OSL_Init] names;
    - [Modbus_OSL_RTU_Init]: the start of the reception diagram;
    - [Modbus_OSL_RTU_Mount_ADU pdu Slave L_pdu adu]: the contents of the
      request buffer after mounting;
    - [Modbus_OSL_RTU_Control_CRC]: the check of the received frame, with
      whatever it does to the state;
    - [Modbus_OSL_RTU_UART]: the character interrupt of the reception
      diagram;
    - [Modbus_App_Send], [Modbus_App_FIFOSend],
      [Modbus_App_Manage_CallBack]: the application layer's entry points
      called by the master diagram. *)
Record Platform : Type := {
  plain_char : char_kind;
  SysCtlClockGet : Z;
  BDEFAULT : Z;
  B19200 : Z;
  Modbus_OSL_RTU_Init : OSL -> OSL;
  Modbus_OSL_RTU_Mount_ADU : list Z -> Z -> Z -> list Z -> list Z;
  Modbus_OSL_RTU_Get_Timeout_35 : Z;
  Modbus_OSL_RTU_Control_CRC : OSL -> Z * OSL;
  Modbus_OSL_RTU_UART : OSL -> outcome unit;
  Modbus_App_Send : OSL -> outcome unit;
  Modbus_App_FIFOSend : OSL -> outcome Z;
  Modbus_App_Manage_CallBack : OSL -> outcome unit
}.

(** ** The module *)

Section Module_OSL.

Variable P : Platform.

(** *** Variable management *)

Definition Modbus_OSL_Get_Baudrate (s : OSL) : Z := Modbus_OSL_Baudrate s.

Definition Modbus_OSL_Frame_Get (s : OSL) : Modbus_OSL_Frames :=
  Modbus_OSL_Frame s.
Definition Modbus_OSL_Frame_Set (Flag : Modbus_OSL_Frames) (s : OSL) : OSL :=
  set_Frame Flag s.

Definition Modbus_OSL_State_Get (s : OSL) : Modbus_OSL_States :=
  Modbus_OSL_State s.
Definition Modbus_OSL_State_Set (State : Modbus_OSL_States) (s : OSL) : OSL :=
  set_State State s.

Definition Modbus_OSL_MainState_Get (s : OSL) : Modbus_OSL_MainStates :=
  Modbus_OSL_MainState s.
Definition Modbus_OSL_MainState_Set (State : Modbus_OSL_MainStates) (s : OSL)
  : OSL :=
  write_MainState State s.

(** *** Timeout counts *)

Definition Modbus_OSL_Set_Timeout_R (Baudrate : Z) (s : OSL) : OSL :=
  if Baudrate =? 1200 then set_Timeout_R (uint32 (SysCtlClockGet P * 4)) s
  else if Baudrate =? 2400 then set_Timeout_R (uint32 (SysCtlClockGet P * 3)) s
  else if Baudrate =? 4800 then set_Timeout_R (uint32 (SysCtlClockGet P * 2)) s
  else if Baudrate =? 9600 then set_Timeout_R (SysCtlClockGet P) s
  else set_Timeout_R (SysCtlClockGet P / 2) s.

Definition Modbus_OSL_Set_Timeout_B (Baudrate : Z) (s : OSL) : OSL :=
  if Baudrate =? 1200
  then set_Timeout_B (uint32 (SysCtlClockGet P * 5) / 2) s
  else if Baudrate =? 2400
  then set_Timeout_B (uint32 (SysCtlClockGet P * 3) / 2) s
  else if Baudrate =? 4800
  then set_Timeout_B (uint32 (SysCtlClockGet P * 4) / 5) s
  else if Baudrate =? 9600
  then set_Timeout_B (uint32 (SysCtlClockGet P * 2) / 5) s
  else set_Timeout_B (SysCtlClockGet P / 5) s.

Definition Modbus_OSL_BroadCast_Timeout (s : OSL) : OSL :=
  let s := set_TIMER2 (TimerLoadSet (Modbus_OSL_Timeout_B s) (TIMER2 s)) s in
  let s := set_TIMER2 (TimerEnable (TIMER2 s)) s in
  write_MainState MODBUS_OSL_DELAY s.

Definition Modbus_OSL_Response_Timeout (s : OSL) : OSL :=
  let s := set_TIMER2 (TimerLoadSet (Modbus_OSL_Timeout_R s) (TIMER2 s)) s in
  let s := set_TIMER2 (TimerEnable (TIMER2 s)) s in
  write_MainState MODBUS_OSL_WAITREPLY s.

(** *** Unexpected error

    [void Modbus_Fatal_Error(unsigned char Error) { while(1) { } }].
    [Modbus_Fatal_Error_loop fuel] runs at most [fuel] turns of the loop and
    answers the state at exit, if the loop has been left by then. *)

Fixpoint Modbus_Fatal_Error_loop (fuel : nat) (Error : Z) (s : OSL)
  : option OSL :=
  match fuel with
  | O => None
  | S n => Modbus_Fatal_Error_loop n Error s
  end.

Definition Modbus_Fatal_Error {A : Type} (Error : Z) (s : OSL) : outcome A :=
  Hang s.

(** *** Timer 2 interrupt *)

Definition Modbus_OSL_Timeouts (s : OSL) : outcome unit :=
  match Modbus_OSL_MainState_Get s with
  | MODBUS_OSL_WAITREPLY =>
      Ret tt (Modbus_OSL_MainState_Set MODBUS_OSL_ERROR s)
  | MODBUS_OSL_DELAY =>
      Ret tt (Modbus_OSL_MainState_Set MODBUS_OSL_IDLE s)
  | _ => Modbus_Fatal_Error 110 s
  end.

(** *** Configuration

    The calls that enable and configure the peripherals (UART 1, ports D
    and F, the interrupt controller) act on registers the model does not
    hold.  [TimerConfigure] leaves the timer stopped. *)
Definition Modbus_OSL_Init (Baudrate : Z) (Mode : Modbus_OSL_Modes)
    (Attempts : Z) (s : OSL) : OSL :=
  let s := set_Processing_Flag 0 s in
  let s := set_Forward_Flag 0 s in
  let s := set_Max_Attempts Attempts s in
  let s := set_Attempt 1 s in
  let s := Modbus_OSL_Frame_Set MODBUS_OSL_Frame_OK s in
  let s :=
    if Baudrate =? BDEFAULT P
    then set_Baudrate (B19200 P) s
    else set_Baudrate Baudrate s in
  let s := write_MainState MODBUS_OSL_INITIAL s in
  let s :=
    match Mode with
    | MDEFAULT | MODBUS_OSL_MODE_RTU => set_Mode MODBUS_OSL_MODE_RTU s
    | MODBUS_OSL_MODE_ASCII => set_Mode MODBUS_OSL_MODE_ASCII s
    end in
  let s := IntMasterEnable s in
  let s := set_TIMER2 (TimerDisable (TIMER2 s)) s in
  let s := Modbus_OSL_Set_Timeout_B (Modbus_OSL_Baudrate s) s in
  let s := Modbus_OSL_Set_Timeout_R (Modbus_OSL_Baudrate s) s in
  match Modbus_OSL_Mode s with
  | MODBUS_OSL_MODE_RTU => Modbus_OSL_RTU_Init P s
  | _ => s
  end.

(** *** Resend flag and attempt counter *)

Definition Modbus_OSL_Resend (s : OSL) : Z * OSL :=
  let res := Modbus_OSL_Forward_Flag s in
  (res, set_Forward_Flag 0 s).

Definition Modbus_OSL_Repeat_Request (s : OSL) : OSL :=
  if Modbus_OSL_Attempt s <? Modbus_OSL_Max_Attempts s
  then
    let s := set_Attempt (uint8 (Modbus_OSL_Attempt s + 1)) s in
    set_Forward_Flag 1 s
  else
    let s := Modbus_App_No_Response s in
    set_Attempt 1 s.

Definition Modbus_OSL__Attempt (s : OSL) : OSL := set_Attempt 1 s.

(** *** Message input *)

Definition Modbus_OSL_Reception_Complete (s : OSL) : OSL :=
  match Modbus_OSL_MainState_Get s with
  | MODBUS_OSL_WAITREPLY => set_Processing_Flag 1 s
  | _ => s
  end.

Definition Modbus_OSL_Processing_Msg (s : OSL) : Z * OSL :=
  let s := IntMasterDisable s in
  let res := Modbus_OSL_Processing_Flag s in
  let s := set_Processing_Flag 0 s in
  (res, IntMasterEnable s).

(** [for(i=1;i<Modbus_OSL_RTU_L_Msg_Get();i++)
       Modbus_App_Receive_Char (Modbus_OSL_RTU_Char_Get(i),i-1);]
    with [unsigned char i]. *)
Fixpoint Modbus_OSL_RTU_to_App_loop (fuel : nat) (i : Z) (s : OSL)
  : option OSL :=
  match fuel with
  | O => None
  | S n =>
      if i <? Modbus_OSL_RTU_L_Msg_Get s
      then Modbus_OSL_RTU_to_App_loop n (uint8 (i + 1))
             (Modbus_App_Receive_Char (Modbus_OSL_RTU_Char_Get i s) (i - 1) s)
      else Some s
  end.

(** The counter takes at most the values 1..255 before it either fails the
    test or wraps; 256 turns decide the loop. *)
Definition Modbus_OSL_RTU_to_App (s : OSL) : outcome unit :=
  match Modbus_OSL_RTU_to_App_loop 256 1 s with
  | Some s' =>
      Ret tt (Modbus_App_L_Msg_Set (Modbus_OSL_RTU_L_Msg_Get s' - 1) s')
  | None => Hang s
  end.

(** [Modbus_OSL_Slave0] is the indeterminate initial value of the local
    [Modbus_OSL_Slave], which only the RTU case assigns. *)
Definition Modbus_OSL_Receive_CallBack (Modbus_OSL_Slave0 : Z) (s : OSL)
  : outcome Z :=
  let (msg, s) := Modbus_OSL_Processing_Msg s in
  if msg =? 0 then Ret 0 s
  else
    let Modbus_OSL_Slave :=
      match Modbus_OSL_Mode s with
      | MODBUS_OSL_MODE_RTU => Modbus_OSL_RTU_Char_Get 0 s
      | _ => Modbus_OSL_Slave0
      end in
    if Modbus_OSL_Slave =? Modbus_OSL_Expected_Slave s
    then
      let s := set_TIMER2 (TimerDisable (TIMER2 s)) s in
      let s := Modbus_OSL_MainState_Set MODBUS_OSL_PROCESSING s in
      match Modbus_OSL_Mode s with
      | MODBUS_OSL_MODE_RTU =>
          let (crc, s) := Modbus_OSL_RTU_Control_CRC P s in
          if crc =? 0
          then
            let s := Modbus_OSL_Frame_Set MODBUS_OSL_Frame_OK s in
            Ret 0 (Modbus_OSL_MainState_Set MODBUS_OSL_ERROR s)
          else
            _ <- Modbus_OSL_RTU_to_App s ;;
            Ret 1
      | _ => Ret 0 s
      end
    else Ret 0 s.

(** *** Message output *)

(** [for (i=0;i<L_adu;i++) UARTCharPut(UART1_BASE,mb_req_adu[i]);] with
    [char i] and [unsigned char L_adu].  The comparison is done on [int]
    after the integer promotions, so a negative [i] stays negative; [i++]
    stores [i + 1] back into the [char]. *)
Fixpoint Modbus_OSL_Send_loop (fuel : nat) (mb_req_adu : list Z)
    (L_adu i : Z) (s : OSL) : option OSL :=
  match fuel with
  | O => None
  | S n =>
      if i <? L_adu
      then Modbus_OSL_Send_loop n mb_req_adu L_adu
             (char_of (plain_char P) (i + 1))
             (UARTCharPut (array_get mb_req_adu i) s)
      else Some s
  end.

(** A counter of eight bits has 256 values; a loop that has not been left
    after 257 tests is never left ([Modbus_OSL_Send_loop_decided]). *)
Definition Modbus_OSL_Send (mb_req_adu : list Z) (L_adu : Z) (s : OSL)
  : outcome unit :=
  let s := LED1_on s in
  match Modbus_OSL_Send_loop 257 mb_req_adu L_adu 0 s with
  | Some s' => Ret tt (LED1_off s')
  | None => Hang s
  end.

Definition Modbus_OSL_Output (mb_req_pdu : list Z) (Slave L_pdu : Z)
    (s : OSL) : outcome unit :=
  let s :=
    match Modbus_OSL_Mode s with
    | MODBUS_OSL_MODE_RTU =>
        let s :=
          set_Req_ADU
            (Modbus_OSL_RTU_Mount_ADU P mb_req_pdu Slave L_pdu
               (Modbus_OSL_Req_ADU s)) s in
        let s := set_L_Req_ADU (uint8 (L_pdu + 3)) s in
        Modbus_OSL_State_Set MODBUS_OSL_RTU_EMISSION s
    | _ => s
    end in
  let s := set_Expected_Slave Slave s in
  _ <- Modbus_OSL_Send (Modbus_OSL_Req_ADU s) (Modbus_OSL_L_Req_ADU s) s ;;
  fun s =>
    let s :=
      match Modbus_OSL_Mode s with
      | MODBUS_OSL_MODE_RTU =>
          let s :=
            set_TIMER0
              (TimerLoadSet (Modbus_OSL_RTU_Get_Timeout_35 P) (TIMER0 s)) s in
          set_TIMER0 (TimerEnable (TIMER0 s)) s
      | _ => s
      end in
    if Modbus_OSL_Expected_Slave s =? 0
    then Ret tt (Modbus_OSL_BroadCast_Timeout s)
    else Ret tt (Modbus_OSL_Response_Timeout s).

(** *** Character interrupt

    [ulStatus] is the masked interrupt status the handler reads from the
    UART and clears. *)
Definition UART1IntHandler (ulStatus : Z) (s : OSL) : outcome unit :=
  let s := LED1_on s in
  _ <- match Modbus_OSL_MainState_Get s with
       | MODBUS_OSL_WAITREPLY | MODBUS_OSL_ERROR =>
           if UART_INT_PE =? ulStatus
           then Ret tt (Modbus_OSL_Frame_Set MODBUS_OSL_Frame_NOK s)
           else
             match Modbus_OSL_Mode s with
             | MODBUS_OSL_MODE_RTU => Modbus_OSL_RTU_UART P s
             | MODBUS_OSL_MODE_ASCII => Ret tt s
             | MDEFAULT => Modbus_Fatal_Error 100 s
             end
       | _ => Ret tt (snd (UARTCharGetNonBlocking s))
       end ;;
  fun s => Ret tt (LED1_off s).

(** *** The master diagram, one poll *)

Definition Modbus_OSL_Serial_Comm (Modbus_OSL_Slave0 : Z) (s : OSL)
  : outcome Z :=
  match Modbus_OSL_MainState_Get s with
  | MODBUS_OSL_IDLE =>
      let (resend, s) := Modbus_OSL_Resend s in
      if resend =? 0
      then
        empty <- Modbus_App_FIFOSend P s ;;
        fun s => if empty =? 0 then Ret 1 s else Ret 0 s
      else
        _ <- Modbus_App_Send P s ;;
        Ret 1
  | MODBUS_OSL_WAITREPLY =>
      msg <- Modbus_OSL_Receive_CallBack Modbus_OSL_Slave0 s ;;
      fun s =>
        if msg =? 0 then Ret 1 s
        else
          _ <- Modbus_App_Manage_CallBack P s ;;
          Ret 1
  | MODBUS_OSL_ERROR =>
      match Modbus_OSL_State_Get s with
      | MODBUS_OSL_RTU_IDLE | MODBUS_OSL_ASCII_IDLE =>
          let s := Modbus_OSL_Repeat_Request s in
          Ret 1 (Modbus_OSL_MainState_Set MODBUS_OSL_IDLE s)
      | _ => Ret 1 s
      end
  | _ => Ret 1 s
  end.

End Module_OSL.

(** ** The collaborators, after the specification

    Modbus_OSL_RTU.c and Modbus_App.c are not part of the sources.  The
    properties below hold for every [Platform]; this one, written after the
    specification, gives them something to run on. *)

Module Reference.

(** Modelled from the spec: [ComputeCRC16(bytes)], the standard Modbus CRC16
    (initial value 0xFFFF, reflected polynomial 0xA001), of the missing
    Modbus_OSL_RTU.c. *)
Definition crc16_shift (crc : Z) : Z :=
  if Z.testbit crc 0
  then Z.lxor (Z.shiftr crc 1) 0xA001
  else Z.shiftr crc 1.

Definition crc16_byte (crc b : Z) : Z :=
  Nat.iter 8 crc16_shift (Z.lxor crc b).

Definition ComputeCRC16 (bytes : list Z) : Z :=
  fold_left crc16_byte bytes 0xFFFF.

(** Modelled from the spec: [MountADU(pdu, targetAddress)] of the missing
    Modbus_OSL_RTU.c: prepends the 1-byte address, appends the 2-byte CRC,
    low byte first; the frame overwrites the head of the 256-byte request
    buffer. *)
Definition MountADU (pdu : list Z) (Slave L_pdu : Z) (adu : list Z)
  : list Z :=
  let body := Slave :: firstn (Z.to_nat L_pdu) pdu in
  let crc := ComputeCRC16 body in
  let frame := body ++ [Z.land crc 255; Z.shiftr crc 8] in
  firstn 256 (frame ++ skipn (length frame) adu).

(** Modelled from the spec: [ValidateCRC(frame)] of the missing
    Modbus_OSL_RTU.c: recomputes the CRC over all bytes except the trailing
    two and compares; a frame marked not-Ok is rejected as well.  On
    success the two CRC characters leave the message length, as
    [Modbus_OSL_RTU_to_App] expects (its comment: the CRC has already been
    taken into account). *)
Definition ValidateCRC (s : OSL) : Z * OSL :=
  let frame := firstn (Z.to_nat (RTU_L_Msg s)) (RTU_Msg s) in
  let n := (length frame - 2)%nat in
  let crc := ComputeCRC16 (firstn n frame) in
  match Modbus_OSL_Frame s with
  | MODBUS_OSL_Frame_NOK => (0, s)
  | MODBUS_OSL_Frame_OK =>
      if (2 <=? RTU_L_Msg s)
         && (nth n frame 0 =? Z.land crc 255)
         && (nth (S n) frame 0 =? Z.shiftr crc 8)
      then (1, set_RTU_L_Msg (RTU_L_Msg s - 2) s)
      else (0, s)
  end.

(** Modelled from the spec: the character event of the reception machine of
    the missing Modbus_OSL_RTU.c: the accepted character is appended to
    ReceiveBuffer (at most 256 bytes). *)
Definition ReceiveChar (s : OSL) : outcome unit :=
  let (c, s) := UARTCharGetNonBlocking s in
  if (0 <=? c) && (RTU_L_Msg s <? 256)
  then
    let s :=
      set_RTU_Msg (firstn (Z.to_nat (RTU_L_Msg s)) (RTU_Msg s) ++ [c]) s in
    Ret tt (set_RTU_L_Msg (RTU_L_Msg s + 1) s)
  else Ret tt s.

(** Modelled from the spec: notify-transaction-settled of the missing
    Modbus_App.c: the application chooses the follow-up state, normally Idle
    with the attempt counter reset to 1. *)
Definition TransactionSettled (s : OSL) : outcome unit :=
  let s := Modbus_OSL__Attempt s in
  Ret tt (Modbus_OSL_MainState_Set MODBUS_OSL_IDLE s).

(** Modelled from the spec: the end-of-frame timer (timer 0) of the missing
    Modbus_OSL_RTU.c, armed by [Modbus_OSL_Output] after the emission: when
    it expires the reception machine is back in its idle sub-state. *)
Definition EmissionOver (s : OSL) : OSL :=
  let s := set_TIMER0 (TimerDisable (TIMER0 s)) s in
  Modbus_OSL_State_Set MODBUS_OSL_RTU_IDLE s.

(** Modelled from the spec: the start of the reception machine of the
    missing Modbus_OSL_RTU.c: configuration advances the transaction state
    from Initial to Idle, with the reception machine idle and its buffer
    empty. *)
Definition ReceptionInit (s : OSL) : OSL :=
  let s := set_RTU_Msg [] s in
  let s := set_RTU_L_Msg 0 s in
  let s := Modbus_OSL_State_Set MODBUS_OSL_RTU_IDLE s in
  Modbus_OSL_MainState_Set MODBUS_OSL_IDLE s.

(** The platform without an application: nothing queued, nothing to
    resend.  The enumerators of [enum Baud] are the rates themselves, as
    the switches of the timeout functions suppose, and [BDEFAULT] is 0. *)
Definition bare (ck : char_kind) (clock : Z) : Platform :=
  {| plain_char := ck;
     SysCtlClockGet := clock;
     BDEFAULT := 0;
     B19200 := 19200;
     Modbus_OSL_RTU_Init := ReceptionInit;
     Modbus_OSL_RTU_Mount_ADU := MountADU;
     Modbus_OSL_RTU_Get_Timeout_35 := 0;
     Modbus_OSL_RTU_Control_CRC := ValidateCRC;
     Modbus_OSL_RTU_UART := ReceiveChar;
     Modbus_App_Send := fun s => Ret tt s;
     Modbus_App_FIFOSend := fun s => Ret 1 s;
     Modbus_App_Manage_CallBack := TransactionSettled |}.

(** Modelled from the spec: dequeue-next-outbound-request of the missing
    Modbus_App.c, for an application whose queue holds the one request
    [pdu] for [Slave]: sending and resending both hand it to
    [Modbus_OSL_Output]. *)
Definition platform (ck : char_kind) (clock : Z) (Slave : Z) (pdu : list Z)
  : Platform :=
  {| plain_char := ck;
     SysCtlClockGet := clock;
     BDEFAULT := 0;
     B19200 := 19200;
     Modbus_OSL_RTU_Init := ReceptionInit;
     Modbus_OSL_RTU_Mount_ADU := MountADU;
     Modbus_OSL_RTU_Get_Timeout_35 := 0;
     Modbus_OSL_RTU_Control_CRC := ValidateCRC;
     Modbus_OSL_RTU_UART := ReceiveChar;
     Modbus_App_Send :=
       Modbus_OSL_Output (bare ck clock) pdu Slave (Z.of_nat (length pdu));
     Modbus_App_FIFOSend := fun s =>
       _ <- Modbus_OSL_Output (bare ck clock) pdu Slave
              (Z.of_nat (length pdu)) s ;;
       Ret 0;
     Modbus_App_Manage_CallBack := TransactionSettled |}.

(** The machine at reset: the static variables are zero (the first
    enumerator for those of an enumerated type), the request buffer has its
    256 cells, nothing has been sent or received. *)
Definition power_on : OSL :=
  {| Modbus_OSL_Baudrate := 0;
     Modbus_OSL_Timeout_R := 0;
     Modbus_OSL_Timeout_B := 0;
     Modbus_OSL_Mode := MDEFAULT;
     Modbus_OSL_Frame := MODBUS_OSL_Frame_OK;
     Modbus_OSL_Processing_Flag := 0;
     Modbus_OSL_Forward_Flag := 0;
     Modbus_OSL_Attempt := 0;
     Modbus_OSL_Max_Attempts := 0;
     Modbus_OSL_Expected_Slave := 0;
     Modbus_OSL_Req_ADU := repeat 0 256;
     Modbus_OSL_L_Req_ADU := 0;
     Modbus_OSL_MainState := MODBUS_OSL_INITIAL;
     Modbus_OSL_State := MODBUS_OSL_State_other 0;
     TIMER0 := {| TimerLoad := 0; TimerEnabled := false |};
     TIMER2 := {| TimerLoad := 0; TimerEnabled := false |};
     UART1_TX := [];
     UART1_RX := [];
     GPIO_PORTF_DATA_R := 0;
     IntMaster := false;
     RTU_Msg := [];
     RTU_L_Msg := 0;
     App_calls := [];
     MainState_writes := [] |}.

(** The module configured at 9600 bps, RTU, on an 8 MHz clock, with
    [Attempts] transmissions allowed per request. *)
Definition configured (Attempts : Z) : OSL :=
  Eval cbv in
    Modbus_OSL_Init (bare UnsignedChar 8000000) 9600 MDEFAULT Attempts
      power_on.

End Reference.

(** ** Vocabulary of the properties *)

(** The timeout table as the specification gives it (baud, response
    timeout, broadcast delay), in tenths of a second. *)
Definition spec_response_timeout_tenths (baud : Z) : Z :=
  if baud =? 1200 then 40
  else if baud =? 2400 then 30
  else if baud =? 4800 then 20
  else if baud =? 9600 then 10
  else 5.

Definition spec_broadcast_delay_tenths (baud : Z) : Z :=
  if baud =? 1200 then 25
  else if baud =? 2400 then 15
  else if baud =? 4800 then 8
  else if baud =? 9600 then 4
  else 2.

(** Number of no-response notifications the application has received. *)
Definition is_No_Response (c : App_call) : bool :=
  match c with
  | App_No_Response => true
  | _ => false
  end.

Definition no_responses (s : OSL) : nat :=
  length (filter is_No_Response (App_calls s)).

(** Whatever the engine does between two failures of a request (going back
    to Idle, consuming the resend flag, sending again, waiting) leaves the
    attempt counter, its bound and the notifications alone. *)
Definition retry_neutral (s s' : OSL) : Prop :=
  Modbus_OSL_Attempt s' = Modbus_OSL_Attempt s /\
  Modbus_OSL_Max_Attempts s' = Modbus_OSL_Max_Attempts s /\
  no_responses s' = no_responses s.

(** [failures_in_a_row n s s']: from [s] the engine reaches [s'] through
    exactly [n] timeouts or CRC failures, each handled by
    [Modbus_OSL_Repeat_Request], and none settled in between. *)
Inductive failures_in_a_row : nat -> OSL -> OSL -> Prop :=
| fail_none : forall s s',
    retry_neutral s s' -> failures_in_a_row 0 s s'
| fail_more : forall n s s1 s',
    failures_in_a_row n s s1 ->
    retry_neutral (Modbus_OSL_Repeat_Request s1) s' ->
    failures_in_a_row (S n) s s'.

(** What an operator can observe without a debugger: the serial line, the
    port that drives the LED and what the application has been told. *)
Definition operator_visible (s : OSL) : list Z * Z * list App_call :=
  (UART1_TX s, GPIO_PORTF_DATA_R s, App_calls s).

(** The integers [a, a + n). *)
Definition Zrange (a : Z) (n : nat) : list Z :=
  map (fun k => a + Z.of_nat k) (seq 0 n).

(** A report to the operator: something changes on a channel the operator
    can see. *)
Definition reports_to_operator (before after : OSL) : Prop :=
  operator_visible after <> operator_visible before.

(** Frame delivered to the application by [Modbus_OSL_RTU_to_App]: the
    characters 1 .. L-1 of the receive buffer, stored from index 0 on. *)
Definition delivered_chars (s : OSL) : list App_call :=
  map (fun j => App_Receive_Char (Modbus_OSL_RTU_Char_Get j s) (j - 1))
      (Zrange 1 (Z.to_nat (RTU_L_Msg s - 1))).

(** The state in which [Modbus_OSL_Receive_CallBack] calls the CRC check:
    the flag consumed, timer 2 stopped, the master state PROCESSING. *)
Definition accepted (s : OSL) : OSL :=
  let s := set_IntMaster true (set_Processing_Flag 0 s) in
  let s := set_TIMER2 (TimerDisable (TIMER2 s)) s in
  Modbus_OSL_MainState_Set MODBUS_OSL_PROCESSING s.

(** The largest value the loop counter can hold. *)
Definition char_max (ck : char_kind) : Z :=
  match ck with
  | SignedChar => 127
  | UnsignedChar => 255
  end.

(** Whether the loop is ever left, by signedness and length. *)
Definition Send_returns (ck : char_kind) (L : Z) : bool :=
  L <=? char_max ck.

(** The two straight-line halves of [Modbus_OSL_Output], before and after
    the transmission. *)
Definition Output_mounts (P : Platform) (mb_req_pdu : list Z)
    (Slave L_pdu : Z) (s : OSL) : OSL :=
  let s :=
    match Modbus_OSL_Mode s with
    | MODBUS_OSL_MODE_RTU =>
        let s :=
          set_Req_ADU
            (Modbus_OSL_RTU_Mount_ADU P mb_req_pdu Slave L_pdu
               (Modbus_OSL_Req_ADU s)) s in
        let s := set_L_Req_ADU (uint8 (L_pdu + 3)) s in
        Modbus_OSL_State_Set MODBUS_OSL_RTU_EMISSION s
    | _ => s
    end in
  set_Expected_Slave Slave s.

Definition Output_arms (P : Platform) (s : OSL) : OSL :=
  let s :=
    match Modbus_OSL_Mode s with
    | MODBUS_OSL_MODE_RTU =>
        let s :=
          set_TIMER0
            (TimerLoadSet (Modbus_OSL_RTU_Get_Timeout_35 P) (TIMER0 s)) s in
        set_TIMER0 (TimerEnable (TIMER0 s)) s
    | _ => s
    end in
  if Modbus_OSL_Expected_Slave s =? 0
  then Modbus_OSL_BroadCast_Timeout s
  else Modbus_OSL_Response_Timeout s.

(** ** The engine under its events *)

(** What can happen to the engine: the driver loop polls it, a character
    arrives (with the interrupt status the UART shows), the reception
    machine completes a frame, timer 2 expires. *)
Inductive event : Type :=
| Poll
| Character (c ulStatus : Z)
| Frame_complete
| Timer2_expires.

Definition is_Timer2_expires (e : event) : bool :=
  match e with
  | Timer2_expires => true
  | _ => false
  end.

(** Timer 2 is a one-shot timer: it stops when it expires. *)
Definition step (P : Platform) (slave0 : Z) (e : event) (s : OSL)
  : outcome unit :=
  match e with
  | Poll => _ <- Modbus_OSL_Serial_Comm P slave0 s ;; Ret tt
  | Character c ulStatus =>
      UART1IntHandler P ulStatus (set_UART1_RX (UART1_RX s ++ [c]) s)
  | Frame_complete => Ret tt (Modbus_OSL_Reception_Complete s)
  | Timer2_expires =>
      Modbus_OSL_Timeouts (set_TIMER2 (TimerDisable (TIMER2 s)) s)
  end.

Fixpoint run (P : Platform) (slave0 : Z) (es : list event) (s : OSL)
  : outcome unit :=
  match es with
  | [] => Ret tt s
  | e :: es => _ <- step P slave0 e s ;; run P slave0 es
  end.

(** What the broadcast delay must leave alone. *)
Definition same_transaction (s s' : OSL) : Prop :=
  Modbus_OSL_MainState s' = Modbus_OSL_MainState s /\
  MainState_writes s' = MainState_writes s /\
  TIMER2 s' = TIMER2 s /\
  RTU_Msg s' = RTU_Msg s /\
  RTU_L_Msg s' = RTU_L_Msg s /\
  Modbus_OSL_Processing_Flag s' = Modbus_OSL_Processing_Flag s /\
  App_calls s' = App_calls s.

(** ** Scenarios of the specification *)

(** Scenario A of the specification: three attempts allowed, a request to
    slave 5 that is never answered. *)
Definition scenario_A : Platform :=
  Reference.platform UnsignedChar 8000000 5 [3; 0; 0; 0; 1].

(** A poll in Idle that sends, followed by the end of the emission. *)
Definition sends (P : Platform) (s : OSL) : OSL :=
  Reference.EmissionOver (state_of (Modbus_OSL_Serial_Comm P 0 s)).

(** The characters of [frame] arrive one by one while no parity error is
    flagged, then the reception machine signals the end of the frame. *)
Definition receives (P : Platform) (frame : list Z) (s : OSL) : OSL :=
  Modbus_OSL_Reception_Complete
    (fold_left
       (fun s c => state_of (UART1IntHandler P UART_INT_RX (set_UART1_RX [c] s)))
       frame s).

(** The response timer fires, then the poll handles the error. *)
Definition times_out (P : Platform) (s : OSL) : OSL :=
  state_of (Modbus_OSL_Serial_Comm P 0 (state_of (Modbus_OSL_Timeouts s))).

(** ** Properties *)

(** The state the scenarios start from is the one [Modbus_OSL_Init]
    computes. *)
Lemma configured_by_Init :
  forall Attempts,
    Reference.configured Attempts =
    Modbus_OSL_Init (Reference.bare UnsignedChar 8000000) 9600 MDEFAULT
      Attempts Reference.power_on.
Proof. intros Attempts. reflexivity. Qed.

(** *** Timeout table *)

Lemma uint32_small : forall z, 0 <= z < 4294967296 -> uint32 z = z.
Proof. intros z H. unfold uint32. apply Z.mod_small. exact H. Qed.

Lemma uint8_small : forall z, uchar z -> uint8 z = z.
Proof. intros z H. unfold uint8. apply Z.mod_small. exact H. Qed.

Lemma Timeout_R_count :
  forall P baud s,
    0 <= SysCtlClockGet P -> 5 * SysCtlClockGet P < 4294967296 ->
    Modbus_OSL_Timeout_R (Modbus_OSL_Set_Timeout_R P baud s) =
    spec_response_timeout_tenths baud * SysCtlClockGet P / 10.
Proof.
  intros P baud s H0 H1.
  unfold Modbus_OSL_Set_Timeout_R, spec_response_timeout_tenths.
  destruct (baud =? 1200); [|destruct (baud =? 2400);
    [|destruct (baud =? 4800); [|destruct (baud =? 9600)]]];
    cbn [Modbus_OSL_Timeout_R set_Timeout_R];
    try rewrite uint32_small by lia;
    Z.div_mod_to_equations; lia.
Qed.

Lemma Timeout_B_count :
  forall P baud s,
    0 <= SysCtlClockGet P -> 5 * SysCtlClockGet P < 4294967296 ->
    Modbus_OSL_Timeout_B (Modbus_OSL_Set_Timeout_B P baud s) =
    spec_broadcast_delay_tenths baud * SysCtlClockGet P / 10.
Proof.
  intros P baud s H0 H1.
  unfold Modbus_OSL_Set_Timeout_B, spec_broadcast_delay_tenths.
  destruct (baud =? 1200); [|destruct (baud =? 2400);
    [|destruct (baud =? 4800); [|destruct (baud =? 9600)]]];
    cbn [Modbus_OSL_Timeout_B set_Timeout_B];
    try rewrite uint32_small by lia;
    Z.div_mod_to_equations; lia.
Qed.

(** C6.  For every baud rate, the counts stored by [Modbus_OSL_Set_Timeout_R]
    and [Modbus_OSL_Set_Timeout_B] are the durations of the table multiplied
    by the clock frequency: 4.0/2.5 s at 1200, 3.0/1.5 s at 2400, 2.0/0.8 s
    at 4800, 1.0/0.4 s at 9600 and 0.5/0.2 s at any other rate.  The counts
    are whole timer ticks (the product rounded down), and they are the
    product itself as soon as the clock is a multiple of 10 Hz.  The clock
    is one the 32-bit products do not overflow on (below 858 MHz). *)
Theorem timeout_table :
  forall P baud s,
    0 <= SysCtlClockGet P -> 5 * SysCtlClockGet P < 4294967296 ->
    let R := Modbus_OSL_Timeout_R (Modbus_OSL_Set_Timeout_R P baud s) in
    let B := Modbus_OSL_Timeout_B (Modbus_OSL_Set_Timeout_B P baud s) in
    R = spec_response_timeout_tenths baud * SysCtlClockGet P / 10 /\
    B = spec_broadcast_delay_tenths baud * SysCtlClockGet P / 10 /\
    (SysCtlClockGet P mod 10 = 0 ->
     10 * R = spec_response_timeout_tenths baud * SysCtlClockGet P /\
     10 * B = spec_broadcast_delay_tenths baud * SysCtlClockGet P).
Proof.
  intros P baud s H0 H1 R B.
  assert (HR := Timeout_R_count P baud s H0 H1).
  assert (HB := Timeout_B_count P baud s H0 H1).
  fold R in HR. fold B in HB.
  split; [exact HR|]. split; [exact HB|].
  intros Hm. rewrite HR, HB.
  assert (Hd : forall k, 10 * (k * SysCtlClockGet P / 10) = k * SysCtlClockGet P).
  { intros k.
    assert (Hk : (k * SysCtlClockGet P) mod 10 = 0).
    { rewrite <- Z.mul_mod_idemp_r by lia. rewrite Hm.
      rewrite Z.mul_0_r. reflexivity. }
    Z.div_mod_to_equations. lia. }
  split; apply Hd.
Qed.

Lemma timeout_table_witness :
  let P := Reference.bare UnsignedChar 8000000 in
  let s := Reference.configured 3 in
  (0 <= SysCtlClockGet P /\ 5 * SysCtlClockGet P < 4294967296) /\
  Modbus_OSL_Timeout_R (Modbus_OSL_Set_Timeout_R P 1200 s) = 32000000 /\
  Modbus_OSL_Timeout_B (Modbus_OSL_Set_Timeout_B P 1200 s) = 20000000.
Proof.
  intros P s.
  assert (H0 : 0 <= SysCtlClockGet P) by (simpl; lia).
  assert (H1 : 5 * SysCtlClockGet P < 4294967296) by (simpl; lia).
  split; [split; assumption|].
  destruct (timeout_table P 1200 s H0 H1) as [HR [HB _]].
  split; [rewrite HR | rewrite HB]; reflexivity.
Defined.

Lemma Set_Timeout_R_frame :
  forall P baud s,
    exists v, Modbus_OSL_Set_Timeout_R P baud s = set_Timeout_R v s.
Proof.
  intros P baud s. unfold Modbus_OSL_Set_Timeout_R.
  repeat match goal with
         | |- context [if ?b then _ else _] => destruct b
         end; eexists; reflexivity.
Qed.

Lemma Set_Timeout_B_frame :
  forall P baud s,
    exists v, Modbus_OSL_Set_Timeout_B P baud s = set_Timeout_B v s.
Proof.
  intros P baud s. unfold Modbus_OSL_Set_Timeout_B.
  repeat match goal with
         | |- context [if ?b then _ else _] => destruct b
         end; eexists; reflexivity.
Qed.

(** [Modbus_OSL_Init] hands the reception diagram a module whose flags are
    down, whose counter is 1 under the bound asked for, whose master state
    is INITIAL and whose timeout counts are those of the table for the
    rate kept. *)
Lemma Init_configures :
  forall P Baudrate Mode Attempts s,
    0 <= SysCtlClockGet P -> 5 * SysCtlClockGet P < 4294967296 ->
    exists s',
      Modbus_OSL_Init P Baudrate Mode Attempts s =
        match Modbus_OSL_Mode s' with
        | MODBUS_OSL_MODE_RTU => Modbus_OSL_RTU_Init P s'
        | _ => s'
        end /\
      Modbus_OSL_Baudrate s' =
        (if Baudrate =? BDEFAULT P then B19200 P else Baudrate) /\
      Modbus_OSL_Mode s' =
        match Mode with
        | MODBUS_OSL_MODE_ASCII => MODBUS_OSL_MODE_ASCII
        | _ => MODBUS_OSL_MODE_RTU
        end /\
      Modbus_OSL_Attempt s' = 1 /\
      Modbus_OSL_Max_Attempts s' = Attempts /\
      Modbus_OSL_Forward_Flag s' = 0 /\
      Modbus_OSL_Processing_Flag s' = 0 /\
      Modbus_OSL_Frame s' = MODBUS_OSL_Frame_OK /\
      Modbus_OSL_MainState s' = MODBUS_OSL_INITIAL /\
      Modbus_OSL_Timeout_R s' =
        spec_response_timeout_tenths (Modbus_OSL_Baudrate s') *
        SysCtlClockGet P / 10 /\
      Modbus_OSL_Timeout_B s' =
        spec_broadcast_delay_tenths (Modbus_OSL_Baudrate s') *
        SysCtlClockGet P / 10.
Proof.
  intros P Baudrate Mode Attempts s H0 H1.
  unfold Modbus_OSL_Init. cbv zeta.
  match goal with
  | |- context [Modbus_OSL_Set_Timeout_B P _ ?x] => remember x as s0 eqn:E0
  end.
  assert (F1 : Modbus_OSL_Baudrate s0 =
               (if Baudrate =? BDEFAULT P then B19200 P else Baudrate))
    by (subst s0; destruct (Baudrate =? BDEFAULT P); destruct Mode;
        reflexivity).
  assert (F2 : Modbus_OSL_Mode s0 =
               match Mode with
               | MODBUS_OSL_MODE_ASCII => MODBUS_OSL_MODE_ASCII
               | _ => MODBUS_OSL_MODE_RTU
               end)
    by (subst s0; destruct (Baudrate =? BDEFAULT P); destruct Mode;
        reflexivity).
  assert (F3 : Modbus_OSL_Attempt s0 = 1 /\
               Modbus_OSL_Max_Attempts s0 = Attempts /\
               Modbus_OSL_Forward_Flag s0 = 0 /\
               Modbus_OSL_Processing_Flag s0 = 0 /\
               Modbus_OSL_Frame s0 = MODBUS_OSL_Frame_OK /\
               Modbus_OSL_MainState s0 = MODBUS_OSL_INITIAL)
    by (subst s0; destruct (Baudrate =? BDEFAULT P); destruct Mode;
        repeat split).
  clear E0.
  assert (HB := Timeout_B_count P (Modbus_OSL_Baudrate s0) s0 H0 H1).
  destruct (Set_Timeout_B_frame P (Modbus_OSL_Baudrate s0) s0) as (vb & Hb).
  rewrite Hb in HB |- *. clear Hb.
  cbn [Modbus_OSL_Timeout_B Modbus_OSL_Baudrate set_Timeout_B] in HB |- *.
  assert (HR := Timeout_R_count P (Modbus_OSL_Baudrate s0)
                  (set_Timeout_B vb s0) H0 H1).
  destruct (Set_Timeout_R_frame P (Modbus_OSL_Baudrate s0)
              (set_Timeout_B vb s0)) as (vr & Hr).
  rewrite Hr in HR |- *. clear Hr.
  cbn [Modbus_OSL_Timeout_R set_Timeout_R] in HR.
  exists (set_Timeout_R vr (set_Timeout_B vb s0)).
  split; [reflexivity|].
  destruct F3 as (F3 & F4 & F5 & F6 & F7 & F8).
  split; [exact F1|]. split; [exact F2|]. split; [exact F3|].
  split; [exact F4|]. split; [exact F5|]. split; [exact F6|].
  split; [exact F7|]. split; [exact F8|].
  split; [exact HR|exact HB].
Qed.

(** The rows of the table on the 50 MHz clock of the LM3S8962, in timer
    ticks: response timeout and broadcast delay. *)
Example timeout_table_at_50MHz :
  let P := Reference.bare UnsignedChar 50000000 in
  let row baud :=
    (Modbus_OSL_Timeout_R (Modbus_OSL_Set_Timeout_R P baud Reference.power_on),
     Modbus_OSL_Timeout_B (Modbus_OSL_Set_Timeout_B P baud Reference.power_on)) in
  row 1200 = (200000000, 125000000) /\
  row 2400 = (150000000, 75000000) /\
  row 4800 = (100000000, 40000000) /\
  row 9600 = (50000000, 20000000) /\
  row 19200 = (25000000, 10000000).
Proof. cbv zeta. repeat split. Qed.

(** *** Retry tracker *)

Lemma retry_neutral_refl : forall s, retry_neutral s s.
Proof. intros s. repeat split. Qed.

Lemma retry_neutral_trans :
  forall s1 s2 s3,
    retry_neutral s1 s2 -> retry_neutral s2 s3 -> retry_neutral s1 s3.
Proof.
  unfold retry_neutral. intros s1 s2 s3 (A1 & M1 & N1) (A2 & M2 & N2).
  repeat split; congruence.
Qed.

Lemma no_responses_app_call :
  forall c s,
    no_responses (app_call c s) =
    (no_responses s + (if is_No_Response c then 1 else 0))%nat.
Proof.
  intros c s. unfold no_responses, app_call. cbn [App_calls set_App_calls].
  rewrite filter_app, length_app. cbn [filter].
  destruct (is_No_Response c); reflexivity.
Qed.

Lemma Repeat_Request_again :
  forall s,
    uchar (Modbus_OSL_Max_Attempts s) ->
    0 <= Modbus_OSL_Attempt s < Modbus_OSL_Max_Attempts s ->
    Modbus_OSL_Repeat_Request s =
    set_Forward_Flag 1 (set_Attempt (Modbus_OSL_Attempt s + 1) s).
Proof.
  intros s HM HA. unfold Modbus_OSL_Repeat_Request.
  destruct (Z.ltb_spec (Modbus_OSL_Attempt s) (Modbus_OSL_Max_Attempts s));
    [|lia].
  rewrite uint8_small by (unfold uchar in *; lia). reflexivity.
Qed.

Lemma Repeat_Request_give_up :
  forall s,
    Modbus_OSL_Max_Attempts s <= Modbus_OSL_Attempt s ->
    Modbus_OSL_Repeat_Request s = set_Attempt 1 (Modbus_App_No_Response s).
Proof.
  intros s HA. unfold Modbus_OSL_Repeat_Request.
  destruct (Z.ltb_spec (Modbus_OSL_Attempt s) (Modbus_OSL_Max_Attempts s));
    [lia|reflexivity].
Qed.

(** The steps the engine takes between two failures are neutral: the
    poll that handles the error goes back to Idle after
    [Modbus_OSL_Repeat_Request]; the next poll consumes the resend flag;
    the request goes out again; the timer expires. *)
Lemma Serial_Comm_in_ERROR :
  forall P slave0 s,
    Modbus_OSL_MainState s = MODBUS_OSL_ERROR ->
    Modbus_OSL_State s = MODBUS_OSL_RTU_IDLE \/
    Modbus_OSL_State s = MODBUS_OSL_ASCII_IDLE ->
    Modbus_OSL_Serial_Comm P slave0 s =
    Ret 1 (Modbus_OSL_MainState_Set MODBUS_OSL_IDLE
             (Modbus_OSL_Repeat_Request s)).
Proof.
  intros P slave0 s Hst Hidle.
  unfold Modbus_OSL_Serial_Comm, Modbus_OSL_MainState_Get,
    Modbus_OSL_State_Get.
  rewrite Hst. destruct Hidle as [-> | ->]; reflexivity.
Qed.

Lemma retry_neutral_MainState_Set :
  forall State s, retry_neutral s (Modbus_OSL_MainState_Set State s).
Proof. intros State s. repeat split. Qed.

Lemma retry_neutral_Resend :
  forall s, retry_neutral s (snd (Modbus_OSL_Resend s)).
Proof. intros s. repeat split. Qed.

Lemma retry_neutral_Timeouts :
  forall s, retry_neutral s (state_of (Modbus_OSL_Timeouts s)).
Proof.
  intros s. unfold Modbus_OSL_Timeouts, Modbus_OSL_MainState_Get.
  destruct (Modbus_OSL_MainState s); repeat split.
Qed.

(** While attempts remain, [k] failures in a row leave the counter at
    [1 + k] and notify nobody. *)
Lemma failures_before_the_last :
  forall k s s',
    failures_in_a_row k s s' ->
    Modbus_OSL_Attempt s = 1 ->
    uchar (Modbus_OSL_Max_Attempts s) ->
    Z.of_nat k < Modbus_OSL_Max_Attempts s ->
    Modbus_OSL_Attempt s' = 1 + Z.of_nat k /\
    Modbus_OSL_Max_Attempts s' = Modbus_OSL_Max_Attempts s /\
    no_responses s' = no_responses s.
Proof.
  intros k s s' H. induction H as [s s' (A & M & N)|n s s1 s' H IH (A & M & N)];
    intros H1 HM Hk.
  - rewrite A, M, N, H1. split; [simpl; lia|split; reflexivity].
  - destruct IH as (A1 & M1 & N1); [assumption|assumption|lia|].
    rewrite Repeat_Request_again in A, M, N
      by (rewrite ?M1, ?A1; unfold uchar in *; lia).
    cbn [Modbus_OSL_Attempt Modbus_OSL_Max_Attempts set_Forward_Flag
         set_Attempt] in A, M.
    unfold no_responses in *.
    cbn [App_calls set_Forward_Flag set_Attempt] in N.
    rewrite A, M, N, A1, M1, N1. split; [lia|split; reflexivity].
Qed.

(** C1.  [Modbus_OSL_Repeat_Request], on a counter below the bound, adds
    exactly one to it and raises the resend flag, and nothing else; on any
    other counter it notifies the application of the missing response and
    puts the counter back to 1, and nothing else.  Hence, for a request
    whose counter starts at 1 and a bound of at least 1: fewer failures in a
    row than the bound notify nobody, and exactly as many failures as the
    bound end with exactly one more notification and the counter at 1. *)
Theorem Repeat_Request_bounds_resends :
  forall s,
    uchar (Modbus_OSL_Attempt s) ->
    uchar (Modbus_OSL_Max_Attempts s) ->
    (Modbus_OSL_Attempt s < Modbus_OSL_Max_Attempts s ->
     Modbus_OSL_Repeat_Request s =
     set_Forward_Flag 1 (set_Attempt (Modbus_OSL_Attempt s + 1) s)) /\
    (Modbus_OSL_Max_Attempts s <= Modbus_OSL_Attempt s ->
     Modbus_OSL_Repeat_Request s =
     set_Attempt 1 (Modbus_App_No_Response s)) /\
    (Modbus_OSL_Attempt s = 1 ->
     1 <= Modbus_OSL_Max_Attempts s ->
     (forall k s',
        Z.of_nat k < Modbus_OSL_Max_Attempts s ->
        failures_in_a_row k s s' ->
        no_responses s' = no_responses s /\
        Modbus_OSL_Attempt s' = 1 + Z.of_nat k) /\
     (forall s',
        failures_in_a_row (Z.to_nat (Modbus_OSL_Max_Attempts s)) s s' ->
        no_responses s' = S (no_responses s) /\
        Modbus_OSL_Attempt s' = 1)).
Proof.
  intros s HA HM. split; [|split; [|intros H1 Hpos; split]].
  - intros Hlt. apply Repeat_Request_again; unfold uchar in *; lia.
  - apply Repeat_Request_give_up.
  - intros k s' Hk H.
    destruct (failures_before_the_last k s s' H) as (A & _ & N); auto.
  - intros s' H.
    destruct (Z.to_nat (Modbus_OSL_Max_Attempts s)) as [|n] eqn:En; [lia|].
    inversion H as [|n' s0 s1 s0' H' (A & M & N)]; subst.
    destruct (failures_before_the_last n s s1 H') as (A1 & M1 & N1);
      [assumption|assumption|lia|].
    rewrite Repeat_Request_give_up in A, M, N by lia.
    cbn [Modbus_OSL_Attempt set_Attempt] in A.
    unfold no_responses in N.
    cbn [App_calls set_Attempt] in N.
    fold (no_responses (Modbus_App_No_Response s1)) in N.
    unfold Modbus_App_No_Response in N.
    rewrite no_responses_app_call in N. cbn [is_No_Response] in N.
    fold (no_responses s') in N.
    split; [lia|exact A].
Qed.

Lemma Repeat_Request_bounds_resends_witness :
  let P := scenario_A in
  let sent := sends P (Reference.configured 3) in
  let final :=
    times_out P (sends P (times_out P (sends P (times_out P sent)))) in
  (uchar (Modbus_OSL_Attempt sent) /\
   uchar (Modbus_OSL_Max_Attempts sent) /\
   Modbus_OSL_Attempt sent = 1 /\
   1 <= Modbus_OSL_Max_Attempts sent) /\
  no_responses final = S (no_responses sent) /\
  Modbus_OSL_Attempt final = 1.
Proof.
  intros P sent final.
  assert (HA : uchar (Modbus_OSL_Attempt sent))
    by (change (uchar 1); unfold uchar; lia).
  assert (HM : uchar (Modbus_OSL_Max_Attempts sent))
    by (change (uchar 3); unfold uchar; lia).
  assert (H1 : Modbus_OSL_Attempt sent = 1) by reflexivity.
  assert (Hp : 1 <= Modbus_OSL_Max_Attempts sent)
    by (change (1 <= 3); lia).
  split; [repeat split; assumption|].
  destruct (Repeat_Request_bounds_resends sent HA HM) as (_ & _ & H).
  destruct (H H1 Hp) as (_ & Hlast).
  apply Hlast.
  pose (a1 := state_of (Modbus_OSL_Timeouts sent)).
  pose (a2 := state_of (Modbus_OSL_Timeouts (sends P (times_out P sent)))).
  pose (a3 :=
    state_of (Modbus_OSL_Timeouts
                (sends P (times_out P (sends P (times_out P sent)))))).
  change (failures_in_a_row 3 sent final).
  apply (fail_more 2 sent a3 final).
  - apply (fail_more 1 sent a2 a3).
    + apply (fail_more 0 sent a1 a2).
      * apply fail_none. vm_compute. repeat split.
      * vm_compute. repeat split.
    + vm_compute. repeat split.
  - vm_compute. repeat split.
Defined.

(** *** Frame-complete flag *)

Lemma Processing_Msg_reads_and_clears :
  forall s,
    Modbus_OSL_Processing_Msg s =
    (Modbus_OSL_Processing_Flag s,
     set_IntMaster true (set_Processing_Flag 0 s)).
Proof. intros s. reflexivity. Qed.

Lemma Receive_CallBack_no_message :
  forall P slave0 s,
    Modbus_OSL_Processing_Flag s = 0 ->
    Modbus_OSL_Receive_CallBack P slave0 s =
    Ret 0 (set_IntMaster true (set_Processing_Flag 0 s)).
Proof.
  intros P slave0 s H. unfold Modbus_OSL_Receive_CallBack.
  rewrite Processing_Msg_reads_and_clears, H. reflexivity.
Qed.

(** C5.  [Modbus_OSL_Reception_Complete] raises the processing flag exactly
    when the master state is still WAITREPLY; in every other state, Error
    after a response timeout included, it changes nothing, so the flag is
    never set outside WAITREPLY, and a flag that was down stays down: the
    consumer [Modbus_OSL_Receive_CallBack] then finds no message, hands
    nothing to the application and leaves the master state alone. *)
Theorem Reception_Complete_only_in_WAITREPLY :
  forall s,
    (Modbus_OSL_MainState s = MODBUS_OSL_WAITREPLY ->
     Modbus_OSL_Reception_Complete s = set_Processing_Flag 1 s) /\
    (Modbus_OSL_MainState s <> MODBUS_OSL_WAITREPLY ->
     Modbus_OSL_Reception_Complete s = s) /\
    (Modbus_OSL_Processing_Flag (Modbus_OSL_Reception_Complete s) <>
     Modbus_OSL_Processing_Flag s ->
     Modbus_OSL_MainState s = MODBUS_OSL_WAITREPLY) /\
    (forall P slave0,
       Modbus_OSL_MainState s <> MODBUS_OSL_WAITREPLY ->
       Modbus_OSL_Processing_Flag s = 0 ->
       exists s',
         Modbus_OSL_Receive_CallBack P slave0
           (Modbus_OSL_Reception_Complete s) = Ret 0 s' /\
         App_calls s' = App_calls s /\
         Modbus_OSL_MainState s' = Modbus_OSL_MainState s /\
         Modbus_OSL_Processing_Flag s' = 0).
Proof.
  intros s.
  assert (Hin : Modbus_OSL_MainState s = MODBUS_OSL_WAITREPLY ->
                Modbus_OSL_Reception_Complete s = set_Processing_Flag 1 s).
  { intros H. unfold Modbus_OSL_Reception_Complete, Modbus_OSL_MainState_Get.
    rewrite H. reflexivity. }
  assert (Hout : Modbus_OSL_MainState s <> MODBUS_OSL_WAITREPLY ->
                 Modbus_OSL_Reception_Complete s = s).
  { intros H. unfold Modbus_OSL_Reception_Complete, Modbus_OSL_MainState_Get.
    destruct (Modbus_OSL_MainState s); try reflexivity. contradiction. }
  split; [exact Hin|]. split; [exact Hout|]. split.
  - intros Hch.
    destruct (Modbus_OSL_MainState s) eqn:E; try reflexivity;
      exfalso; apply Hch; rewrite Hout; congruence.
  - intros P slave0 Hst Hflag. rewrite (Hout Hst).
    rewrite Receive_CallBack_no_message by exact Hflag.
    eexists. split; [reflexivity|]. repeat split.
Qed.

(** A frame is completed after the response timer has already fired. *)
Lemma Reception_Complete_only_in_WAITREPLY_witness :
  let P := scenario_A in
  let late := state_of (Modbus_OSL_Timeouts (sends P (Reference.configured 3))) in
  (Modbus_OSL_MainState late <> MODBUS_OSL_WAITREPLY /\
   Modbus_OSL_Processing_Flag late = 0) /\
  Modbus_OSL_Reception_Complete late = late /\
  exists s',
    Modbus_OSL_Receive_CallBack P 0 (Modbus_OSL_Reception_Complete late) =
    Ret 0 s' /\
    App_calls s' = App_calls late /\
    Modbus_OSL_MainState s' = Modbus_OSL_MainState late /\
    Modbus_OSL_Processing_Flag s' = 0.
Proof.
  intros P late.
  assert (Hst : Modbus_OSL_MainState late <> MODBUS_OSL_WAITREPLY)
    by (change (MODBUS_OSL_ERROR <> MODBUS_OSL_WAITREPLY); discriminate).
  assert (Hflag : Modbus_OSL_Processing_Flag late = 0) by reflexivity.
  destruct (Reception_Complete_only_in_WAITREPLY late) as (_ & Hout & _ & H).
  split; [split; assumption|].
  split; [exact (Hout Hst)|exact (H P 0 Hst Hflag)].
Defined.

(** *** Fatal guard *)

Lemma Modbus_Fatal_Error_never_returns :
  forall fuel Error s, Modbus_Fatal_Error_loop fuel Error s = None.
Proof. induction fuel as [|n IH]; intros Error s; simpl; auto. Qed.

(** C7, as the code has it.  A timer expiry in a state other than WAITREPLY
    and DELAY calls [Modbus_Fatal_Error] with the code 110.  That call
    never returns: its loop is not left after any number of turns, and the
    master state is never written again.  The code is only the argument of
    the call: the function does not use it, and nothing the operator can
    see (serial line, LED port, application) changes. *)
Theorem Timeouts_elsewhere_is_fatal :
  forall s,
    Modbus_OSL_MainState s <> MODBUS_OSL_WAITREPLY ->
    Modbus_OSL_MainState s <> MODBUS_OSL_DELAY ->
    Modbus_OSL_Timeouts s = Modbus_Fatal_Error 110 s /\
    Modbus_OSL_Timeouts s = Hang s /\
    (forall fuel, Modbus_Fatal_Error_loop fuel 110 s = None) /\
    (forall Error, @Modbus_Fatal_Error unit Error s = Hang s) /\
    operator_visible (state_of (Modbus_OSL_Timeouts s)) = operator_visible s.
Proof.
  intros s H1 H2.
  assert (H : Modbus_OSL_Timeouts s = Modbus_Fatal_Error 110 s).
  { unfold Modbus_OSL_Timeouts, Modbus_OSL_MainState_Get.
    destruct (Modbus_OSL_MainState s); try reflexivity; contradiction. }
  split; [exact H|]. split; [exact H|].
  split; [intros fuel; apply Modbus_Fatal_Error_never_returns|].
  split; [reflexivity|]. rewrite H. reflexivity.
Qed.

Lemma Timeouts_elsewhere_is_fatal_witness :
  let s := Reference.configured 3 in
  (Modbus_OSL_MainState s <> MODBUS_OSL_WAITREPLY /\
   Modbus_OSL_MainState s <> MODBUS_OSL_DELAY) /\
  Modbus_OSL_Timeouts s = Hang s.
Proof.
  intros s.
  assert (H1 : Modbus_OSL_MainState s <> MODBUS_OSL_WAITREPLY)
    by (simpl; discriminate).
  assert (H2 : Modbus_OSL_MainState s <> MODBUS_OSL_DELAY)
    by (simpl; discriminate).
  split; [split; assumption|].
  exact (proj1 (proj2 (Timeouts_elsewhere_is_fatal s H1 H2))).
Defined.

(** A timer expiry in Idle: the guard is reached, and what the operator can
    see is what it was; codes 110 and 100 leave the very same machine. *)
Lemma Fatal_Error_reports_nothing :
  Modbus_OSL_MainState (Reference.configured 3) = MODBUS_OSL_IDLE /\
  ~ reports_to_operator (Reference.configured 3)
      (state_of (Modbus_OSL_Timeouts (Reference.configured 3))) /\
  @Modbus_Fatal_Error unit 110 (Reference.configured 3) =
  @Modbus_Fatal_Error unit 100 (Reference.configured 3).
Proof.
  split; [reflexivity|]. split; [|reflexivity].
  intros H. apply H. reflexivity.
Qed.

(** *** Consuming a complete frame *)

Lemma Zrange_S : forall a n, Zrange a (S n) = a :: Zrange (a + 1) n.
Proof.
  intros a n. unfold Zrange. cbn [seq map]. f_equal; [lia|].
  rewrite <- seq_shift, map_map. apply map_ext. intros k. lia.
Qed.

Lemma RTU_to_App_loop_closed :
  forall fuel i s,
    1 <= i -> RTU_L_Msg s < 256 ->
    (Z.to_nat (RTU_L_Msg s - i) < fuel)%nat ->
    Modbus_OSL_RTU_to_App_loop fuel i s =
    Some (set_App_calls
            (App_calls s ++
             map (fun j =>
                    App_Receive_Char (Modbus_OSL_RTU_Char_Get j s) (j - 1))
                 (Zrange i (Z.to_nat (RTU_L_Msg s - i)))) s).
Proof.
  induction fuel as [|n IH]; intros i s Hi HL Hf; [lia|].
  cbn [Modbus_OSL_RTU_to_App_loop]. unfold Modbus_OSL_RTU_L_Msg_Get.
  destruct (Z.ltb_spec i (RTU_L_Msg s)) as [Hlt|Hge].
  - rewrite uint8_small by (unfold uchar; lia).
    rewrite IH;
      [|lia|exact HL|cbn [RTU_L_Msg Modbus_App_Receive_Char app_call
                          set_App_calls]; lia].
    replace (Z.to_nat (RTU_L_Msg s - i))
      with (S (Z.to_nat (RTU_L_Msg s - (i + 1)))) by lia.
    rewrite Zrange_S. cbn [map].
    unfold Modbus_App_Receive_Char, app_call.
    cbn [RTU_L_Msg App_calls set_App_calls].
    rewrite <- app_assoc. reflexivity.
  - replace (Z.to_nat (RTU_L_Msg s - i)) with 0%nat by lia.
    cbn [Zrange seq map]. rewrite app_nil_r. destruct s; reflexivity.
Qed.

Lemma RTU_to_App_loop_more_fuel :
  forall fuel i s s' k,
    Modbus_OSL_RTU_to_App_loop fuel i s = Some s' ->
    Modbus_OSL_RTU_to_App_loop (fuel + k) i s = Some s'.
Proof.
  induction fuel as [|n IH]; intros i s s' k H; [discriminate|].
  cbn [Modbus_OSL_RTU_to_App_loop Nat.add] in *.
  destruct (i <? Modbus_OSL_RTU_L_Msg_Get s); [apply IH; exact H|exact H].
Qed.

(** A length no [unsigned char] reaches: the counter wraps and the loop is
    never left. *)
Lemma RTU_to_App_loop_forever :
  forall fuel i s,
    uchar i -> 256 <= RTU_L_Msg s ->
    Modbus_OSL_RTU_to_App_loop fuel i s = None.
Proof.
  induction fuel as [|n IH]; intros i s Hi HL; [reflexivity|].
  cbn [Modbus_OSL_RTU_to_App_loop]. unfold Modbus_OSL_RTU_L_Msg_Get.
  destruct (Z.ltb_spec i (RTU_L_Msg s)); [|unfold uchar in Hi; lia].
  apply IH; [apply Z.mod_pos_bound; lia|exact HL].
Qed.

(** 256 turns decide the loop of [Modbus_OSL_RTU_to_App]. *)
Lemma Modbus_OSL_RTU_to_App_loop_decided :
  forall fuel s s',
    Modbus_OSL_RTU_to_App_loop fuel 1 s = Some s' ->
    Modbus_OSL_RTU_to_App_loop 256 1 s = Some s'.
Proof.
  intros fuel s s' H.
  destruct (Z.lt_ge_cases (RTU_L_Msg s) 256) as [Hlt|Hge].
  - assert (H0 := RTU_to_App_loop_closed 256 1 s ltac:(lia) Hlt ltac:(lia)).
    assert (Hs : Modbus_OSL_RTU_to_App_loop (256 + fuel) 1 s = Some s').
    { rewrite Nat.add_comm. apply RTU_to_App_loop_more_fuel. exact H. }
    rewrite (RTU_to_App_loop_more_fuel _ _ _ _ fuel H0) in Hs.
    rewrite <- Hs. exact H0.
  - rewrite RTU_to_App_loop_forever in H by (unfold uchar; lia).
    discriminate.
Qed.

Lemma RTU_to_App_delivers :
  forall s,
    uchar (RTU_L_Msg s) ->
    Modbus_OSL_RTU_to_App s =
    Ret tt (set_App_calls
              (App_calls s ++ delivered_chars s ++
               [App_L_Msg_Set (RTU_L_Msg s - 1)]) s).
Proof.
  intros s HL. unfold Modbus_OSL_RTU_to_App.
  rewrite RTU_to_App_loop_closed by (unfold uchar in HL; lia).
  unfold Modbus_App_L_Msg_Set, app_call, Modbus_OSL_RTU_L_Msg_Get.
  cbn [RTU_L_Msg App_calls set_App_calls].
  rewrite <- app_assoc. reflexivity.
Qed.

(** C3.  In RTU mode, with a complete frame whose first character is the
    expected slave: the CRC check is called on a state where timer 2 is
    already stopped and the master state is already PROCESSING.  If the
    check fails, the call answers 0 with the frame mark back to OK and the
    master state ERROR, and nothing is handed to the application.  If it
    succeeds, the call answers 1 after handing the application the
    characters after the slave number, in order, and their count. *)
Theorem Receive_CallBack_expected_slave :
  forall P slave0 s,
    Modbus_OSL_Mode s = MODBUS_OSL_MODE_RTU ->
    Modbus_OSL_Processing_Flag s <> 0 ->
    Modbus_OSL_RTU_Char_Get 0 s = Modbus_OSL_Expected_Slave s ->
    TimerEnabled (TIMER2 (accepted s)) = false /\
    Modbus_OSL_MainState (accepted s) = MODBUS_OSL_PROCESSING /\
    MainState_writes (accepted s) =
      MainState_writes s ++ [MODBUS_OSL_PROCESSING] /\
    let (crc, s2) := Modbus_OSL_RTU_Control_CRC P (accepted s) in
    (crc = 0 ->
     exists s3,
       Modbus_OSL_Receive_CallBack P slave0 s = Ret 0 s3 /\
       s3 = Modbus_OSL_MainState_Set MODBUS_OSL_ERROR
              (Modbus_OSL_Frame_Set MODBUS_OSL_Frame_OK s2) /\
       Modbus_OSL_Frame s3 = MODBUS_OSL_Frame_OK /\
       Modbus_OSL_MainState s3 = MODBUS_OSL_ERROR /\
       App_calls s3 = App_calls s2) /\
    (crc <> 0 ->
     uchar (RTU_L_Msg s2) ->
     exists s3,
       Modbus_OSL_Receive_CallBack P slave0 s = Ret 1 s3 /\
       s3 = set_App_calls
              (App_calls s2 ++ delivered_chars s2 ++
               [App_L_Msg_Set (RTU_L_Msg s2 - 1)]) s2).
Proof.
  intros P slave0 s HM HF HS.
  split; [reflexivity|]. split; [reflexivity|]. split; [reflexivity|].
  destruct (Modbus_OSL_RTU_Control_CRC P (accepted s)) as [crc s2] eqn:E.
  assert (Hcall :
    Modbus_OSL_Receive_CallBack P slave0 s =
    if crc =? 0
    then Ret 0 (Modbus_OSL_MainState_Set MODBUS_OSL_ERROR
                  (Modbus_OSL_Frame_Set MODBUS_OSL_Frame_OK s2))
    else (_ <- Modbus_OSL_RTU_to_App s2 ;; Ret 1)).
  { unfold Modbus_OSL_Receive_CallBack.
    rewrite Processing_Msg_reads_and_clears.
    destruct (Z.eqb_spec (Modbus_OSL_Processing_Flag s) 0) as [|_];
      [contradiction|].
    cbn [Modbus_OSL_Mode Modbus_OSL_Expected_Slave set_IntMaster
         set_Processing_Flag set_TIMER2 Modbus_OSL_MainState_Set
         write_MainState].
    rewrite HM.
    change (Modbus_OSL_RTU_Char_Get 0
              (set_IntMaster true (set_Processing_Flag 0 s)))
      with (Modbus_OSL_RTU_Char_Get 0 s).
    rewrite HS, Z.eqb_refl.
    change (Modbus_OSL_RTU_Control_CRC P _)
      with (Modbus_OSL_RTU_Control_CRC P (accepted s)).
    rewrite E. reflexivity. }
  split.
  - intros Hz. rewrite Hcall, Hz. cbn [Z.eqb].
    eexists. split; [reflexivity|]. repeat split.
  - intros Hnz HL. rewrite Hcall.
    destruct (Z.eqb_spec crc 0) as [|_]; [contradiction|].
    rewrite RTU_to_App_delivers by exact HL.
    eexists. split; reflexivity.
Qed.

(** Scenario C of the specification: slave 5 answers with a valid frame. *)
Lemma Receive_CallBack_expected_slave_witness :
  let P := scenario_A in
  let s := receives P [5; 3; 2; 0; 42; 200; 91]
             (sends P (Reference.configured 3)) in
  (Modbus_OSL_Mode s = MODBUS_OSL_MODE_RTU /\
   Modbus_OSL_Processing_Flag s <> 0 /\
   Modbus_OSL_RTU_Char_Get 0 s = Modbus_OSL_Expected_Slave s) /\
  exists s3,
    Modbus_OSL_Receive_CallBack P 0 s = Ret 1 s3 /\
    App_calls s3 =
      [App_Receive_Char 3 0; App_Receive_Char 2 1; App_Receive_Char 0 2;
       App_Receive_Char 42 3; App_L_Msg_Set 4] /\
    TimerEnabled (TIMER2 s3) = false /\
    Modbus_OSL_MainState s3 = MODBUS_OSL_PROCESSING.
Proof.
  intros P s.
  assert (HM : Modbus_OSL_Mode s = MODBUS_OSL_MODE_RTU) by reflexivity.
  assert (HF : Modbus_OSL_Processing_Flag s <> 0)
    by (change (1 <> 0); discriminate).
  assert (HS : Modbus_OSL_RTU_Char_Get 0 s = Modbus_OSL_Expected_Slave s)
    by reflexivity.
  split; [repeat split; assumption|].
  destruct (Receive_CallBack_expected_slave P 0 s HM HF HS) as (_ & _ & _ & H).
  destruct (Modbus_OSL_RTU_Control_CRC P (accepted s)) as [crc s2] eqn:E.
  vm_compute in E. injection E as Ecrc Es2.
  destruct H as (_ & Hok).
  destruct Hok as (s3 & Hcall & Hs3).
  - rewrite <- Ecrc. discriminate.
  - rewrite <- Es2. unfold uchar. cbn [RTU_L_Msg]. lia.
  - exists s3. split; [exact Hcall|].
    rewrite Hs3, <- Es2. vm_compute. repeat split.
Defined.

(** Scenario D of the specification: slave 5 answers with a corrupted CRC;
    the frame mark is reset, Error is entered and nothing is delivered. *)
Example Receive_CallBack_corrupted_CRC :
  let P := scenario_A in
  let s := receives P [5; 3; 2; 0; 42; 201; 91]
             (sends P (Reference.configured 3)) in
  let r := Modbus_OSL_Receive_CallBack P 0 s in
  returns r = true /\
  Modbus_OSL_MainState (state_of r) = MODBUS_OSL_ERROR /\
  Modbus_OSL_Frame (state_of r) = MODBUS_OSL_Frame_OK /\
  App_calls (state_of r) = [] /\
  MainState_writes (state_of r) =
    [MODBUS_OSL_INITIAL; MODBUS_OSL_IDLE; MODBUS_OSL_WAITREPLY;
     MODBUS_OSL_PROCESSING; MODBUS_OSL_ERROR].
Proof. vm_compute. repeat split. Qed.

(** C8.  In RTU mode, a complete frame whose first character is not the
    expected slave: [Modbus_OSL_Receive_CallBack] answers 0 and all it has
    done is clear the processing flag (and leave interrupts enabled).  The
    master state, timer 2, the frame mark, the receive buffer and the
    application are as before; the poll in WAITREPLY answers 1 without
    calling the application, and the state is still WAITREPLY.  Further
    polls change nothing; the expiry of timer 2 is what moves the engine,
    to ERROR. *)
Theorem Receive_CallBack_other_slave :
  forall P slave0 s,
    Modbus_OSL_Mode s = MODBUS_OSL_MODE_RTU ->
    Modbus_OSL_Processing_Flag s <> 0 ->
    Modbus_OSL_RTU_Char_Get 0 s <> Modbus_OSL_Expected_Slave s ->
    let s' := set_IntMaster true (set_Processing_Flag 0 s) in
    Modbus_OSL_Receive_CallBack P slave0 s = Ret 0 s' /\
    Modbus_OSL_Processing_Flag s' = 0 /\
    Modbus_OSL_MainState s' = Modbus_OSL_MainState s /\
    MainState_writes s' = MainState_writes s /\
    TIMER2 s' = TIMER2 s /\
    Modbus_OSL_Frame s' = Modbus_OSL_Frame s /\
    App_calls s' = App_calls s /\
    RTU_Msg s' = RTU_Msg s /\
    (Modbus_OSL_MainState s = MODBUS_OSL_WAITREPLY ->
     Modbus_OSL_Serial_Comm P slave0 s = Ret 1 s' /\
     Modbus_OSL_MainState s' = MODBUS_OSL_WAITREPLY /\
     Modbus_OSL_Serial_Comm P slave0 s' = Ret 1 s' /\
     Modbus_OSL_Timeouts s' =
       Ret tt (Modbus_OSL_MainState_Set MODBUS_OSL_ERROR s')).
Proof.
  intros P slave0 s HM HF HS s'.
  assert (Hcall : Modbus_OSL_Receive_CallBack P slave0 s = Ret 0 s').
  { unfold Modbus_OSL_Receive_CallBack.
    rewrite Processing_Msg_reads_and_clears.
    destruct (Z.eqb_spec (Modbus_OSL_Processing_Flag s) 0) as [|_];
      [contradiction|].
    cbn [Modbus_OSL_Mode Modbus_OSL_Expected_Slave set_IntMaster
         set_Processing_Flag].
    rewrite HM.
    change (Modbus_OSL_RTU_Char_Get 0
              (set_IntMaster true (set_Processing_Flag 0 s)))
      with (Modbus_OSL_RTU_Char_Get 0 s).
    destruct (Z.eqb_spec (Modbus_OSL_RTU_Char_Get 0 s)
                (Modbus_OSL_Expected_Slave s)) as [|_]; [contradiction|].
    reflexivity. }
  split; [exact Hcall|].
  do 7 (split; [reflexivity|]).
  intros Hst. split; [|split; [exact Hst|split]].
  - unfold Modbus_OSL_Serial_Comm, Modbus_OSL_MainState_Get.
    rewrite Hst, Hcall. reflexivity.
  - unfold Modbus_OSL_Serial_Comm, Modbus_OSL_MainState_Get.
    change (Modbus_OSL_MainState s') with (Modbus_OSL_MainState s).
    rewrite Hst, Receive_CallBack_no_message by reflexivity. reflexivity.
  - unfold Modbus_OSL_Timeouts, Modbus_OSL_MainState_Get.
    change (Modbus_OSL_MainState s') with (Modbus_OSL_MainState s).
    rewrite Hst. reflexivity.
Qed.

(** Slave 6 answers a request made to slave 5. *)
Lemma Receive_CallBack_other_slave_witness :
  let P := scenario_A in
  let s := receives P [6; 3; 2; 0; 42; 140; 91]
             (sends P (Reference.configured 3)) in
  (Modbus_OSL_Mode s = MODBUS_OSL_MODE_RTU /\
   Modbus_OSL_Processing_Flag s <> 0 /\
   Modbus_OSL_RTU_Char_Get 0 s <> Modbus_OSL_Expected_Slave s) /\
  Modbus_OSL_Receive_CallBack P 0 s =
    Ret 0 (set_IntMaster true (set_Processing_Flag 0 s)) /\
  TimerEnabled (TIMER2 (set_IntMaster true (set_Processing_Flag 0 s))) = true.
Proof.
  intros P s.
  assert (HM : Modbus_OSL_Mode s = MODBUS_OSL_MODE_RTU) by reflexivity.
  assert (HF : Modbus_OSL_Processing_Flag s <> 0)
    by (change (1 <> 0); discriminate).
  assert (HS : Modbus_OSL_RTU_Char_Get 0 s <> Modbus_OSL_Expected_Slave s)
    by (change (6 <> 5); discriminate).
  split; [repeat split; assumption|].
  split; [|reflexivity].
  exact (proj1 (Receive_CallBack_other_slave P 0 s HM HF HS)).
Defined.

(** *** Character interrupt *)

Lemma UARTCharGetNonBlocking_takes :
  forall s, UART1_RX (snd (UARTCharGetNonBlocking s)) = tl (UART1_RX s).
Proof.
  intros s. unfold UARTCharGetNonBlocking.
  destruct (UART1_RX s) eqn:E; simpl; [exact E|reflexivity].
Qed.

Lemma UART1IntHandler_drops :
  forall P ulStatus s,
    Modbus_OSL_MainState s <> MODBUS_OSL_WAITREPLY ->
    Modbus_OSL_MainState s <> MODBUS_OSL_ERROR ->
    UART1IntHandler P ulStatus s =
    Ret tt (LED1_off (snd (UARTCharGetNonBlocking (LED1_on s)))).
Proof.
  intros P ulStatus s H1 H2.
  unfold UART1IntHandler, Modbus_OSL_MainState_Get.
  change (Modbus_OSL_MainState (LED1_on s)) with (Modbus_OSL_MainState s).
  destruct (Modbus_OSL_MainState s); try contradiction; reflexivity.
Qed.

(** C4.  Outside WAITREPLY and ERROR the handler does not involve the
    reception machine at all: it takes the waiting character out of the UART
    and drops it, and the receive buffer is untouched; the outcome is the
    same whatever the reception machine is.  In WAITREPLY and in ERROR
    alike, a character interrupt in RTU mode (the status is not the bare
    parity error) is handed to the reception machine. *)
Theorem UART1IntHandler_filter :
  forall P ulStatus s,
    (Modbus_OSL_MainState s <> MODBUS_OSL_WAITREPLY ->
     Modbus_OSL_MainState s <> MODBUS_OSL_ERROR ->
     let s' := LED1_off (snd (UARTCharGetNonBlocking (LED1_on s))) in
     UART1IntHandler P ulStatus s = Ret tt s' /\
     UART1_RX s' = tl (UART1_RX s) /\
     RTU_Msg s' = RTU_Msg s /\
     RTU_L_Msg s' = RTU_L_Msg s /\
     Modbus_OSL_Frame s' = Modbus_OSL_Frame s /\
     (forall P', UART1IntHandler P' ulStatus s = UART1IntHandler P ulStatus s)) /\
    (Modbus_OSL_MainState s = MODBUS_OSL_WAITREPLY \/
     Modbus_OSL_MainState s = MODBUS_OSL_ERROR ->
     Modbus_OSL_Mode s = MODBUS_OSL_MODE_RTU ->
     ulStatus <> UART_INT_PE ->
     UART1IntHandler P ulStatus s =
     (_ <- Modbus_OSL_RTU_UART P (LED1_on s) ;; fun s => Ret tt (LED1_off s))).
Proof.
  intros P ulStatus s. split.
  - intros H1 H2 s'.
    assert (H : forall Q, UART1IntHandler Q ulStatus s = Ret tt s')
      by (intros Q; apply UART1IntHandler_drops; assumption).
    split; [apply H|].
    split; [|split; [|split; [|split]]].
    + subst s'.
      change (UART1_RX (snd (UARTCharGetNonBlocking (LED1_on s))) =
              tl (UART1_RX (LED1_on s))).
      apply UARTCharGetNonBlocking_takes.
    + subst s'. unfold UARTCharGetNonBlocking.
      destruct (UART1_RX (LED1_on s)); reflexivity.
    + subst s'. unfold UARTCharGetNonBlocking.
      destruct (UART1_RX (LED1_on s)); reflexivity.
    + subst s'. unfold UARTCharGetNonBlocking.
      destruct (UART1_RX (LED1_on s)); reflexivity.
    + intros P'. rewrite !H. reflexivity.
  - intros Hst HM Hpe.
    unfold UART1IntHandler, Modbus_OSL_MainState_Get.
    change (Modbus_OSL_MainState (LED1_on s)) with (Modbus_OSL_MainState s).
    change (Modbus_OSL_Mode (LED1_on s)) with (Modbus_OSL_Mode s).
    rewrite HM.
    destruct (Z.eqb_spec UART_INT_PE ulStatus) as [E|_];
      [symmetry in E; contradiction|].
    destruct Hst as [Hst|Hst]; rewrite Hst; reflexivity.
Qed.

(** A character arrives while the broadcast delay runs and is dropped; one
    arrives after the response timer has fired and is still buffered. *)
Lemma UART1IntHandler_filter_witness :
  let P := scenario_A in
  let waiting :=
    state_of (Modbus_OSL_Output P [6; 0; 1; 0; 2] 0 5 (Reference.configured 3)) in
  let late := state_of (Modbus_OSL_Timeouts (sends P (Reference.configured 3))) in
  (Modbus_OSL_MainState waiting <> MODBUS_OSL_WAITREPLY /\
   Modbus_OSL_MainState waiting <> MODBUS_OSL_ERROR) /\
  RTU_Msg (state_of (UART1IntHandler P UART_INT_RX (set_UART1_RX [85] waiting))) = [] /\
  UART1_RX (state_of (UART1IntHandler P UART_INT_RX (set_UART1_RX [85] waiting))) = [] /\
  ((Modbus_OSL_MainState late = MODBUS_OSL_WAITREPLY \/
    Modbus_OSL_MainState late = MODBUS_OSL_ERROR) /\
   Modbus_OSL_Mode late = MODBUS_OSL_MODE_RTU /\
   UART_INT_RX <> UART_INT_PE) /\
  RTU_Msg (state_of (UART1IntHandler P UART_INT_RX (set_UART1_RX [85] late))) = [85].
Proof.
  intros P waiting late.
  assert (H1 : Modbus_OSL_MainState (set_UART1_RX [85] waiting)
               <> MODBUS_OSL_WAITREPLY)
    by (change (MODBUS_OSL_DELAY <> MODBUS_OSL_WAITREPLY); discriminate).
  assert (H2 : Modbus_OSL_MainState (set_UART1_RX [85] waiting)
               <> MODBUS_OSL_ERROR)
    by (change (MODBUS_OSL_DELAY <> MODBUS_OSL_ERROR); discriminate).
  assert (H3 : Modbus_OSL_MainState (set_UART1_RX [85] late) = MODBUS_OSL_WAITREPLY \/
               Modbus_OSL_MainState (set_UART1_RX [85] late) = MODBUS_OSL_ERROR)
    by (right; reflexivity).
  assert (H4 : Modbus_OSL_Mode (set_UART1_RX [85] late) = MODBUS_OSL_MODE_RTU)
    by reflexivity.
  assert (H5 : UART_INT_RX <> UART_INT_PE) by discriminate.
  destruct (UART1IntHandler_filter P UART_INT_RX (set_UART1_RX [85] waiting))
    as ((Hd & _) & _); [exact H1|exact H2|].
  destruct (UART1IntHandler_filter P UART_INT_RX (set_UART1_RX [85] late))
    as (_ & Hb).
  specialize (Hb H3 H4 H5).
  split; [split; [exact H1|exact H2]|].
  rewrite Hd, Hb.
  split; [reflexivity|]. split; [reflexivity|].
  split; [repeat split; assumption|]. reflexivity.
Defined.

(** *** Transmit loop *)

Lemma Zrange_shift :
  forall a n, Zrange (a + 1) n = map (fun j => j + 1) (Zrange a n).
Proof.
  intros a n. unfold Zrange. rewrite map_map. apply map_ext. intros k. lia.
Qed.

Lemma Zrange_nonneg : forall a n j, 0 <= a -> In j (Zrange a n) -> 0 <= j.
Proof.
  intros a n j Ha H. unfold Zrange in H. apply in_map_iff in H.
  destruct H as (k & <- & _). lia.
Qed.

Lemma array_get_cons :
  forall b rest k, 0 <= k -> array_get (b :: rest) (k + 1) = array_get rest k.
Proof.
  intros b rest k Hk. unfold array_get.
  destruct (Z.leb_spec 0 (k + 1)); [|lia].
  destruct (Z.leb_spec 0 k); [|lia].
  replace (Z.to_nat (k + 1)) with (S (Z.to_nat k)) by lia. reflexivity.
Qed.

(** Reading the first [n] cells in order gives the first [n] elements. *)
Lemma array_get_firstn :
  forall buf n,
    (n <= length buf)%nat -> map (array_get buf) (Zrange 0 n) = firstn n buf.
Proof.
  induction buf as [|b rest IH]; intros n Hn.
  - destruct n; [reflexivity|simpl in Hn; lia].
  - destruct n as [|m]; [reflexivity|].
    rewrite Zrange_S. cbn [map firstn]. f_equal.
    rewrite Zrange_shift, map_map. rewrite <- IH by (simpl in Hn; lia).
    apply map_ext_in. intros k Hk. apply array_get_cons.
    apply (Zrange_nonneg 0 m); [lia|exact Hk].
Qed.

Section Transmit.

Variable P : Platform.
Variable mb_req_adu : list Z.
Variable L_adu : Z.

Lemma char_of_fits :
  forall ck z, 0 <= z <= char_max ck -> char_of ck z = z.
Proof.
  intros ck z H. destruct ck; unfold char_of, int8, uint8, char_max in *.
  - rewrite Z.mod_small by lia. lia.
  - apply Z.mod_small. lia.
Qed.

Lemma Send_loop_more_fuel :
  forall fuel i s s' k,
    Modbus_OSL_Send_loop P fuel mb_req_adu L_adu i s = Some s' ->
    Modbus_OSL_Send_loop P (fuel + k) mb_req_adu L_adu i s = Some s'.
Proof.
  induction fuel as [|n IH]; intros i s s' k H; [discriminate|].
  cbn [Modbus_OSL_Send_loop Nat.add] in *.
  destruct (i <? L_adu); [apply IH; exact H|exact H].
Qed.

(** The loop only puts characters on the line. *)
Lemma Send_loop_frame :
  forall fuel i s s',
    Modbus_OSL_Send_loop P fuel mb_req_adu L_adu i s = Some s' ->
    exists tx, s' = set_UART1_TX tx s.
Proof.
  induction fuel as [|n IH]; intros i s s' H; [discriminate|].
  cbn [Modbus_OSL_Send_loop] in H.
  destruct (i <? L_adu).
  - apply IH in H. destruct H as (tx & ->). exists tx. reflexivity.
  - injection H as <-. exists (UART1_TX s). destruct s; reflexivity.
Qed.

(** A length within the counter's range: the loop counts up to it and
    stops, having sent the cells [i .. L_adu - 1] in order. *)
Lemma Send_loop_counts_up :
  forall n i s,
    0 <= i -> i + Z.of_nat n = L_adu -> L_adu <= char_max (plain_char P) ->
    Modbus_OSL_Send_loop P (S n) mb_req_adu L_adu i s =
    Some (set_UART1_TX
            (UART1_TX s ++ map (array_get mb_req_adu) (Zrange i n)) s).
Proof.
  induction n as [|n IH]; intros i s Hi HL Hmax.
  - cbn [Modbus_OSL_Send_loop].
    destruct (Z.ltb_spec i L_adu); [lia|].
    cbn [Zrange seq map]. rewrite app_nil_r. destruct s; reflexivity.
  - cbn [Modbus_OSL_Send_loop].
    destruct (Z.ltb_spec i L_adu); [|lia].
    rewrite char_of_fits by lia.
    change (Modbus_OSL_Send_loop P (S n) mb_req_adu L_adu (i + 1)
              (UARTCharPut (array_get mb_req_adu i) s) =
            Some (set_UART1_TX
                    (UART1_TX s ++
                     map (array_get mb_req_adu) (Zrange i (S n))) s)).
    rewrite IH by lia.
    rewrite Zrange_S. cbn [map]. unfold UARTCharPut.
    cbn [UART1_TX set_UART1_TX]. rewrite <- app_assoc. reflexivity.
Qed.

(** A signed counter never reaches a length above 127: it wraps from 127
    to -128 and the exit test never fails. *)
Lemma Send_loop_signed_forever :
  plain_char P = SignedChar ->
  127 < L_adu ->
  forall fuel i s,
    -128 <= i <= 127 ->
    Modbus_OSL_Send_loop P fuel mb_req_adu L_adu i s = None.
Proof.
  intros Hck HL. induction fuel as [|n IH]; intros i s Hi; [reflexivity|].
  cbn [Modbus_OSL_Send_loop].
  destruct (Z.ltb_spec i L_adu); [|lia].
  apply IH. rewrite Hck. unfold char_of, int8.
  assert (0 <= (i + 1 + 128) mod 256 < 256) by (apply Z.mod_pos_bound; lia).
  lia.
Qed.

Lemma Send_loop_returns :
  uchar L_adu ->
  Send_returns (plain_char P) L_adu = true ->
  forall s,
    Modbus_OSL_Send_loop P (S (Z.to_nat L_adu)) mb_req_adu L_adu 0 s =
    Some (set_UART1_TX
            (UART1_TX s ++
             map (array_get mb_req_adu) (Zrange 0 (Z.to_nat L_adu))) s).
Proof.
  intros HL Hr s. unfold Send_returns in Hr. apply Z.leb_le in Hr.
  apply Send_loop_counts_up; unfold uchar in *; lia.
Qed.

Lemma Send_loop_never_returns :
  uchar L_adu ->
  Send_returns (plain_char P) L_adu = false ->
  forall fuel s, Modbus_OSL_Send_loop P fuel mb_req_adu L_adu 0 s = None.
Proof.
  intros HL Hr fuel s. unfold Send_returns in Hr. apply Z.leb_gt in Hr.
  destruct (plain_char P) eqn:Hck; cbn [char_max] in Hr.
  - apply Send_loop_signed_forever; [exact Hck|lia|lia].
  - unfold uchar in HL. lia.
Qed.

(** 257 turns decide the loop: whatever any amount of fuel finds, 257 turns
    find too. *)
Lemma Modbus_OSL_Send_loop_decided :
  uchar L_adu ->
  forall fuel s s',
    Modbus_OSL_Send_loop P fuel mb_req_adu L_adu 0 s = Some s' ->
    Modbus_OSL_Send_loop P 257 mb_req_adu L_adu 0 s = Some s'.
Proof.
  intros HL fuel s s' H.
  destruct (Send_returns (plain_char P) L_adu) eqn:Hr.
  - assert (H0 := Send_loop_returns HL Hr s).
    assert (Hs : Modbus_OSL_Send_loop P (S (Z.to_nat L_adu) + fuel)
                   mb_req_adu L_adu 0 s = Some s').
    { rewrite Nat.add_comm. apply Send_loop_more_fuel. exact H. }
    rewrite (Send_loop_more_fuel _ _ _ _ fuel H0) in Hs.
    rewrite <- Hs.
    replace 257%nat with (S (Z.to_nat L_adu) + (256 - Z.to_nat L_adu))%nat
      by (unfold uchar in HL; lia).
    apply Send_loop_more_fuel. exact H0.
  - rewrite Send_loop_never_returns in H by assumption. discriminate.
Qed.

(** [Modbus_OSL_Send] in closed form. *)
Lemma Send_outcome :
  uchar L_adu ->
  (Z.to_nat L_adu <= length mb_req_adu)%nat ->
  forall s,
    Modbus_OSL_Send P mb_req_adu L_adu s =
    if Send_returns (plain_char P) L_adu
    then Ret tt (LED1_off
                   (set_UART1_TX
                      (UART1_TX s ++ firstn (Z.to_nat L_adu) mb_req_adu)
                      (LED1_on s)))
    else Hang (LED1_on s).
Proof.
  intros HL Hlen s. unfold Modbus_OSL_Send.
  destruct (Send_returns (plain_char P) L_adu) eqn:Hr.
  - assert (H0 := Send_loop_returns HL Hr (LED1_on s)).
    replace 257%nat with (S (Z.to_nat L_adu) + (256 - Z.to_nat L_adu))%nat
      by (unfold uchar in HL; lia).
    rewrite (Send_loop_more_fuel _ _ _ _ _ H0).
    rewrite array_get_firstn by exact Hlen. reflexivity.
  - rewrite Send_loop_never_returns by assumption. reflexivity.
Qed.

(** Whether it returns or not, [Modbus_OSL_Send] leaves every variable of
    the module alone: only the serial line and the LED port differ. *)
Lemma Send_frame :
  forall s,
    exists tx g,
      state_of (Modbus_OSL_Send P mb_req_adu L_adu s) =
      set_GPIO_PORTF_DATA_R g (set_UART1_TX tx s).
Proof.
  intros s. unfold Modbus_OSL_Send.
  destruct (Modbus_OSL_Send_loop P 257 mb_req_adu L_adu 0 (LED1_on s))
    as [s'|] eqn:E.
  - apply Send_loop_frame in E. destruct E as (tx & ->).
    exists tx. eexists. reflexivity.
  - exists (UART1_TX s). eexists. cbn [state_of].
    unfold LED1_on. destruct s; reflexivity.
Qed.

End Transmit.

(** Where plain [char] is unsigned (the ARM procedure call standard, which
    the compilers for the Cortex-M3 follow by default) the loop is left for
    every length an [unsigned char] can hold. *)
Lemma Send_unsigned_counter :
  forall P mb_req_adu L_adu s,
    plain_char P = UnsignedChar ->
    uchar L_adu ->
    length mb_req_adu = 256%nat ->
    Modbus_OSL_Send P mb_req_adu L_adu s =
    Ret tt (LED1_off
              (set_UART1_TX
                 (UART1_TX s ++ firstn (Z.to_nat L_adu) mb_req_adu)
                 (LED1_on s))).
Proof.
  intros P buf L s Hck HL Hlen.
  assert (Hfit : (Z.to_nat L <= length buf)%nat)
    by (unfold uchar in HL; lia).
  rewrite (Send_outcome P buf L HL Hfit).
  unfold Send_returns. rewrite Hck. cbn [char_max].
  destruct (Z.leb_spec L 255); [reflexivity|unfold uchar in HL; lia].
Qed.

(** C10.  Whether the transmit loop of [Modbus_OSL_Send] is left depends on
    the signedness of plain [char], which the language leaves to the
    implementation; nothing in the module fixes it.  Where plain [char] is
    unsigned the loop is left for every length an [unsigned char] holds,
    128 to 255 included, with exactly the first [L_adu] characters of the
    buffer on the line, in order.  Where it is signed the loop is left if
    and only if the length is at most 127, again with exactly the first
    [L_adu] characters sent; for a length from 128 to 255 no number of
    turns leaves it, and [Modbus_OSL_Send] never returns.  In both cases
    the loop is left exactly when the length does not exceed the largest
    value of the counter. *)
Theorem Send_counter_signedness :
  forall P mb_req_adu L_adu s,
    uchar L_adu ->
    length mb_req_adu = 256%nat ->
    (plain_char P = UnsignedChar ->
     Modbus_OSL_Send_loop P (S (Z.to_nat L_adu)) mb_req_adu L_adu 0 s =
       Some (set_UART1_TX
               (UART1_TX s ++ firstn (Z.to_nat L_adu) mb_req_adu) s) /\
     Modbus_OSL_Send P mb_req_adu L_adu s =
       Ret tt (LED1_off
                 (set_UART1_TX
                    (UART1_TX s ++ firstn (Z.to_nat L_adu) mb_req_adu)
                    (LED1_on s)))) /\
    (plain_char P = SignedChar ->
     ((exists fuel s',
         Modbus_OSL_Send_loop P fuel mb_req_adu L_adu 0 s = Some s') <->
      L_adu <= 127) /\
     (L_adu <= 127 ->
      Modbus_OSL_Send_loop P (S (Z.to_nat L_adu)) mb_req_adu L_adu 0 s =
        Some (set_UART1_TX
                (UART1_TX s ++ firstn (Z.to_nat L_adu) mb_req_adu) s) /\
      Modbus_OSL_Send P mb_req_adu L_adu s =
        Ret tt (LED1_off
                  (set_UART1_TX
                     (UART1_TX s ++ firstn (Z.to_nat L_adu) mb_req_adu)
                     (LED1_on s)))) /\
     (128 <= L_adu ->
      (forall fuel,
         Modbus_OSL_Send_loop P fuel mb_req_adu L_adu 0 s = None) /\
      Modbus_OSL_Send P mb_req_adu L_adu s = Hang (LED1_on s))) /\
    ((exists fuel s',
        Modbus_OSL_Send_loop P fuel mb_req_adu L_adu 0 s = Some s') <->
     L_adu <= char_max (plain_char P)).
Proof.
  intros P buf L s HL Hlen.
  assert (Hfit : (Z.to_nat L <= length buf)%nat)
    by (unfold uchar in HL; lia).
  assert (Hin : L <= char_max (plain_char P) ->
                Modbus_OSL_Send_loop P (S (Z.to_nat L)) buf L 0 s =
                  Some (set_UART1_TX
                          (UART1_TX s ++ firstn (Z.to_nat L) buf) s) /\
                Modbus_OSL_Send P buf L s =
                  Ret tt (LED1_off
                            (set_UART1_TX
                               (UART1_TX s ++ firstn (Z.to_nat L) buf)
                               (LED1_on s)))).
  { intros Hle. apply Z.leb_le in Hle. fold (Send_returns (plain_char P) L) in Hle.
    split.
    - rewrite (Send_loop_returns P buf L HL Hle).
      rewrite array_get_firstn by exact Hfit. reflexivity.
    - rewrite (Send_outcome P buf L HL Hfit), Hle. reflexivity. }
  assert (Hout : char_max (plain_char P) < L ->
                 (forall fuel, Modbus_OSL_Send_loop P fuel buf L 0 s = None) /\
                 Modbus_OSL_Send P buf L s = Hang (LED1_on s)).
  { intros Hgt. apply Z.leb_gt in Hgt.
    fold (Send_returns (plain_char P) L) in Hgt. split.
    - intros fuel. apply (Send_loop_never_returns P buf L HL Hgt).
    - rewrite (Send_outcome P buf L HL Hfit), Hgt. reflexivity. }
  assert (Hiff : (exists fuel s',
                    Modbus_OSL_Send_loop P fuel buf L 0 s = Some s') <->
                 L <= char_max (plain_char P)).
  { split.
    - intros (fuel & s' & H).
      destruct (Z.le_gt_cases L (char_max (plain_char P))) as [Hle|Hgt];
        [exact Hle|].
      rewrite (proj1 (Hout Hgt)) in H. discriminate.
    - intros Hle. eexists. eexists. exact (proj1 (Hin Hle)). }
  split; [|split; [|exact Hiff]].
  - intros Hck. apply Hin. rewrite Hck. cbn [char_max].
    unfold uchar in HL. lia.
  - intros Hck. rewrite Hck in Hin, Hout, Hiff. cbn [char_max] in *.
    split; [exact Hiff|]. split; [exact Hin|].
    intros Hge. apply Hout. lia.
Qed.

(** A frame of 200 characters: it goes out where plain [char] is unsigned
    and never ends where it is signed; one of 8 goes out in both. *)
Lemma Send_counter_signedness_witness :
  let Pu := Reference.bare UnsignedChar 8000000 in
  let Ps := Reference.bare SignedChar 8000000 in
  let buf := Reference.MountADU [3; 0; 0; 0; 1] 5 5 (repeat 0 256) in
  let s := Reference.configured 3 in
  (uchar 8 /\ uchar 200 /\ length buf = 256%nat) /\
  returns (Modbus_OSL_Send Pu buf 200 s) = true /\
  UART1_TX (state_of (Modbus_OSL_Send Pu buf 200 s)) = firstn 200 buf /\
  returns (Modbus_OSL_Send Ps buf 200 s) = false /\
  Modbus_OSL_Send_loop Ps 1000 buf 200 0 s = None /\
  UART1_TX (state_of (Modbus_OSL_Send Ps buf 8 s)) =
    [5; 3; 0; 0; 0; 1; 133; 142] /\
  UART1_TX (state_of (Modbus_OSL_Send Pu buf 8 s)) =
    [5; 3; 0; 0; 0; 1; 133; 142].
Proof.
  intros Pu Ps buf s.
  assert (H8 : uchar 8) by (unfold uchar; lia).
  assert (H200 : uchar 200) by (unfold uchar; lia).
  assert (Hlen : length buf = 256%nat) by reflexivity.
  split; [exact (conj H8 (conj H200 Hlen))|].
  destruct (Send_counter_signedness Pu buf 200 s H200 Hlen) as (Hu & _ & _).
  destruct (Send_counter_signedness Pu buf 8 s H8 Hlen) as (Hu8 & _ & _).
  destruct (Send_counter_signedness Ps buf 200 s H200 Hlen)
    as (_ & Hs & _).
  destruct (Send_counter_signedness Ps buf 8 s H8 Hlen) as (_ & Hs8 & _).
  destruct (Hu eq_refl) as (_ & Hu').
  destruct (Hu8 eq_refl) as (_ & Hu8').
  destruct (Hs eq_refl) as (_ & _ & Hl).
  destruct (Hs8 eq_refl) as (_ & Hshort & _).
  destruct Hl as (Hn & Hl); [lia|].
  destruct Hshort as (_ & Hs8'); [lia|].
  rewrite Hu', Hu8', Hl, Hs8'.
  split; [reflexivity|]. split; [reflexivity|]. split; [reflexivity|].
  split; [apply Hn|]. split; reflexivity.
Defined.

(** On the platform of the scenarios, where plain [char] is unsigned, a
    frame of 200 characters is sent whole and [Modbus_OSL_Send] returns:
    the loop is left although the length is above 127. *)
Lemma Send_unsigned_leaves_at_200 :
  plain_char (Reference.bare UnsignedChar 8000000) = UnsignedChar /\
  127 < 200 <= 255 /\
  Modbus_OSL_Send_loop (Reference.bare UnsignedChar 8000000) 201
    (repeat 7 256) 200 0 (Reference.configured 3) =
  Some (set_UART1_TX (repeat 7 200) (Reference.configured 3)) /\
  Modbus_OSL_Send (Reference.bare UnsignedChar 8000000)
    (repeat 7 256) 200 (Reference.configured 3) =
  Ret tt (LED1_off
            (set_UART1_TX (repeat 7 200) (LED1_on (Reference.configured 3)))).
Proof.
  split; [reflexivity|]. split; [lia|].
  split; vm_compute; reflexivity.
Qed.

(** *** Message output *)

Lemma Output_in_halves :
  forall P pdu Slave L_pdu s,
    Modbus_OSL_Output P pdu Slave L_pdu s =
    (let s1 := Output_mounts P pdu Slave L_pdu s in
     _ <- Modbus_OSL_Send P (Modbus_OSL_Req_ADU s1)
            (Modbus_OSL_L_Req_ADU s1) s1 ;;
     fun s => Ret tt (Output_arms P s)).
Proof.
  intros P pdu Slave L_pdu s.
  unfold Modbus_OSL_Output, Output_mounts, Output_arms.
  cbv zeta.
  match goal with
  | |- bind ?m ?k1 = bind ?m ?k2 =>
      destruct m as [[] s2|s2]; cbn [bind]; [|reflexivity]
  end.
  destruct (Modbus_OSL_Mode s2);
    match goal with
    | |- context [?a =? 0] => destruct (a =? 0); reflexivity
    end.
Qed.

Lemma Send_returns_when :
  forall P buf L s,
    uchar L ->
    returns (Modbus_OSL_Send P buf L s) = Send_returns (plain_char P) L.
Proof.
  intros P buf L s HL. unfold Modbus_OSL_Send.
  destruct (Send_returns (plain_char P) L) eqn:Hr.
  - assert (H0 := Send_loop_returns P buf L HL Hr (LED1_on s)).
    replace 257%nat with (S (Z.to_nat L) + (256 - Z.to_nat L))%nat
      by (unfold uchar in HL; lia).
    rewrite (Send_loop_more_fuel P buf L _ _ _ _ _ H0). reflexivity.
  - rewrite Send_loop_never_returns by assumption. reflexivity.
Qed.

(** [Modbus_OSL_Output], whether its transmission ends or not: the state it
    ends or stalls in is the mounted request with a longer line and another
    LED port, armed if the transmission ended. *)
Lemma Output_outcome :
  forall P pdu Slave L_pdu s,
    let s1 := Output_mounts P pdu Slave L_pdu s in
    let sent :=
      Modbus_OSL_Send P (Modbus_OSL_Req_ADU s1) (Modbus_OSL_L_Req_ADU s1) s1 in
    exists tx g,
      let s2 := set_GPIO_PORTF_DATA_R g (set_UART1_TX tx s1) in
      (returns sent = true /\
       Modbus_OSL_Output P pdu Slave L_pdu s = Ret tt (Output_arms P s2)) \/
      (returns sent = false /\
       Modbus_OSL_Output P pdu Slave L_pdu s = Hang s2).
Proof.
  intros P pdu Slave L_pdu s s1 sent.
  destruct (Send_frame P (Modbus_OSL_Req_ADU s1) (Modbus_OSL_L_Req_ADU s1) s1)
    as (tx & g & H).
  exists tx, g. cbv zeta. rewrite Output_in_halves. cbv zeta.
  fold s1. fold sent. fold sent in H.
  destruct sent as [[] s2|s2]; cbn [state_of] in H; subst s2; cbn [bind returns].
  - left. split; reflexivity.
  - right. split; reflexivity.
Qed.

(** Sending a request, again or for the first time, touches neither the
    attempt counter nor the notifications. *)
Lemma retry_neutral_Output :
  forall P pdu Slave L_pdu s,
    retry_neutral s (state_of (Modbus_OSL_Output P pdu Slave L_pdu s)).
Proof.
  intros P pdu Slave L_pdu s.
  destruct (Output_outcome P pdu Slave L_pdu s) as (tx & g & H).
  cbv zeta in H.
  destruct H as [(_ & ->)|(_ & ->)]; cbn [state_of];
    unfold Output_arms, Output_mounts;
    destruct (Modbus_OSL_Mode s) eqn:HM; simpl; rewrite ?HM; simpl;
    try (destruct (Slave =? 0)); repeat split.
Qed.

(** C9.  In RTU mode, [Modbus_OSL_Output] stores as length of the mounted
    frame [L_pdu + 3] reduced modulo 256: [L_pdu + 3] itself for a PDU of
    at most 252 characters, and [L_pdu + 3 - 256] beyond.  The stored
    length is there whether the transmission that follows ends or not, and
    it ends exactly when the counter of the transmit loop can reach that
    length. *)
Theorem Output_stores_length :
  forall P pdu Slave L_pdu s,
    Modbus_OSL_Mode s = MODBUS_OSL_MODE_RTU ->
    uchar L_pdu ->
    let r := Modbus_OSL_Output P pdu Slave L_pdu s in
    Modbus_OSL_L_Req_ADU (state_of r) = (L_pdu + 3) mod 256 /\
    (L_pdu <= 252 -> Modbus_OSL_L_Req_ADU (state_of r) = L_pdu + 3) /\
    (253 <= L_pdu -> Modbus_OSL_L_Req_ADU (state_of r) = L_pdu + 3 - 256) /\
    returns r = Send_returns (plain_char P) ((L_pdu + 3) mod 256).
Proof.
  intros P pdu Slave L_pdu s HM HL r.
  assert (Hlen : Modbus_OSL_L_Req_ADU (Output_mounts P pdu Slave L_pdu s) =
                 (L_pdu + 3) mod 256).
  { unfold Output_mounts. rewrite HM. reflexivity. }
  assert (Hmode : Modbus_OSL_Mode (Output_mounts P pdu Slave L_pdu s) =
                  MODBUS_OSL_MODE_RTU).
  { unfold Output_mounts. rewrite HM. exact HM. }
  assert (Hret := Send_returns_when P
            (Modbus_OSL_Req_ADU (Output_mounts P pdu Slave L_pdu s))
            (Modbus_OSL_L_Req_ADU (Output_mounts P pdu Slave L_pdu s))
            (Output_mounts P pdu Slave L_pdu s)).
  rewrite Hlen in Hret.
  specialize (Hret (Z.mod_pos_bound (L_pdu + 3) 256 eq_refl)).
  assert (Hstate : Modbus_OSL_L_Req_ADU (state_of r) = (L_pdu + 3) mod 256 /\
                   returns r = Send_returns (plain_char P) ((L_pdu + 3) mod 256)).
  { destruct (Output_outcome P pdu Slave L_pdu s) as (tx & g & H).
    cbv zeta in H. rewrite Hlen in H. subst r.
    destruct H as [(Hr & ->)|(Hr & ->)]; cbn [state_of returns];
      rewrite <- Hret, Hr; (split; [|reflexivity]).
    - unfold Output_arms.
      cbn [Modbus_OSL_Mode Modbus_OSL_Expected_Slave set_GPIO_PORTF_DATA_R
           set_UART1_TX set_TIMER0].
      rewrite Hmode.
      match goal with
      | |- context [?a =? 0] => destruct (a =? 0)
      end; exact Hlen.
    - exact Hlen. }
  destruct Hstate as (H1 & H2).
  split; [exact H1|]. split; [|split; [|exact H2]].
  - intros Hle. rewrite H1. unfold uchar in HL.
    Z.div_mod_to_equations. lia.
  - intros Hge. rewrite H1. unfold uchar in HL.
    Z.div_mod_to_equations. lia.
Qed.

Lemma Output_stores_length_witness :
  let P := scenario_A in
  let s := Reference.configured 3 in
  (Modbus_OSL_Mode s = MODBUS_OSL_MODE_RTU /\ uchar 5 /\ uchar 254) /\
  Modbus_OSL_L_Req_ADU
    (state_of (Modbus_OSL_Output P [3; 0; 0; 0; 1] 5 5 s)) = 8 /\
  Modbus_OSL_L_Req_ADU
    (state_of (Modbus_OSL_Output P (repeat 0 254) 5 254 s)) = 1.
Proof.
  intros P s.
  assert (HM : Modbus_OSL_Mode s = MODBUS_OSL_MODE_RTU) by reflexivity.
  assert (H5 : uchar 5) by (unfold uchar; lia).
  assert (H254 : uchar 254) by (unfold uchar; lia).
  split; [exact (conj HM (conj H5 H254))|].
  destruct (Output_stores_length P [3; 0; 0; 0; 1] 5 5 s HM H5)
    as (_ & Hs & _).
  destruct (Output_stores_length P (repeat 0 254) 5 254 s HM H254)
    as (_ & _ & Hl & _).
  split; [apply Hs; lia|apply Hl; lia].
Defined.

(** *** Broadcast *)

Lemma same_transaction_refl : forall s, same_transaction s s.
Proof. intros s. repeat split. Qed.

Lemma same_transaction_trans :
  forall s1 s2 s3,
    same_transaction s1 s2 -> same_transaction s2 s3 -> same_transaction s1 s3.
Proof.
  unfold same_transaction.
  intros s1 s2 s3 (A1 & A2 & A3 & A4 & A5 & A6 & A7)
    (B1 & B2 & B3 & B4 & B5 & B6 & B7).
  repeat split; congruence.
Qed.

(** In DELAY nothing but the timer moves the engine: polls do nothing,
    characters are dropped, a completed frame raises no flag. *)
Lemma step_in_DELAY :
  forall P slave0 e s,
    Modbus_OSL_MainState s = MODBUS_OSL_DELAY ->
    is_Timer2_expires e = false ->
    exists s', step P slave0 e s = Ret tt s' /\ same_transaction s s'.
Proof.
  intros P slave0 e s Hst He. destruct e as [|c st| |]; [| | |discriminate].
  - exists s. split; [|apply same_transaction_refl].
    unfold step, Modbus_OSL_Serial_Comm, Modbus_OSL_MainState_Get.
    rewrite Hst. reflexivity.
  - eexists. split.
    + unfold step. apply UART1IntHandler_drops.
      * change (Modbus_OSL_MainState s <> MODBUS_OSL_WAITREPLY).
        rewrite Hst. discriminate.
      * change (Modbus_OSL_MainState s <> MODBUS_OSL_ERROR).
        rewrite Hst. discriminate.
    + unfold same_transaction, UARTCharGetNonBlocking.
      destruct (UART1_RX (LED1_on (set_UART1_RX (UART1_RX s ++ [c]) s)));
        repeat split.
  - exists s. split; [|apply same_transaction_refl].
    unfold step, Modbus_OSL_Reception_Complete, Modbus_OSL_MainState_Get.
    rewrite Hst. reflexivity.
Qed.

Lemma run_in_DELAY :
  forall P slave0 es s,
    Modbus_OSL_MainState s = MODBUS_OSL_DELAY ->
    forallb (fun e => negb (is_Timer2_expires e)) es = true ->
    exists s', run P slave0 es s = Ret tt s' /\ same_transaction s s'.
Proof.
  intros P slave0 es. induction es as [|e es IH]; intros s Hst Hes.
  - exists s. split; [reflexivity|apply same_transaction_refl].
  - cbn [forallb] in Hes. apply andb_true_iff in Hes. destruct Hes as (He & Hes).
    apply negb_true_iff in He.
    destruct (step_in_DELAY P slave0 e s Hst He) as (s1 & Hstep & Hsame).
    destruct (IH s1) as (s2 & Hrun & Hsame2).
    + destruct Hsame as (-> & _). exact Hst.
    + exact Hes.
    + exists s2. split.
      * cbn [run]. rewrite Hstep. exact Hrun.
      * eapply same_transaction_trans; eassumption.
Qed.

Lemma Output_broadcast_outcome :
  forall P pdu L_pdu s,
    let r := Modbus_OSL_Output P pdu 0 L_pdu s in
    (returns r = false /\
     Modbus_OSL_MainState (state_of r) = Modbus_OSL_MainState s /\
     MainState_writes (state_of r) = MainState_writes s) \/
    (returns r = true /\
     Modbus_OSL_MainState (state_of r) = MODBUS_OSL_DELAY /\
     MainState_writes (state_of r) =
       MainState_writes s ++ [MODBUS_OSL_DELAY] /\
     TIMER2 (state_of r) =
       {| TimerLoad := Modbus_OSL_Timeout_B s; TimerEnabled := true |} /\
     App_calls (state_of r) = App_calls s /\
     Modbus_OSL_Processing_Flag (state_of r) = Modbus_OSL_Processing_Flag s).
Proof.
  intros P pdu L_pdu s r.
  destruct (Output_outcome P pdu 0 L_pdu s) as (tx & g & H).
  cbv zeta in H. subst r.
  destruct H as [(_ & ->)|(_ & ->)]; cbn [state_of returns].
  - right. split; [reflexivity|].
    unfold Output_arms, Output_mounts.
    destruct (Modbus_OSL_Mode s) eqn:HM; simpl; rewrite HM; simpl;
      repeat split.
  - left. split; [reflexivity|].
    unfold Output_mounts.
    destruct (Modbus_OSL_Mode s) eqn:HM; simpl; repeat split.
Qed.

(** C2.  A request to address 0.  [Modbus_OSL_Output] stores only DELAY
    into the master state, with timer 2 loaded with the broadcast count
    and running; should its transmission never end, the master state is
    not written at all.  While in DELAY, polls, characters and completed
    frames leave the master state, the timer, the receive buffer, the
    processing flag and the application as they are; when timer 2 expires
    the state becomes IDLE.  The states written are DELAY then IDLE:
    WAITREPLY is never entered and nothing is handed to the application.
    The transmission ends exactly when the counter of the transmit loop can
    reach the stored length, which an unsigned counter always can. *)
Theorem broadcast_never_waits :
  forall P pdu L_pdu s,
    let r := Modbus_OSL_Output P pdu 0 L_pdu s in
    (returns r = false ->
     Modbus_OSL_MainState (state_of r) = Modbus_OSL_MainState s /\
     MainState_writes (state_of r) = MainState_writes s) /\
    (returns r = true ->
     Modbus_OSL_MainState (state_of r) = MODBUS_OSL_DELAY /\
     MainState_writes (state_of r) =
       MainState_writes s ++ [MODBUS_OSL_DELAY] /\
     TIMER2 (state_of r) =
       {| TimerLoad := Modbus_OSL_Timeout_B s; TimerEnabled := true |} /\
     forall slave0 es,
       forallb (fun e => negb (is_Timer2_expires e)) es = true ->
       exists s1 s2,
         run P slave0 es (state_of r) = Ret tt s1 /\
         same_transaction (state_of r) s1 /\
         step P slave0 Timer2_expires s1 = Ret tt s2 /\
         Modbus_OSL_MainState s2 = MODBUS_OSL_IDLE /\
         MainState_writes s2 =
           MainState_writes s ++ [MODBUS_OSL_DELAY; MODBUS_OSL_IDLE] /\
         ~ In MODBUS_OSL_WAITREPLY [MODBUS_OSL_DELAY; MODBUS_OSL_IDLE] /\
         App_calls s2 = App_calls s /\
         Modbus_OSL_Processing_Flag s2 = Modbus_OSL_Processing_Flag s) /\
    (uchar (Modbus_OSL_L_Req_ADU s) ->
     returns r =
     Send_returns (plain_char P) (Modbus_OSL_L_Req_ADU (state_of r))) /\
    (uchar (Modbus_OSL_L_Req_ADU s) ->
     plain_char P = UnsignedChar ->
     returns r = true).
Proof.
  intros P pdu L_pdu s r.
  assert (Hcases := Output_broadcast_outcome P pdu L_pdu s).
  cbv zeta in Hcases. fold r in Hcases.
  assert (Hret : uchar (Modbus_OSL_L_Req_ADU s) ->
                 returns r =
                 Send_returns (plain_char P)
                   (Modbus_OSL_L_Req_ADU (state_of r))).
  { intros HL.
    assert (Hu : uchar (Modbus_OSL_L_Req_ADU (Output_mounts P pdu 0 L_pdu s))).
    { unfold Output_mounts. destruct (Modbus_OSL_Mode s); simpl; try exact HL.
      apply Z.mod_pos_bound. lia. }
    assert (Hs := Send_returns_when P
              (Modbus_OSL_Req_ADU (Output_mounts P pdu 0 L_pdu s))
              (Modbus_OSL_L_Req_ADU (Output_mounts P pdu 0 L_pdu s))
              (Output_mounts P pdu 0 L_pdu s) Hu).
    destruct (Output_outcome P pdu 0 L_pdu s) as (tx & g & H).
    cbv zeta in H. subst r.
    destruct H as [(Hr & ->)|(Hr & ->)]; cbn [state_of returns];
      rewrite <- Hr, Hs; f_equal; try reflexivity.
    all: unfold Output_arms, Output_mounts;
      destruct (Modbus_OSL_Mode s) eqn:HM; simpl; rewrite ?HM; reflexivity. }
  split; [|split; [|split; [exact Hret|]]].
  - intros Hr. destruct Hcases as [(_ & H)|(Hr' & _)]; [exact H|congruence].
  - intros Hr. destruct Hcases as [(Hr' & _)|(_ & Hst & Hw & Ht & Ha & Hf)];
      [congruence|].
    split; [exact Hst|]. split; [exact Hw|]. split; [exact Ht|].
    intros slave0 es Hes.
    destruct (run_in_DELAY P slave0 es (state_of r) Hst Hes)
      as (s1 & Hrun & Hsame).
    exists s1. eexists. split; [exact Hrun|]. split; [exact Hsame|].
    destruct Hsame as (S1 & S2 & S3 & S4 & S5 & S6 & S7).
    assert (Hstep : step P slave0 Timer2_expires s1 =
                    Ret tt (Modbus_OSL_MainState_Set MODBUS_OSL_IDLE
                              (set_TIMER2 (TimerDisable (TIMER2 s1)) s1))).
    { unfold step, Modbus_OSL_Timeouts, Modbus_OSL_MainState_Get.
      change (Modbus_OSL_MainState
                (set_TIMER2 (TimerDisable (TIMER2 s1)) s1))
        with (Modbus_OSL_MainState s1).
      rewrite S1, Hst. reflexivity. }
    split; [exact Hstep|]. simpl.
    rewrite S2, Hw, S7, Ha, S6, Hf, <- app_assoc.
    repeat split.
    intros [H|[H|[]]]; discriminate.
  - intros HL Hck. rewrite (Hret HL). unfold Send_returns. rewrite Hck.
    cbn [char_max]. apply Z.leb_le.
    assert (Hu : uchar (Modbus_OSL_L_Req_ADU (state_of r))).
    { destruct (Output_outcome P pdu 0 L_pdu s) as (tx & g & H).
      cbv zeta in H. subst r.
      destruct H as [(_ & ->)|(_ & ->)]; cbn [state_of];
        unfold Output_arms, Output_mounts;
        destruct (Modbus_OSL_Mode s) eqn:HM; simpl; rewrite ?HM; simpl;
        try exact HL; apply Z.mod_pos_bound; lia. }
    unfold uchar in Hu. lia.
Qed.

(** Scenario B of the specification: a broadcast of [6; 0; 1; 0; 2]; while
    the delay runs the engine is polled, a character arrives, a frame is
    completed; then the timer expires. *)
Lemma broadcast_never_waits_witness :
  let P := scenario_A in
  let s := Reference.configured 3 in
  let r := Modbus_OSL_Output P [6; 0; 1; 0; 2] 0 5 s in
  let es := [Poll; Character 85 UART_INT_RX; Frame_complete; Poll] in
  (returns r = true /\
   forallb (fun e => negb (is_Timer2_expires e)) es = true /\
   uchar (Modbus_OSL_L_Req_ADU s)) /\
  UART1_TX (state_of r) = [0; 6; 0; 1; 0; 2; 88; 26] /\
  exists s2,
    run P 0 (es ++ [Timer2_expires]) (state_of r) = Ret tt s2 /\
    Modbus_OSL_MainState s2 = MODBUS_OSL_IDLE /\
    MainState_writes s2 =
      [MODBUS_OSL_INITIAL; MODBUS_OSL_IDLE; MODBUS_OSL_DELAY;
       MODBUS_OSL_IDLE] /\
    App_calls s2 = [].
Proof.
  intros P s r es.
  assert (Hr : returns r = true) by reflexivity.
  assert (Hes : forallb (fun e => negb (is_Timer2_expires e)) es = true)
    by reflexivity.
  assert (HL : uchar (Modbus_OSL_L_Req_ADU s))
    by (change (uchar 0); unfold uchar; lia).
  split; [exact (conj Hr (conj Hes HL))|].
  split; [reflexivity|].
  destruct (broadcast_never_waits P [6; 0; 1; 0; 2] 5 s) as (_ & H & _).
  fold r in H. destruct (H Hr) as (_ & _ & _ & Hrun).
  destruct (Hrun 0 es Hes)
    as (s1 & s2 & Hrun1 & _ & Hstep & Hst & Hw & _ & Ha & _).
  exists s2. split.
  - vm_compute in Hrun1. injection Hrun1 as <-.
    vm_compute in Hstep. injection Hstep as <-.
    vm_compute. reflexivity.
  - split; [exact Hst|]. split; [exact Hw|exact Ha].
Defined.

(** ** Further properties of the module *)

(** *** The retry tracker over any number of failures *)

Lemma succ_div_mod_below :
  forall M n,
    0 < M -> 0 <= n -> n mod M + 1 < M ->
    (n + 1) mod M = n mod M + 1 /\ (n + 1) / M = n / M.
Proof.
  intros M n HM Hn Hlt.
  assert (H := Z.div_mod n M ltac:(lia)).
  assert (Hb := Z.mod_pos_bound n M HM).
  assert (E : n + 1 = M * (n / M) + (n mod M + 1)) by lia.
  split.
  - symmetry. apply (Z.mod_unique_pos _ _ (n / M)); [lia|exact E].
  - symmetry. apply (Z.div_unique_pos _ _ _ (n mod M + 1)); [lia|exact E].
Qed.

Lemma succ_div_mod_wraps :
  forall M n,
    0 < M -> 0 <= n -> M <= n mod M + 1 ->
    (n + 1) mod M = 0 /\ (n + 1) / M = n / M + 1.
Proof.
  intros M n HM Hn Hge.
  assert (H := Z.div_mod n M ltac:(lia)).
  assert (Hb := Z.mod_pos_bound n M HM).
  assert (E : n + 1 = M * (n / M + 1) + 0) by lia.
  split.
  - symmetry. apply (Z.mod_unique_pos _ _ (n / M + 1)); [lia|exact E].
  - symmetry. apply (Z.div_unique_pos _ _ _ 0); [lia|exact E].
Qed.

(** X1.  For a request whose counter starts at 1 and a bound of at least 1,
    after any number [n] of failures in a row the counter is
    [1 + n mod Max_Attempts], which stays between 1 and the bound, and the
    application has been notified [n / Max_Attempts] more times: one
    notification per exhausted round, none in between. *)
Theorem failures_wrap_around :
  forall n s s',
    failures_in_a_row n s s' ->
    Modbus_OSL_Attempt s = 1 ->
    1 <= Modbus_OSL_Max_Attempts s < 256 ->
    Modbus_OSL_Attempt s' = 1 + Z.of_nat n mod Modbus_OSL_Max_Attempts s /\
    1 <= Modbus_OSL_Attempt s' <= Modbus_OSL_Max_Attempts s' /\
    Modbus_OSL_Max_Attempts s' = Modbus_OSL_Max_Attempts s /\
    Z.of_nat (no_responses s') =
      Z.of_nat (no_responses s) + Z.of_nat n / Modbus_OSL_Max_Attempts s.
Proof.
  intros n s s' H H1 HM.
  assert (Hmain :
    Modbus_OSL_Attempt s' = 1 + Z.of_nat n mod Modbus_OSL_Max_Attempts s /\
    Modbus_OSL_Max_Attempts s' = Modbus_OSL_Max_Attempts s /\
    Z.of_nat (no_responses s') =
      Z.of_nat (no_responses s) + Z.of_nat n / Modbus_OSL_Max_Attempts s).
  { induction H as [s s' (A & M & N)|n s s1 s' H IH (A & M & N)].
    - rewrite A, M, N, H1. cbn [Z.of_nat].
      rewrite Z.mod_0_l, Z.div_0_l by lia. repeat split; lia.
    - destruct (IH H1 HM) as (A1 & M1 & N1).
      assert (Hb := Z.mod_pos_bound (Z.of_nat n) (Modbus_OSL_Max_Attempts s)
                      ltac:(lia)).
      rewrite Nat2Z.inj_succ. unfold Z.succ.
      destruct (Z.lt_ge_cases (Modbus_OSL_Attempt s1)
                  (Modbus_OSL_Max_Attempts s1)) as [Hlt|Hge].
      + rewrite Repeat_Request_again in A, M, N
          by (unfold uchar; lia).
        cbn [Modbus_OSL_Attempt Modbus_OSL_Max_Attempts set_Forward_Flag
             set_Attempt] in A, M.
        unfold no_responses in N.
        cbn [App_calls set_Forward_Flag set_Attempt] in N.
        fold (no_responses s') in N. fold (no_responses s1) in N.
        destruct (succ_div_mod_below (Modbus_OSL_Max_Attempts s) (Z.of_nat n))
          as (Em & Ed); [lia|lia|lia|].
        rewrite Em, Ed, A, M, N. repeat split; lia.
      + rewrite Repeat_Request_give_up in A, M, N by lia.
        cbn [Modbus_OSL_Attempt Modbus_OSL_Max_Attempts set_Attempt
             Modbus_App_No_Response app_call set_App_calls] in A, M.
        assert (N' : no_responses s' = S (no_responses s1)).
        { rewrite N. unfold no_responses at 1.
          cbn [App_calls set_Attempt].
          fold (no_responses (Modbus_App_No_Response s1)).
          unfold Modbus_App_No_Response.
          rewrite no_responses_app_call. cbn [is_No_Response]. lia. }
        destruct (succ_div_mod_wraps (Modbus_OSL_Max_Attempts s) (Z.of_nat n))
          as (Em & Ed); [lia|lia|lia|].
        rewrite Em, Ed, A, M, N'. repeat split; lia. }
  destruct Hmain as (A & M & N).
  assert (Hb := Z.mod_pos_bound (Z.of_nat n) (Modbus_OSL_Max_Attempts s)
                  ltac:(lia)).
  split; [exact A|]. split; [lia|]. split; [exact M|exact N].
Qed.

Lemma failures_by_iteration :
  forall n s,
    failures_in_a_row n s (Nat.iter n Modbus_OSL_Repeat_Request s).
Proof.
  induction n as [|n IH]; intros s.
  - apply fail_none, retry_neutral_refl.
  - cbn [Nat.iter]. eapply fail_more; [apply IH|apply retry_neutral_refl].
Qed.

(** Seven failures with three attempts allowed: two rounds exhausted, the
    third at its second attempt. *)
Lemma failures_wrap_around_witness :
  let s := Reference.configured 3 in
  let s' := Nat.iter 7 Modbus_OSL_Repeat_Request s in
  (failures_in_a_row 7 s s' /\
   Modbus_OSL_Attempt s = 1 /\
   1 <= Modbus_OSL_Max_Attempts s < 256) /\
  Modbus_OSL_Attempt s' = 2 /\
  no_responses s' = 2%nat.
Proof.
  intros s s'.
  assert (H : failures_in_a_row 7 s s') by apply failures_by_iteration.
  assert (H1 : Modbus_OSL_Attempt s = 1) by reflexivity.
  assert (HM : 1 <= Modbus_OSL_Max_Attempts s < 256)
    by (change (1 <= 3 < 256); lia).
  split; [exact (conj H (conj H1 HM))|].
  destruct (failures_wrap_around 7 s s' H H1 HM) as (A & _ & _ & N).
  split.
  - rewrite A. reflexivity.
  - apply Nat2Z.inj. rewrite N. reflexivity.
Defined.

(** *** Configuration *)

(** X2.  [Modbus_OSL_Init] forgets what the module held: whatever the state
    before, the reception diagram is started (in RTU mode; in ASCII mode
    nothing more is done) on a module with both flags down, the frame mark
    OK, the counter at 1 under the bound asked for, the master state
    INITIAL, interrupts enabled, timer 2 stopped and the timeout counts of
    the table for the rate kept.  The default mode is RTU; the default rate
    is the one [B19200] names, which, being 19200, gets the counts of a rate
    outside the table: half and a fifth of a second.  The request buffer,
    its length, the expected slave, the serial line and the application are
    not touched. *)
Theorem Init_resets_the_module :
  forall P Baudrate Mode Attempts s,
    0 <= SysCtlClockGet P -> 5 * SysCtlClockGet P < 4294967296 ->
    exists s',
      Modbus_OSL_Init P Baudrate Mode Attempts s =
        match Mode with
        | MODBUS_OSL_MODE_ASCII => s'
        | _ => Modbus_OSL_RTU_Init P s'
        end /\
      Modbus_OSL_Mode s' =
        match Mode with
        | MODBUS_OSL_MODE_ASCII => MODBUS_OSL_MODE_ASCII
        | _ => MODBUS_OSL_MODE_RTU
        end /\
      Modbus_OSL_Baudrate s' =
        (if Baudrate =? BDEFAULT P then B19200 P else Baudrate) /\
      (Modbus_OSL_Processing_Flag s' = 0 /\
       Modbus_OSL_Forward_Flag s' = 0 /\
       Modbus_OSL_Frame s' = MODBUS_OSL_Frame_OK /\
       Modbus_OSL_Attempt s' = 1 /\
       Modbus_OSL_Max_Attempts s' = Attempts /\
       Modbus_OSL_MainState s' = MODBUS_OSL_INITIAL /\
       MainState_writes s' = MainState_writes s ++ [MODBUS_OSL_INITIAL] /\
       IntMaster s' = true /\
       TimerEnabled (TIMER2 s') = false) /\
      (Modbus_OSL_Timeout_R s' =
         spec_response_timeout_tenths (Modbus_OSL_Baudrate s') *
         SysCtlClockGet P / 10 /\
       Modbus_OSL_Timeout_B s' =
         spec_broadcast_delay_tenths (Modbus_OSL_Baudrate s') *
         SysCtlClockGet P / 10) /\
      (Baudrate = BDEFAULT P -> B19200 P = 19200 ->
       Modbus_OSL_Timeout_R s' = SysCtlClockGet P / 2 /\
       Modbus_OSL_Timeout_B s' = SysCtlClockGet P / 5) /\
      (Modbus_OSL_Req_ADU s' = Modbus_OSL_Req_ADU s /\
       Modbus_OSL_L_Req_ADU s' = Modbus_OSL_L_Req_ADU s /\
       Modbus_OSL_Expected_Slave s' = Modbus_OSL_Expected_Slave s /\
       Modbus_OSL_State s' = Modbus_OSL_State s /\
       UART1_TX s' = UART1_TX s /\
       App_calls s' = App_calls s).
Proof.
  intros P Baudrate Mode Attempts s H0 H1.
  unfold Modbus_OSL_Init. cbv zeta.
  match goal with
  | |- context [Modbus_OSL_Set_Timeout_B P _ ?x] => remember x as s0 eqn:E0
  end.
  assert (F1 : Modbus_OSL_Baudrate s0 =
               (if Baudrate =? BDEFAULT P then B19200 P else Baudrate))
    by (subst s0; destruct (Baudrate =? BDEFAULT P); destruct Mode;
        reflexivity).
  assert (F2 : Modbus_OSL_Mode s0 =
               match Mode with
               | MODBUS_OSL_MODE_ASCII => MODBUS_OSL_MODE_ASCII
               | _ => MODBUS_OSL_MODE_RTU
               end)
    by (subst s0; destruct (Baudrate =? BDEFAULT P); destruct Mode;
        reflexivity).
  assert (F3 : Modbus_OSL_Processing_Flag s0 = 0 /\
               Modbus_OSL_Forward_Flag s0 = 0 /\
               Modbus_OSL_Frame s0 = MODBUS_OSL_Frame_OK /\
               Modbus_OSL_Attempt s0 = 1 /\
               Modbus_OSL_Max_Attempts s0 = Attempts /\
               Modbus_OSL_MainState s0 = MODBUS_OSL_INITIAL /\
               MainState_writes s0 =
                 MainState_writes s ++ [MODBUS_OSL_INITIAL] /\
               IntMaster s0 = true /\
               TimerEnabled (TIMER2 s0) = false)
    by (subst s0; destruct (Baudrate =? BDEFAULT P); destruct Mode;
        repeat split).
  assert (F4 : Modbus_OSL_Req_ADU s0 = Modbus_OSL_Req_ADU s /\
               Modbus_OSL_L_Req_ADU s0 = Modbus_OSL_L_Req_ADU s /\
               Modbus_OSL_Expected_Slave s0 = Modbus_OSL_Expected_Slave s /\
               Modbus_OSL_State s0 = Modbus_OSL_State s /\
               UART1_TX s0 = UART1_TX s /\
               App_calls s0 = App_calls s)
    by (subst s0; destruct (Baudrate =? BDEFAULT P); destruct Mode;
        repeat split).
  clear E0.
  assert (HB := Timeout_B_count P (Modbus_OSL_Baudrate s0) s0 H0 H1).
  destruct (Set_Timeout_B_frame P (Modbus_OSL_Baudrate s0) s0) as (vb & Hb).
  rewrite Hb in HB |- *. clear Hb.
  cbn [Modbus_OSL_Timeout_B Modbus_OSL_Baudrate set_Timeout_B] in HB |- *.
  assert (HR := Timeout_R_count P (Modbus_OSL_Baudrate s0)
                  (set_Timeout_B vb s0) H0 H1).
  destruct (Set_Timeout_R_frame P (Modbus_OSL_Baudrate s0)
              (set_Timeout_B vb s0)) as (vr & Hr).
  rewrite Hr in HR |- *. clear Hr.
  cbn [Modbus_OSL_Timeout_R set_Timeout_R] in HR.
  exists (set_Timeout_R vr (set_Timeout_B vb s0)).
  split.
  { cbn [Modbus_OSL_Mode set_Timeout_R set_Timeout_B]. rewrite F2.
    destruct Mode; reflexivity. }
  split; [exact F2|]. split; [exact F1|]. split; [exact F3|].
  split; [split; [exact HR|exact HB]|].
  split; [|exact F4].
  intros EB E19.
  cbn [Modbus_OSL_Timeout_R Modbus_OSL_Timeout_B set_Timeout_R
       set_Timeout_B].
  rewrite HR, HB, F1, EB, Z.eqb_refl, E19.
  cbn [spec_response_timeout_tenths spec_broadcast_delay_tenths Z.eqb
       Pos.eqb].
  split; Z.div_mod_to_equations; lia.
Qed.

Lemma Init_resets_the_module_witness :
  let P := Reference.bare UnsignedChar 8000000 in
  let s := Reference.power_on in
  (0 <= SysCtlClockGet P /\ 5 * SysCtlClockGet P < 4294967296) /\
  Modbus_OSL_Timeout_R (Modbus_OSL_Init P 0 MDEFAULT 3 s) = 4000000 /\
  Modbus_OSL_Timeout_B (Modbus_OSL_Init P 0 MDEFAULT 3 s) = 1600000 /\
  Modbus_OSL_Baudrate (Modbus_OSL_Init P 0 MDEFAULT 3 s) = 19200 /\
  Modbus_OSL_Mode (Modbus_OSL_Init P 0 MDEFAULT 3 s) = MODBUS_OSL_MODE_RTU.
Proof.
  intros P s.
  assert (H0 : 0 <= SysCtlClockGet P) by (simpl; lia).
  assert (H1 : 5 * SysCtlClockGet P < 4294967296) by (simpl; lia).
  split; [exact (conj H0 H1)|].
  destruct (Init_resets_the_module P 0 MDEFAULT 3 s H0 H1)
    as (s' & E & HM & HBd & _ & _ & Hdef & _).
  destruct (Hdef eq_refl eq_refl) as (HR & HB).
  rewrite E.
  change (Modbus_OSL_RTU_Init P s') with (Reference.ReceptionInit s').
  unfold Reference.ReceptionInit.
  cbn [Modbus_OSL_Timeout_R Modbus_OSL_Timeout_B Modbus_OSL_Baudrate
       Modbus_OSL_Mode Modbus_OSL_MainState_Set write_MainState
       Modbus_OSL_State_Set set_State set_RTU_L_Msg set_RTU_Msg].
  rewrite HR, HB, HBd, HM. repeat split.
Defined.

(** *** The poll *)

(** X3.  [Modbus_OSL_Serial_Comm] answers 0 in one situation only: the
    master state is IDLE, no resend is pending and the application reports
    that it had nothing to send; the state is then the one the application
    left.  In the states the poll has no case for (INITIAL, EMISSION, DELAY,
    PROCESSING) it answers 1 and changes nothing. *)
Theorem Serial_Comm_quiescent_only_in_IDLE :
  forall P slave0 s,
    (forall s',
       Modbus_OSL_Serial_Comm P slave0 s = Ret 0 s' <->
       Modbus_OSL_MainState s = MODBUS_OSL_IDLE /\
       Modbus_OSL_Forward_Flag s = 0 /\
       exists empty,
         empty <> 0 /\
         Modbus_App_FIFOSend P (set_Forward_Flag 0 s) = Ret empty s') /\
    (Modbus_OSL_MainState s <> MODBUS_OSL_IDLE ->
     Modbus_OSL_MainState s <> MODBUS_OSL_WAITREPLY ->
     Modbus_OSL_MainState s <> MODBUS_OSL_ERROR ->
     Modbus_OSL_Serial_Comm P slave0 s = Ret 1 s).
Proof.
  intros P slave0 s. split.
  - intros s'. unfold Modbus_OSL_Serial_Comm, Modbus_OSL_MainState_Get,
      Modbus_OSL_Resend, Modbus_OSL_State_Get.
    split.
    + intros H. destruct (Modbus_OSL_MainState s) eqn:Hst;
        try discriminate H.
      * destruct (Z.eqb_spec (Modbus_OSL_Forward_Flag s) 0) as [Hf|Hf].
        -- destruct (Modbus_App_FIFOSend P (set_Forward_Flag 0 s))
             as [empty s1|s1]; cbn [bind] in H; [|discriminate H].
           destruct (Z.eqb_spec empty 0) as [He|He]; [discriminate H|].
           injection H as <-.
           split; [reflexivity|]. split; [exact Hf|].
           exists empty. split; [exact He|reflexivity].
        -- destruct (Modbus_App_Send P (set_Forward_Flag 0 s)) as [[] s1|s1];
             discriminate H.
      * destruct (Modbus_OSL_Receive_CallBack P slave0 s) as [msg s1|s1];
          cbn [bind] in H; [|discriminate H].
        destruct (msg =? 0); [discriminate H|].
        destruct (Modbus_App_Manage_CallBack P s1) as [[] s2|s2];
          discriminate H.
      * destruct (Modbus_OSL_State s); discriminate H.
    + intros (Hst & Hf & empty & He & Hsend).
      rewrite Hst, Hf. cbn [Z.eqb]. rewrite Hsend. cbn [bind].
      destruct (Z.eqb_spec empty 0); [contradiction|reflexivity].
  - intros H1 H2 H3.
    unfold Modbus_OSL_Serial_Comm, Modbus_OSL_MainState_Get.
    destruct (Modbus_OSL_MainState s); try reflexivity; contradiction.
Qed.

(** Nothing queued: the poll of an idle engine answers 0; during a
    broadcast delay it answers 1. *)
Lemma Serial_Comm_quiescent_only_in_IDLE_witness :
  let P := Reference.bare UnsignedChar 8000000 in
  let s := Reference.configured 3 in
  let waiting := state_of (Modbus_OSL_Output P [6; 0; 1; 0; 2] 0 5 s) in
  (Modbus_OSL_MainState s = MODBUS_OSL_IDLE /\
   Modbus_OSL_Forward_Flag s = 0 /\
   exists empty,
     empty <> 0 /\
     Modbus_App_FIFOSend P (set_Forward_Flag 0 s) =
       Ret empty (set_Forward_Flag 0 s)) /\
  Modbus_OSL_Serial_Comm P 0 s = Ret 0 (set_Forward_Flag 0 s) /\
  (Modbus_OSL_MainState waiting <> MODBUS_OSL_IDLE /\
   Modbus_OSL_MainState waiting <> MODBUS_OSL_WAITREPLY /\
   Modbus_OSL_MainState waiting <> MODBUS_OSL_ERROR) /\
  Modbus_OSL_Serial_Comm P 0 waiting = Ret 1 waiting.
Proof.
  intros P s waiting.
  assert (Hq : Modbus_OSL_MainState s = MODBUS_OSL_IDLE /\
               Modbus_OSL_Forward_Flag s = 0 /\
               exists empty,
                 empty <> 0 /\
                 Modbus_App_FIFOSend P (set_Forward_Flag 0 s) =
                   Ret empty (set_Forward_Flag 0 s)).
  { split; [reflexivity|]. split; [reflexivity|].
    exists 1. split; [discriminate|reflexivity]. }
  assert (H1 : Modbus_OSL_MainState waiting <> MODBUS_OSL_IDLE)
    by (change (MODBUS_OSL_DELAY <> MODBUS_OSL_IDLE); discriminate).
  assert (H2 : Modbus_OSL_MainState waiting <> MODBUS_OSL_WAITREPLY)
    by (change (MODBUS_OSL_DELAY <> MODBUS_OSL_WAITREPLY); discriminate).
  assert (H3 : Modbus_OSL_MainState waiting <> MODBUS_OSL_ERROR)
    by (change (MODBUS_OSL_DELAY <> MODBUS_OSL_ERROR); discriminate).
  split; [exact Hq|].
  split.
  - apply (proj1 (Serial_Comm_quiescent_only_in_IDLE P 0 s)). exact Hq.
  - split; [exact (conj H1 (conj H2 H3))|].
    exact (proj2 (Serial_Comm_quiescent_only_in_IDLE P 0 waiting) H1 H2 H3).
Defined.

(** X4.  What the poll makes of an error.  While the reception diagram is
    not idle the poll in ERROR answers 1 and changes nothing: no attempt is
    spent.  Once it is idle the poll goes to IDLE, and the poll after that
    resends the same request, through [Modbus_App_Send] with the resend flag
    consumed, if attempts remained; otherwise the application has been told
    of the missing response, the counter is back to 1, and the poll after
    that asks the application for its next request. *)
Theorem error_poll_then_idle_poll :
  forall P slave0 s,
    Modbus_OSL_MainState s = MODBUS_OSL_ERROR ->
    uchar (Modbus_OSL_Attempt s) ->
    uchar (Modbus_OSL_Max_Attempts s) ->
    Modbus_OSL_Forward_Flag s = 0 ->
    (Modbus_OSL_State s <> MODBUS_OSL_RTU_IDLE ->
     Modbus_OSL_State s <> MODBUS_OSL_ASCII_IDLE ->
     Modbus_OSL_Serial_Comm P slave0 s = Ret 1 s) /\
    (Modbus_OSL_State s = MODBUS_OSL_RTU_IDLE \/
     Modbus_OSL_State s = MODBUS_OSL_ASCII_IDLE ->
     exists s1,
       Modbus_OSL_Serial_Comm P slave0 s = Ret 1 s1 /\
       Modbus_OSL_MainState s1 = MODBUS_OSL_IDLE /\
       (Modbus_OSL_Attempt s < Modbus_OSL_Max_Attempts s ->
        Modbus_OSL_Attempt s1 = Modbus_OSL_Attempt s + 1 /\
        App_calls s1 = App_calls s /\
        Modbus_OSL_Serial_Comm P slave0 s1 =
          (_ <- Modbus_App_Send P (set_Forward_Flag 0 s1) ;; Ret 1)) /\
       (Modbus_OSL_Max_Attempts s <= Modbus_OSL_Attempt s ->
        Modbus_OSL_Attempt s1 = 1 /\
        App_calls s1 = App_calls s ++ [App_No_Response] /\
        Modbus_OSL_Serial_Comm P slave0 s1 =
          (empty <- Modbus_App_FIFOSend P (set_Forward_Flag 0 s1) ;;
           fun s => if empty =? 0 then Ret 1 s else Ret 0 s))).
Proof.
  intros P slave0 s Hst HA HM HF. split.
  - intros H1 H2.
    unfold Modbus_OSL_Serial_Comm, Modbus_OSL_MainState_Get,
      Modbus_OSL_State_Get.
    rewrite Hst. destruct (Modbus_OSL_State s); try reflexivity;
      contradiction.
  - intros Hidle.
    exists (Modbus_OSL_MainState_Set MODBUS_OSL_IDLE
              (Modbus_OSL_Repeat_Request s)).
    split; [apply Serial_Comm_in_ERROR; assumption|].
    split; [reflexivity|]. split.
    + intros Hlt.
      rewrite Repeat_Request_again by (unfold uchar in *; lia).
      split; [reflexivity|]. split; [reflexivity|reflexivity].
    + intros Hge.
      rewrite Repeat_Request_give_up by exact Hge.
      split; [reflexivity|]. split; [reflexivity|].
      unfold Modbus_OSL_Serial_Comm, Modbus_OSL_MainState_Get,
        Modbus_OSL_Resend.
      cbn [Modbus_OSL_MainState Modbus_OSL_MainState_Set write_MainState
           Modbus_OSL_Forward_Flag set_Attempt Modbus_App_No_Response
           app_call set_App_calls].
      rewrite HF. reflexivity.
Qed.

(** Scenario A again: the first time-out leaves two attempts, and the next
    poll resends. *)
Lemma error_poll_then_idle_poll_witness :
  let P := scenario_A in
  let late := state_of (Modbus_OSL_Timeouts (sends P (Reference.configured 3))) in
  (Modbus_OSL_MainState late = MODBUS_OSL_ERROR /\
   uchar (Modbus_OSL_Attempt late) /\
   uchar (Modbus_OSL_Max_Attempts late) /\
   Modbus_OSL_Forward_Flag late = 0 /\
   Modbus_OSL_State late = MODBUS_OSL_RTU_IDLE /\
   Modbus_OSL_Attempt late < Modbus_OSL_Max_Attempts late) /\
  exists s1,
    Modbus_OSL_Serial_Comm P 0 late = Ret 1 s1 /\
    Modbus_OSL_Attempt s1 = 2 /\
    Modbus_OSL_Serial_Comm P 0 s1 =
      (_ <- Modbus_App_Send P (set_Forward_Flag 0 s1) ;; Ret 1).
Proof.
  intros P late.
  assert (Hst : Modbus_OSL_MainState late = MODBUS_OSL_ERROR) by reflexivity.
  assert (HA : uchar (Modbus_OSL_Attempt late))
    by (change (uchar 1); unfold uchar; lia).
  assert (HM : uchar (Modbus_OSL_Max_Attempts late))
    by (change (uchar 3); unfold uchar; lia).
  assert (HF : Modbus_OSL_Forward_Flag late = 0) by reflexivity.
  assert (Hi : Modbus_OSL_State late = MODBUS_OSL_RTU_IDLE) by reflexivity.
  assert (Hlt : Modbus_OSL_Attempt late < Modbus_OSL_Max_Attempts late)
    by (change (1 < 3); lia).
  split; [exact (conj Hst (conj HA (conj HM (conj HF (conj Hi Hlt)))))|].
  destruct (error_poll_then_idle_poll P 0 late Hst HA HM HF) as (_ & H).
  destruct (H (or_introl Hi)) as (s1 & Hpoll & _ & Hagain & _).
  destruct (Hagain Hlt) as (Hatt & _ & Hnext).
  exists s1. split; [exact Hpoll|]. split; [|exact Hnext].
  rewrite Hatt. reflexivity.
Defined.

(** *** Sending a request *)

(** X5.  A request to a slave (address other than 0): once the transmission
    has ended, [Modbus_OSL_Output] has stored WAITREPLY and nothing else
    into the master state, timer 2 runs with the response count, the slave
    is the expected one and the application has not been called; in RTU
    mode the reception diagram is in its emission state with timer 0
    running on the end-of-frame count.  From there the expiry of timer 2
    leads to ERROR.  Should the transmission never end, the master state
    and timer 2 are as before. *)
Theorem Output_unicast_awaits_reply :
  forall P pdu Slave L_pdu s,
    Slave <> 0 ->
    let r := Modbus_OSL_Output P pdu Slave L_pdu s in
    Modbus_OSL_Expected_Slave (state_of r) = Slave /\
    App_calls (state_of r) = App_calls s /\
    (returns r = false ->
     Modbus_OSL_MainState (state_of r) = Modbus_OSL_MainState s /\
     MainState_writes (state_of r) = MainState_writes s /\
     TIMER2 (state_of r) = TIMER2 s) /\
    (returns r = true ->
     Modbus_OSL_MainState (state_of r) = MODBUS_OSL_WAITREPLY /\
     MainState_writes (state_of r) =
       MainState_writes s ++ [MODBUS_OSL_WAITREPLY] /\
     TIMER2 (state_of r) =
       {| TimerLoad := Modbus_OSL_Timeout_R s; TimerEnabled := true |} /\
     (Modbus_OSL_Mode s = MODBUS_OSL_MODE_RTU ->
      TIMER0 (state_of r) =
        {| TimerLoad := Modbus_OSL_RTU_Get_Timeout_35 P;
           TimerEnabled := true |} /\
      Modbus_OSL_State (state_of r) = MODBUS_OSL_RTU_EMISSION) /\
     Modbus_OSL_Timeouts (state_of r) =
       Ret tt (Modbus_OSL_MainState_Set MODBUS_OSL_ERROR (state_of r))).
Proof.
  intros P pdu Slave L_pdu s HS r.
  destruct (Output_outcome P pdu Slave L_pdu s) as (tx & g & H).
  cbv zeta in H. subst r.
  destruct H as [(_ & ->)|(_ & ->)]; cbn [state_of returns].
  - unfold Output_arms, Output_mounts.
    destruct (Modbus_OSL_Mode s) eqn:HM; simpl; rewrite ?HM; simpl;
      destruct (Z.eqb_spec Slave 0) as [|_]; try contradiction;
      (split; [reflexivity|]); (split; [reflexivity|]);
      (split; [discriminate|]); intros _;
      unfold Modbus_OSL_Timeouts; simpl;
      repeat split; intros; discriminate.
  - unfold Output_mounts.
    destruct (Modbus_OSL_Mode s) eqn:HM; simpl;
      (split; [reflexivity|]); (split; [reflexivity|]);
      (split; [|discriminate]); intros _; repeat split.
Qed.

Lemma Output_unicast_awaits_reply_witness :
  let P := scenario_A in
  let s := Reference.configured 3 in
  let r := Modbus_OSL_Output P [3; 0; 0; 0; 1] 5 5 s in
  (5 <> 0 /\ returns r = true) /\
  Modbus_OSL_MainState (state_of r) = MODBUS_OSL_WAITREPLY /\
  TIMER2 (state_of r) = {| TimerLoad := 8000000; TimerEnabled := true |} /\
  Modbus_OSL_Expected_Slave (state_of r) = 5.
Proof.
  intros P s r.
  assert (H5 : 5 <> 0) by discriminate.
  assert (Hr : returns r = true) by reflexivity.
  split; [exact (conj H5 Hr)|].
  destruct (Output_unicast_awaits_reply P [3; 0; 0; 0; 1] 5 5 s H5)
    as (HE & _ & _ & H).
  destruct (H Hr) as (Hst & _ & Ht & _).
  split; [exact Hst|]. split; [exact Ht|exact HE].
Defined.

(** X6.  What [Modbus_OSL_Output] puts on the line in RTU mode, whatever
    the address, when its transmission ends: the first
    [(L_pdu + 3) mod 256] characters of the mounted buffer, after what was
    sent before.  For a PDU of at most 252 characters that is the whole
    frame of [L_pdu + 3] characters; for one of 253 to 255 characters the
    stored length has wrapped and only [L_pdu - 253] characters, at most
    two, go out, although the engine then waits as after a full frame. *)
Theorem Output_puts_frame_on_line :
  forall P pdu Slave L_pdu s,
    Modbus_OSL_Mode s = MODBUS_OSL_MODE_RTU ->
    uchar L_pdu ->
    length (Modbus_OSL_RTU_Mount_ADU P pdu Slave L_pdu
              (Modbus_OSL_Req_ADU s)) = 256%nat ->
    Send_returns (plain_char P) ((L_pdu + 3) mod 256) = true ->
    let r := Modbus_OSL_Output P pdu Slave L_pdu s in
    let adu :=
      Modbus_OSL_RTU_Mount_ADU P pdu Slave L_pdu (Modbus_OSL_Req_ADU s) in
    let sent := firstn (Z.to_nat ((L_pdu + 3) mod 256)) adu in
    returns r = true /\
    Modbus_OSL_Req_ADU (state_of r) = adu /\
    UART1_TX (state_of r) = UART1_TX s ++ sent /\
    (L_pdu <= 252 -> Z.of_nat (length sent) = L_pdu + 3) /\
    (253 <= L_pdu ->
     Z.of_nat (length sent) = L_pdu - 253 /\
     (Slave <> 0 ->
      Modbus_OSL_MainState (state_of r) = MODBUS_OSL_WAITREPLY)).
Proof.
  intros P pdu Slave L_pdu s HM HL Hlen Hret r adu sent.
  assert (Hu : uchar ((L_pdu + 3) mod 256))
    by (apply Z.mod_pos_bound; lia).
  assert (Hs1 : Output_mounts P pdu Slave L_pdu s =
                set_Expected_Slave Slave
                  (Modbus_OSL_State_Set MODBUS_OSL_RTU_EMISSION
                     (set_L_Req_ADU (uint8 (L_pdu + 3))
                        (set_Req_ADU adu s)))).
  { unfold Output_mounts. rewrite HM. reflexivity. }
  assert (Hout :
    r = Ret tt
          (Output_arms P
             (LED1_off
                (set_UART1_TX (UART1_TX s ++ sent)
                   (LED1_on (Output_mounts P pdu Slave L_pdu s)))))).
  { subst r. rewrite Output_in_halves. cbv zeta. rewrite Hs1.
    cbn [Modbus_OSL_Req_ADU Modbus_OSL_L_Req_ADU set_Expected_Slave
         Modbus_OSL_State_Set set_State set_L_Req_ADU set_Req_ADU].
    unfold uint8.
    rewrite Send_outcome;
      [|exact Hu|unfold adu; rewrite Hlen; unfold uchar in Hu; lia].
    rewrite Hret. reflexivity. }
  assert (Hsent : length sent = Z.to_nat ((L_pdu + 3) mod 256)).
  { unfold sent, adu. rewrite length_firstn, Hlen.
    unfold uchar in Hu. lia. }
  rewrite Hout. cbn [returns state_of].
  split; [reflexivity|].
  unfold Output_arms. rewrite Hs1. simpl. rewrite HM. simpl.
  destruct (Z.eqb_spec Slave 0) as [H0|H0].
  - split; [reflexivity|]. split; [reflexivity|].
    split.
    + intros Hle. rewrite Hsent. unfold uchar in *.
      rewrite Z2Nat.id by lia. apply Z.mod_small. lia.
    + intros Hge. split; [|contradiction].
      rewrite Hsent. unfold uchar in *. rewrite Z2Nat.id by lia.
      Z.div_mod_to_equations. lia.
  - split; [reflexivity|]. split; [reflexivity|].
    split.
    + intros Hle. rewrite Hsent. unfold uchar in *.
      rewrite Z2Nat.id by lia. apply Z.mod_small. lia.
    + intros Hge. split; [|intros _; reflexivity].
      rewrite Hsent. unfold uchar in *. rewrite Z2Nat.id by lia.
      Z.div_mod_to_equations. lia.
Qed.

(** A PDU of 5 characters goes out whole; one of 254 characters leaves a
    single character on the line. *)
Lemma Output_puts_frame_on_line_witness :
  let P := scenario_A in
  let s := Reference.configured 3 in
  (Modbus_OSL_Mode s = MODBUS_OSL_MODE_RTU /\ uchar 5 /\ uchar 254 /\
   length (Modbus_OSL_RTU_Mount_ADU P [3; 0; 0; 0; 1] 5 5
             (Modbus_OSL_Req_ADU s)) = 256%nat /\
   length (Modbus_OSL_RTU_Mount_ADU P (repeat 7 254) 5 254
             (Modbus_OSL_Req_ADU s)) = 256%nat /\
   Send_returns (plain_char P) ((5 + 3) mod 256) = true /\
   Send_returns (plain_char P) ((254 + 3) mod 256) = true) /\
  UART1_TX (state_of (Modbus_OSL_Output P [3; 0; 0; 0; 1] 5 5 s)) =
    [5; 3; 0; 0; 0; 1; 133; 142] /\
  UART1_TX (state_of (Modbus_OSL_Output P (repeat 7 254) 5 254 s)) = [5] /\
  Modbus_OSL_MainState (state_of (Modbus_OSL_Output P (repeat 7 254) 5 254 s)) =
    MODBUS_OSL_WAITREPLY.
Proof.
  intros P s.
  assert (HM : Modbus_OSL_Mode s = MODBUS_OSL_MODE_RTU) by reflexivity.
  assert (H5 : uchar 5) by (unfold uchar; lia).
  assert (H254 : uchar 254) by (unfold uchar; lia).
  assert (Hl1 : length (Modbus_OSL_RTU_Mount_ADU P [3; 0; 0; 0; 1] 5 5
                          (Modbus_OSL_Req_ADU s)) = 256%nat)
    by (vm_compute; reflexivity).
  assert (Hl2 : length (Modbus_OSL_RTU_Mount_ADU P (repeat 7 254) 5 254
                          (Modbus_OSL_Req_ADU s)) = 256%nat)
    by (vm_compute; reflexivity).
  assert (Hr1 : Send_returns (plain_char P) ((5 + 3) mod 256) = true)
    by reflexivity.
  assert (Hr2 : Send_returns (plain_char P) ((254 + 3) mod 256) = true)
    by reflexivity.
  split;
    [exact (conj HM (conj H5 (conj H254 (conj Hl1 (conj Hl2 (conj Hr1 Hr2))))))|].
  destruct (Output_puts_frame_on_line P [3; 0; 0; 0; 1] 5 5 s HM H5 Hl1 Hr1)
    as (_ & _ & Htx1 & _).
  destruct (Output_puts_frame_on_line P (repeat 7 254) 5 254 s HM H254 Hl2 Hr2)
    as (_ & _ & Htx2 & _ & Hw).
  split; [rewrite Htx1; vm_compute; reflexivity|].
  split; [rewrite Htx2; vm_compute; reflexivity|].
  apply Hw; [lia|discriminate].
Defined.

(** *** Waiting for the reply *)

Lemma Receive_CallBack_not_for_us :
  forall P slave0 s,
    Modbus_OSL_Mode s = MODBUS_OSL_MODE_RTU ->
    Modbus_OSL_Processing_Flag s = 0 \/
    Modbus_OSL_RTU_Char_Get 0 s <> Modbus_OSL_Expected_Slave s ->
    Modbus_OSL_Receive_CallBack P slave0 s =
    Ret 0 (set_IntMaster true (set_Processing_Flag 0 s)).
Proof.
  intros P slave0 s HM H. unfold Modbus_OSL_Receive_CallBack.
  rewrite Processing_Msg_reads_and_clears.
  destruct (Z.eqb_spec (Modbus_OSL_Processing_Flag s) 0) as [|Hf];
    [reflexivity|].
  destruct H as [H|H]; [contradiction|].
  cbn [Modbus_OSL_Mode Modbus_OSL_Expected_Slave set_IntMaster
       set_Processing_Flag].
  rewrite HM.
  change (Modbus_OSL_RTU_Char_Get 0
            (set_IntMaster true (set_Processing_Flag 0 s)))
    with (Modbus_OSL_RTU_Char_Get 0 s).
  destruct (Z.eqb_spec (Modbus_OSL_RTU_Char_Get 0 s)
              (Modbus_OSL_Expected_Slave s)) as [|_]; [contradiction|].
  reflexivity.
Qed.

(** X7.  In RTU mode the engine does not leave WAITREPLY by itself.  If an
    event takes it out of WAITREPLY, then either timer 2 has expired, and
    the state is ERROR; or a poll found a complete frame whose first
    character is the expected slave; or the reception diagram, called for
    a character, changed the master state itself.  A completed frame, a
    parity error, a poll without a frame or with a frame of another slave
    all leave it in WAITREPLY. *)
Theorem WAITREPLY_is_left_only_by :
  forall P slave0 e s,
    Modbus_OSL_MainState s = MODBUS_OSL_WAITREPLY ->
    Modbus_OSL_Mode s = MODBUS_OSL_MODE_RTU ->
    Modbus_OSL_MainState (state_of (step P slave0 e s))
      <> MODBUS_OSL_WAITREPLY ->
    (e = Timer2_expires /\
     Modbus_OSL_MainState (state_of (step P slave0 e s)) = MODBUS_OSL_ERROR) \/
    (e = Poll /\
     Modbus_OSL_Processing_Flag s <> 0 /\
     Modbus_OSL_RTU_Char_Get 0 s = Modbus_OSL_Expected_Slave s) \/
    (exists c ulStatus,
       e = Character c ulStatus /\
       ulStatus <> UART_INT_PE /\
       Modbus_OSL_MainState
         (state_of
            (Modbus_OSL_RTU_UART P
               (LED1_on (set_UART1_RX (UART1_RX s ++ [c]) s))))
         <> MODBUS_OSL_WAITREPLY).
Proof.
  intros P slave0 e s Hst HM Hleft. destruct e as [|c st| |].
  - right. left. split; [reflexivity|].
    destruct (Z.eq_dec (Modbus_OSL_Processing_Flag s) 0) as [Hf|Hf].
    + exfalso. apply Hleft.
      unfold step, Modbus_OSL_Serial_Comm, Modbus_OSL_MainState_Get.
      rewrite Hst, Receive_CallBack_not_for_us by (try left; assumption).
      cbn. exact Hst.
    + split; [exact Hf|].
      destruct (Z.eq_dec (Modbus_OSL_RTU_Char_Get 0 s)
                  (Modbus_OSL_Expected_Slave s)) as [He|He]; [exact He|].
      exfalso. apply Hleft.
      unfold step, Modbus_OSL_Serial_Comm, Modbus_OSL_MainState_Get.
      rewrite Hst, Receive_CallBack_not_for_us by (try right; assumption).
      cbn. exact Hst.
  - right. right. exists c, st.
    split; [reflexivity|].
    unfold step, UART1IntHandler, Modbus_OSL_MainState_Get in Hleft.
    change (Modbus_OSL_MainState
              (LED1_on (set_UART1_RX (UART1_RX s ++ [c]) s)))
      with (Modbus_OSL_MainState s) in Hleft.
    change (Modbus_OSL_Mode
              (LED1_on (set_UART1_RX (UART1_RX s ++ [c]) s)))
      with (Modbus_OSL_Mode s) in Hleft.
    rewrite Hst, HM in Hleft.
    destruct (Z.eqb_spec UART_INT_PE st) as [E|E].
    + exfalso. apply Hleft. cbn. exact Hst.
    + split; [intros E'; apply E; symmetry; exact E'|].
      intros Hkeep. apply Hleft.
      destruct (Modbus_OSL_RTU_UART P
                  (LED1_on (set_UART1_RX (UART1_RX s ++ [c]) s)))
        as [[] s1|s1]; cbn in Hkeep |- *; exact Hkeep.
  - exfalso. apply Hleft.
    unfold step, Modbus_OSL_Reception_Complete, Modbus_OSL_MainState_Get.
    rewrite Hst. cbn. exact Hst.
  - left. split; [reflexivity|].
    unfold step, Modbus_OSL_Timeouts, Modbus_OSL_MainState_Get.
    change (Modbus_OSL_MainState (set_TIMER2 (TimerDisable (TIMER2 s)) s))
      with (Modbus_OSL_MainState s).
    rewrite Hst. reflexivity.
Qed.

(** A request to slave 5 is out; the timer expires. *)
Lemma WAITREPLY_is_left_only_by_witness :
  let P := scenario_A in
  let s := sends P (Reference.configured 3) in
  (Modbus_OSL_MainState s = MODBUS_OSL_WAITREPLY /\
   Modbus_OSL_Mode s = MODBUS_OSL_MODE_RTU /\
   Modbus_OSL_MainState (state_of (step P 0 Timer2_expires s))
     <> MODBUS_OSL_WAITREPLY) /\
  Modbus_OSL_MainState (state_of (step P 0 Timer2_expires s)) =
    MODBUS_OSL_ERROR.
Proof.
  intros P s.
  assert (Hst : Modbus_OSL_MainState s = MODBUS_OSL_WAITREPLY)
    by reflexivity.
  assert (HM : Modbus_OSL_Mode s = MODBUS_OSL_MODE_RTU) by reflexivity.
  assert (Hl : Modbus_OSL_MainState (state_of (step P 0 Timer2_expires s))
               <> MODBUS_OSL_WAITREPLY)
    by (change (MODBUS_OSL_ERROR <> MODBUS_OSL_WAITREPLY); discriminate).
  split; [exact (conj Hst (conj HM Hl))|].
  destruct (WAITREPLY_is_left_only_by P 0 Timer2_expires s Hst HM Hl)
    as [(_ & H)|[(H & _)|(c & st & H & _)]];
    [exact H|discriminate H|discriminate H].
Defined.

(** *** The character interrupt, continued *)

(** X8.  A parity error.  When the interrupt status is the parity error
    alone, in WAITREPLY or ERROR the handler marks the frame NOK and that is
    all: the character stays in the receiver, the reception diagram is not
    called (the outcome is the same for every platform) and the master
    state is kept; in any other state the mark is left alone.  When the
    status carries anything besides the parity error, the receive interrupt
    for instance, the handler does not mark the frame itself: in RTU mode
    the mark is whatever the reception diagram leaves. *)
Theorem UART1IntHandler_parity_error :
  forall P s,
    (Modbus_OSL_MainState s = MODBUS_OSL_WAITREPLY \/
     Modbus_OSL_MainState s = MODBUS_OSL_ERROR ->
     let s' :=
       LED1_off (Modbus_OSL_Frame_Set MODBUS_OSL_Frame_NOK (LED1_on s)) in
     (forall P', UART1IntHandler P' UART_INT_PE s = Ret tt s') /\
     Modbus_OSL_Frame s' = MODBUS_OSL_Frame_NOK /\
     UART1_RX s' = UART1_RX s /\
     RTU_Msg s' = RTU_Msg s /\
     Modbus_OSL_MainState s' = Modbus_OSL_MainState s) /\
    (Modbus_OSL_MainState s <> MODBUS_OSL_WAITREPLY ->
     Modbus_OSL_MainState s <> MODBUS_OSL_ERROR ->
     Modbus_OSL_Frame (state_of (UART1IntHandler P UART_INT_PE s)) =
     Modbus_OSL_Frame s) /\
    (forall ulStatus,
       Modbus_OSL_MainState s = MODBUS_OSL_WAITREPLY \/
       Modbus_OSL_MainState s = MODBUS_OSL_ERROR ->
       Modbus_OSL_Mode s = MODBUS_OSL_MODE_RTU ->
       ulStatus <> UART_INT_PE ->
       Modbus_OSL_Frame (state_of (UART1IntHandler P ulStatus s)) =
       Modbus_OSL_Frame (state_of (Modbus_OSL_RTU_UART P (LED1_on s)))).
Proof.
  intros P s. split; [|split].
  - intros Hst s'. split; [|repeat split].
    intros P'. unfold UART1IntHandler, Modbus_OSL_MainState_Get.
    change (Modbus_OSL_MainState (LED1_on s)) with (Modbus_OSL_MainState s).
    destruct Hst as [Hst|Hst]; rewrite Hst; reflexivity.
  - intros H1 H2. rewrite UART1IntHandler_drops by assumption.
    cbn [state_of]. unfold UARTCharGetNonBlocking.
    destruct (UART1_RX (LED1_on s)); reflexivity.
  - intros st Hst HM Hpe.
    unfold UART1IntHandler, Modbus_OSL_MainState_Get.
    change (Modbus_OSL_MainState (LED1_on s)) with (Modbus_OSL_MainState s).
    change (Modbus_OSL_Mode (LED1_on s)) with (Modbus_OSL_Mode s).
    rewrite HM.
    destruct (Z.eqb_spec UART_INT_PE st) as [E|_];
      [symmetry in E; contradiction|].
    destruct Hst as [Hst|Hst]; rewrite Hst;
      destruct (Modbus_OSL_RTU_UART P (LED1_on s)) as [[] s1|s1];
      reflexivity.
Qed.

(** A parity error alone while the reply is awaited marks the frame; with
    the receive interrupt the character is buffered and the mark is not
    set. *)
Lemma UART1IntHandler_parity_error_witness :
  let P := scenario_A in
  let s := set_UART1_RX [85] (sends P (Reference.configured 3)) in
  (Modbus_OSL_MainState s = MODBUS_OSL_WAITREPLY \/
   Modbus_OSL_MainState s = MODBUS_OSL_ERROR) /\
  (Modbus_OSL_Mode s = MODBUS_OSL_MODE_RTU /\
   Z.lor UART_INT_PE UART_INT_RX <> UART_INT_PE) /\
  Modbus_OSL_Frame (state_of (UART1IntHandler P UART_INT_PE s)) =
    MODBUS_OSL_Frame_NOK /\
  UART1_RX (state_of (UART1IntHandler P UART_INT_PE s)) = [85] /\
  Modbus_OSL_Frame
    (state_of (UART1IntHandler P (Z.lor UART_INT_PE UART_INT_RX) s)) =
    MODBUS_OSL_Frame_OK.
Proof.
  intros P s.
  assert (Hst : Modbus_OSL_MainState s = MODBUS_OSL_WAITREPLY \/
                Modbus_OSL_MainState s = MODBUS_OSL_ERROR)
    by (left; reflexivity).
  assert (HM : Modbus_OSL_Mode s = MODBUS_OSL_MODE_RTU) by reflexivity.
  assert (Hb : Z.lor UART_INT_PE UART_INT_RX <> UART_INT_PE)
    by (vm_compute; discriminate).
  split; [exact Hst|]. split; [exact (conj HM Hb)|].
  destruct (UART1IntHandler_parity_error P s) as (Hpe & _ & Hboth).
  destruct (Hpe Hst) as (Hcall & Hmark & Hrx & _).
  rewrite (Hcall P). cbn [state_of].
  split; [exact Hmark|]. split; [exact Hrx|].
  rewrite (Hboth _ Hst HM Hb). reflexivity.
Defined.

(** X9.  The handler comes back unless the mode was never set, in which case
    it stops in [Modbus_Fatal_Error] with LED1 still lit, or the reception
    diagram it calls does not come back.  It can only fail to come back in
    WAITREPLY or ERROR, on a status other than the bare parity error. *)
Theorem UART1IntHandler_hangs_only_when :
  forall P ulStatus s,
    returns (UART1IntHandler P ulStatus s) = false ->
    (Modbus_OSL_MainState s = MODBUS_OSL_WAITREPLY \/
     Modbus_OSL_MainState s = MODBUS_OSL_ERROR) /\
    ulStatus <> UART_INT_PE /\
    ((Modbus_OSL_Mode s = MDEFAULT /\
      UART1IntHandler P ulStatus s = Modbus_Fatal_Error 100 (LED1_on s) /\
      Z.testbit
        (GPIO_PORTF_DATA_R (state_of (UART1IntHandler P ulStatus s))) 0 =
      true) \/
     (Modbus_OSL_Mode s = MODBUS_OSL_MODE_RTU /\
      returns (Modbus_OSL_RTU_UART P (LED1_on s)) = false)).
Proof.
  intros P st s H.
  unfold UART1IntHandler, Modbus_OSL_MainState_Get in *.
  change (Modbus_OSL_MainState (LED1_on s)) with (Modbus_OSL_MainState s)
    in *.
  change (Modbus_OSL_Mode (LED1_on s)) with (Modbus_OSL_Mode s) in *.
  assert (Hlit : Z.testbit (GPIO_PORTF_DATA_R (LED1_on s)) 0 = true).
  { unfold LED1_on. cbn [GPIO_PORTF_DATA_R set_GPIO_PORTF_DATA_R].
    rewrite Z.lor_spec. cbn [Z.testbit]. apply orb_true_r. }
  destruct (Modbus_OSL_MainState s) eqn:Hst; try discriminate H;
    (split; [auto|]);
    (destruct (Z.eqb_spec UART_INT_PE st) as [E|E]; [discriminate H|]);
    (split; [intros E'; apply E; symmetry; exact E'|]);
    (destruct (Modbus_OSL_Mode s) eqn:HM;
     [left; split; [reflexivity|split; [reflexivity|exact Hlit]]
     |right; split; [reflexivity|];
      destruct (Modbus_OSL_RTU_UART P (LED1_on s)) as [[] s1|s1];
      [discriminate H|reflexivity]
     |discriminate H]).
Qed.

(** An interrupt while the reply is awaited on a module that was never
    configured. *)
Lemma UART1IntHandler_hangs_only_when_witness :
  let P := scenario_A in
  let s := Modbus_OSL_MainState_Set MODBUS_OSL_WAITREPLY Reference.power_on in
  returns (UART1IntHandler P UART_INT_RX s) = false /\
  Modbus_OSL_Mode s = MDEFAULT /\
  UART1IntHandler P UART_INT_RX s = Hang (LED1_on s).
Proof.
  intros P s.
  assert (H : returns (UART1IntHandler P UART_INT_RX s) = false)
    by reflexivity.
  split; [exact H|].
  destruct (UART1IntHandler_hangs_only_when P UART_INT_RX s H)
    as (_ & _ & [(HM & Hf & _)|(HM & _)]).
  - split; [exact HM|exact Hf].
  - discriminate HM.
Defined.

(** *** ASCII mode *)

(** X10.  In ASCII mode the module only goes through the motions.
    [Modbus_OSL_Output] mounts nothing: it sends whatever the request
    buffer held, over the length it held.  The handler always comes back,
    calls no reception diagram and stores no character, in any master
    state: the receive buffer, its length, the reception state, the master
    state and the application are left alone.  In WAITREPLY and ERROR it
    does not even read the character, which stays in the receiver: on the
    bare parity error it marks the frame NOK, on any other status it only
    blinks LED1.  In every other master state it takes the character out of
    the receiver and drops it, as in RTU mode.
    [Modbus_OSL_Receive_CallBack] always answers 0 and hands nothing to the
    application; if it took the frame for the expected slave's, the timer
    is stopped and the master state is PROCESSING, where the poll answers 1
    and changes nothing from then on. *)
Theorem ASCII_mode_is_a_stub :
  forall P slave0 s,
    Modbus_OSL_Mode s = MODBUS_OSL_MODE_ASCII ->
    (forall pdu Slave L_pdu,
       let r := Modbus_OSL_Output P pdu Slave L_pdu s in
       Modbus_OSL_Req_ADU (state_of r) = Modbus_OSL_Req_ADU s /\
       Modbus_OSL_L_Req_ADU (state_of r) = Modbus_OSL_L_Req_ADU s /\
       TIMER0 (state_of r) = TIMER0 s /\
       Modbus_OSL_State (state_of r) = Modbus_OSL_State s) /\
    (forall ulStatus,
       let r := UART1IntHandler P ulStatus s in
       returns r = true /\
       RTU_Msg (state_of r) = RTU_Msg s /\
       RTU_L_Msg (state_of r) = RTU_L_Msg s /\
       Modbus_OSL_State (state_of r) = Modbus_OSL_State s /\
       Modbus_OSL_MainState (state_of r) = Modbus_OSL_MainState s /\
       App_calls (state_of r) = App_calls s /\
       (Modbus_OSL_MainState s = MODBUS_OSL_WAITREPLY \/
        Modbus_OSL_MainState s = MODBUS_OSL_ERROR ->
        UART1_RX (state_of r) = UART1_RX s /\
        (ulStatus = UART_INT_PE ->
         r = Ret tt (LED1_off
                       (Modbus_OSL_Frame_Set MODBUS_OSL_Frame_NOK
                          (LED1_on s)))) /\
        (ulStatus <> UART_INT_PE -> r = Ret tt (LED1_off (LED1_on s)))) /\
       (Modbus_OSL_MainState s <> MODBUS_OSL_WAITREPLY ->
        Modbus_OSL_MainState s <> MODBUS_OSL_ERROR ->
        r = Ret tt (LED1_off (snd (UARTCharGetNonBlocking (LED1_on s)))) /\
        UART1_RX (state_of r) = tl (UART1_RX s) /\
        Modbus_OSL_Frame (state_of r) = Modbus_OSL_Frame s)) /\
    (exists s',
       Modbus_OSL_Receive_CallBack P slave0 s = Ret 0 s' /\
       App_calls s' = App_calls s /\
       Modbus_OSL_Frame s' = Modbus_OSL_Frame s /\
       Modbus_OSL_Processing_Flag s' = 0 /\
       (Modbus_OSL_MainState s' = Modbus_OSL_MainState s /\
        TIMER2 s' = TIMER2 s \/
        Modbus_OSL_Processing_Flag s <> 0 /\
        slave0 = Modbus_OSL_Expected_Slave s /\
        Modbus_OSL_MainState s' = MODBUS_OSL_PROCESSING /\
        TimerEnabled (TIMER2 s') = false /\
        Modbus_OSL_Serial_Comm P slave0 s' = Ret 1 s')).
Proof.
  intros P slave0 s HM. split; [|split].
  - intros pdu Slave L_pdu r.
    destruct (Output_outcome P pdu Slave L_pdu s) as (tx & g & H).
    cbv zeta in H. subst r.
    destruct H as [(_ & ->)|(_ & ->)]; cbn [state_of];
      unfold Output_arms, Output_mounts; rewrite ?HM; simpl; rewrite ?HM;
      simpl; try (destruct (Slave =? 0)); repeat split.
  - intros st r.
    assert (Hdrop : forall x : OSL,
              RTU_Msg (snd (UARTCharGetNonBlocking x)) = RTU_Msg x /\
              RTU_L_Msg (snd (UARTCharGetNonBlocking x)) = RTU_L_Msg x /\
              Modbus_OSL_State (snd (UARTCharGetNonBlocking x)) =
                Modbus_OSL_State x /\
              Modbus_OSL_MainState (snd (UARTCharGetNonBlocking x)) =
                Modbus_OSL_MainState x /\
              App_calls (snd (UARTCharGetNonBlocking x)) = App_calls x /\
              Modbus_OSL_Frame (snd (UARTCharGetNonBlocking x)) =
                Modbus_OSL_Frame x).
    { intros x. unfold UARTCharGetNonBlocking.
      destruct (UART1_RX x); repeat split. }
    assert (Hcases :
              (Modbus_OSL_MainState s = MODBUS_OSL_WAITREPLY \/
               Modbus_OSL_MainState s = MODBUS_OSL_ERROR) /\
              (st = UART_INT_PE /\
               r = Ret tt (LED1_off
                             (Modbus_OSL_Frame_Set MODBUS_OSL_Frame_NOK
                                (LED1_on s))) \/
               st <> UART_INT_PE /\ r = Ret tt (LED1_off (LED1_on s))) \/
              (Modbus_OSL_MainState s <> MODBUS_OSL_WAITREPLY /\
               Modbus_OSL_MainState s <> MODBUS_OSL_ERROR) /\
              r = Ret tt (LED1_off
                            (snd (UARTCharGetNonBlocking (LED1_on s))))).
    { subst r. unfold UART1IntHandler, Modbus_OSL_MainState_Get.
      change (Modbus_OSL_MainState (LED1_on s))
        with (Modbus_OSL_MainState s).
      change (Modbus_OSL_Mode (LED1_on s)) with (Modbus_OSL_Mode s).
      rewrite HM.
      destruct (Modbus_OSL_MainState s);
        try (right; split; [split; discriminate|reflexivity]);
        (left; split; [auto|]);
        (destruct (Z.eqb_spec UART_INT_PE st) as [E|E];
         [left; split; [symmetry; exact E|reflexivity]
         |right; split; [intros E'; apply E; symmetry; exact E'
                        |reflexivity]]). }
    clearbody r.
    destruct Hcases as [(Hst & [(Hpe & ->)|(Hpe & ->)])|((H1 & H2) & ->)];
      cbn [returns state_of].
    + repeat (split; [reflexivity|]). split.
      * intros _. split; [reflexivity|]. split; [reflexivity|].
        intros Hn. contradiction.
      * intros H1 H2. destruct Hst; contradiction.
    + repeat (split; [reflexivity|]). split.
      * intros _. split; [reflexivity|]. split; [|reflexivity].
        intros E. contradiction.
      * intros H1 H2. destruct Hst; contradiction.
    + destruct (Hdrop (LED1_on s)) as (D1 & D2 & D3 & D4 & D5 & D6).
      split; [reflexivity|].
      split; [exact D1|]. split; [exact D2|]. split; [exact D3|].
      split; [exact D4|]. split; [exact D5|]. split.
      * intros [Hst|Hst]; contradiction.
      * intros _ _. split; [reflexivity|].
        split; [|exact D6].
        exact (UARTCharGetNonBlocking_takes (LED1_on s)).
  - unfold Modbus_OSL_Receive_CallBack.
    rewrite Processing_Msg_reads_and_clears.
    cbn [Modbus_OSL_Mode Modbus_OSL_Expected_Slave set_IntMaster
         set_Processing_Flag set_TIMER2 Modbus_OSL_MainState_Set
         write_MainState].
    rewrite HM.
    destruct (Z.eqb_spec (Modbus_OSL_Processing_Flag s) 0) as [Hf|Hf].
    + eexists. split; [reflexivity|]. repeat split. left. split; reflexivity.
    + destruct (Z.eqb_spec slave0 (Modbus_OSL_Expected_Slave s)) as [He|He].
      * eexists. split; [reflexivity|]. repeat split. right.
        repeat split; assumption.
      * eexists. split; [reflexivity|]. repeat split. left.
        split; reflexivity.
Qed.

(** *** Delivery to the application *)

Lemma combine_with_map :
  forall (A B : Type) (f : A -> B) (l : list A),
    combine l (map f l) = map (fun x => (x, f x)) l.
Proof.
  intros A B f l. induction l as [|x l IH]; [reflexivity|].
  cbn [map combine]. rewrite IH. reflexivity.
Qed.

Lemma array_get_tl :
  forall msg k, 0 <= k -> array_get msg (k + 1) = array_get (tl msg) k.
Proof.
  intros msg k Hk. destruct msg as [|b rest].
  - unfold array_get. cbn [tl].
    destruct (0 <=? k + 1); destruct (0 <=? k);
      rewrite ?nth_overflow by (cbn [length]; lia); reflexivity.
  - apply array_get_cons. exact Hk.
Qed.

(** X11.  [Modbus_OSL_RTU_to_App] strips the slave number: for a message of
    length [L] that the receive buffer holds, the application is given the
    [L - 1] characters that follow the first one, in order, at the indices
    0, 1, ..., and then the length [L - 1]; the first character is never
    handed over.  For an empty message no character is handed over and the
    length given is -1. *)
Theorem RTU_to_App_strips_the_slave :
  forall s,
    uchar (RTU_L_Msg s) ->
    (Z.to_nat (RTU_L_Msg s) <= length (RTU_Msg s))%nat ->
    let n := Z.to_nat (RTU_L_Msg s - 1) in
    Modbus_OSL_RTU_to_App s =
    Ret tt
      (set_App_calls
         (App_calls s ++
          map (fun p => App_Receive_Char (snd p) (fst p))
              (combine (Zrange 0 n) (firstn n (tl (RTU_Msg s)))) ++
          [App_L_Msg_Set (RTU_L_Msg s - 1)]) s) /\
    (RTU_L_Msg s = 0 ->
     Modbus_OSL_RTU_to_App s =
     Ret tt (set_App_calls (App_calls s ++ [App_L_Msg_Set (-1)]) s)).
Proof.
  intros s HL Hlen n.
  assert (Hd : delivered_chars s =
               map (fun p => App_Receive_Char (snd p) (fst p))
                   (combine (Zrange 0 n) (firstn n (tl (RTU_Msg s))))).
  { unfold delivered_chars. fold n.
    assert (Hn : (n <= length (tl (RTU_Msg s)))%nat).
    { subst n. destruct (RTU_Msg s) as [|b rest]; cbn [tl length] in *;
        unfold uchar in HL; lia. }
    rewrite <- (array_get_firstn (tl (RTU_Msg s)) n Hn).
    rewrite combine_with_map, map_map. cbn [fst snd].
    change (Zrange 1 n) with (Zrange (0 + 1) n).
    rewrite Zrange_shift, map_map.
    apply map_ext_in. intros k Hk.
    unfold Modbus_OSL_RTU_Char_Get.
    rewrite array_get_tl by (apply (Zrange_nonneg 0 n); [lia|exact Hk]).
    f_equal. lia. }
  split.
  - rewrite RTU_to_App_delivers by exact HL. rewrite Hd. reflexivity.
  - intros H0. rewrite RTU_to_App_delivers by exact HL.
    unfold delivered_chars. rewrite H0. reflexivity.
Qed.

(** The reply of scenario C, once its CRC has left the length. *)
Lemma RTU_to_App_strips_the_slave_witness :
  let s :=
    set_RTU_L_Msg 5
      (set_RTU_Msg [5; 3; 2; 0; 42; 200; 91] (Reference.configured 3)) in
  (uchar (RTU_L_Msg s) /\
   (Z.to_nat (RTU_L_Msg s) <= length (RTU_Msg s))%nat) /\
  App_calls (state_of (Modbus_OSL_RTU_to_App s)) =
    [App_Receive_Char 3 0; App_Receive_Char 2 1; App_Receive_Char 0 2;
     App_Receive_Char 42 3; App_L_Msg_Set 4].
Proof.
  intros s.
  assert (HL : uchar (RTU_L_Msg s)) by (change (uchar 5); unfold uchar; lia).
  assert (Hlen : (Z.to_nat (RTU_L_Msg s) <= length (RTU_Msg s))%nat)
    by (vm_compute; repeat constructor).
  split; [exact (conj HL Hlen)|].
  rewrite (proj1 (RTU_to_App_strips_the_slave s HL Hlen)). reflexivity.
Defined.

(** A module configured for ASCII with a character in the receiver:
    awaiting a reply with the flag up, and idle. *)
Lemma ASCII_mode_is_a_stub_witness :
  let P := scenario_A in
  let s :=
    set_UART1_RX [85]
      (set_Processing_Flag 1
         (Modbus_OSL_MainState_Set MODBUS_OSL_WAITREPLY
            (Modbus_OSL_Init P 9600 MODBUS_OSL_MODE_ASCII 3
               Reference.power_on))) in
  let idle := Modbus_OSL_MainState_Set MODBUS_OSL_IDLE s in
  (Modbus_OSL_Mode s = MODBUS_OSL_MODE_ASCII /\
   Modbus_OSL_Mode idle = MODBUS_OSL_MODE_ASCII) /\
  UART1_TX (state_of (Modbus_OSL_Output P [3; 0; 0; 0; 1] 5 5 s)) = [] /\
  UART1_RX (state_of (UART1IntHandler P UART_INT_RX s)) = [85] /\
  UART1_RX (state_of (UART1IntHandler P UART_INT_RX idle)) = [] /\
  exists s',
    Modbus_OSL_Receive_CallBack P 0 s = Ret 0 s' /\
    App_calls s' = [] /\
    Modbus_OSL_MainState s' = MODBUS_OSL_PROCESSING.
Proof.
  intros P s idle.
  assert (HM : Modbus_OSL_Mode s = MODBUS_OSL_MODE_ASCII) by reflexivity.
  assert (HI : Modbus_OSL_Mode idle = MODBUS_OSL_MODE_ASCII) by reflexivity.
  split; [exact (conj HM HI)|].
  destruct (ASCII_mode_is_a_stub P 0 s HM)
    as (_ & Hh & s' & Hcall & Ha & _ & _ & Hst).
  destruct (ASCII_mode_is_a_stub P 0 idle HI) as (_ & Hi & _).
  destruct (Hh UART_INT_RX) as (_ & _ & _ & _ & _ & _ & Hwait & _).
  destruct (Hi UART_INT_RX) as (_ & _ & _ & _ & _ & _ & _ & Hidle).
  split; [reflexivity|].
  split; [exact (proj1 (Hwait (or_introl eq_refl)))|].
  split.
  { assert (H1 : Modbus_OSL_MainState idle <> MODBUS_OSL_WAITREPLY)
      by (simpl; discriminate).
    assert (H2 : Modbus_OSL_MainState idle <> MODBUS_OSL_ERROR)
      by (simpl; discriminate).
    exact (proj1 (proj2 (Hidle H1 H2))). }
  exists s'. split; [exact Hcall|]. split; [exact Ha|].
  destruct Hst as [(Hst & _)|(_ & _ & Hst & _)]; [|exact Hst].
  vm_compute in Hcall. injection Hcall as <-. discriminate Hst.
Defined.

(** *** LED1 and port F *)

Lemma LED1_blink :
  forall g i,
    Z.testbit (Z.land (Z.lor g 1) (Z.lnot 1)) i =
    if i =? 0 then false else Z.testbit g i.
Proof.
  intros g i. destruct (Z.eqb_spec i 0) as [->|Hi].
  - rewrite Z.land_spec, Z.lnot_spec by lia. cbn [Z.testbit Z.odd negb].
    apply andb_false_r.
  - destruct (Z.lt_ge_cases i 0) as [Hneg|Hpos].
    + rewrite !Z.testbit_neg_r by exact Hneg. reflexivity.
    + rewrite Z.land_spec, Z.lor_spec, Z.lnot_spec by exact Hpos.
      assert (H1 : Z.testbit 1 i = false).
      { destruct i as [|p|p]; [contradiction|destruct p; reflexivity|lia]. }
      rewrite H1. cbn [negb]. rewrite orb_false_r, andb_true_r. reflexivity.
Qed.

(** X12.  [Modbus_OSL_Send] lights LED1 for the time of the transmission
    and for that time only: when it comes back, bit 0 of port F is down and
    every other bit of the port is what it was, and apart from the port
    and the serial line the machine is unchanged; when the transmission
    never ends, LED1 stays lit. *)
Theorem Send_blinks_LED1 :
  forall P mb_req_adu L_adu s,
    (forall s',
       Modbus_OSL_Send P mb_req_adu L_adu s = Ret tt s' ->
       (forall i,
          Z.testbit (GPIO_PORTF_DATA_R s') i =
          if i =? 0 then false else Z.testbit (GPIO_PORTF_DATA_R s) i) /\
       s' = set_GPIO_PORTF_DATA_R (GPIO_PORTF_DATA_R s')
              (set_UART1_TX (UART1_TX s') s)) /\
    (forall s',
       Modbus_OSL_Send P mb_req_adu L_adu s = Hang s' ->
       Z.testbit (GPIO_PORTF_DATA_R s') 0 = true /\
       forall i,
         i <> 0 ->
         Z.testbit (GPIO_PORTF_DATA_R s') i =
         Z.testbit (GPIO_PORTF_DATA_R s) i).
Proof.
  intros P buf L s. unfold Modbus_OSL_Send.
  destruct (Modbus_OSL_Send_loop P 257 buf L 0 (LED1_on s)) as [s2|] eqn:E.
  - split; [|intros s' H; discriminate H].
    intros s' H. injection H as <-.
    apply Send_loop_frame in E. destruct E as (tx & ->).
    split.
    + intros i. unfold LED1_off, LED1_on.
      cbn [GPIO_PORTF_DATA_R set_GPIO_PORTF_DATA_R set_UART1_TX].
      apply LED1_blink.
    + reflexivity.
  - split; [intros s' H; discriminate H|].
    intros s' H. injection H as <-.
    unfold LED1_on. cbn [GPIO_PORTF_DATA_R set_GPIO_PORTF_DATA_R].
    split.
    + rewrite Z.lor_spec. cbn [Z.testbit Z.odd]. apply orb_true_r.
    + intros i Hi. destruct (Z.lt_ge_cases i 0) as [Hneg|Hpos].
      * rewrite !Z.testbit_neg_r by exact Hneg. reflexivity.
      * rewrite Z.lor_spec.
        assert (H1 : Z.testbit 1 i = false).
        { destruct i as [|p|p]; [contradiction|destruct p; reflexivity|lia]. }
        rewrite H1. apply orb_false_r.
Qed.

(** Port F holds 0b1011 when a frame of 8 characters is sent. *)
Lemma Send_blinks_LED1_witness :
  let P := scenario_A in
  let s := set_GPIO_PORTF_DATA_R 11 (Reference.configured 3) in
  let buf := Reference.MountADU [3; 0; 0; 0; 1] 5 5 (repeat 0 256) in
  exists s',
    Modbus_OSL_Send P buf 8 s = Ret tt s' /\
    GPIO_PORTF_DATA_R s' = 10 /\
    Z.testbit (GPIO_PORTF_DATA_R s') 0 = false.
Proof.
  intros P s buf.
  destruct (Modbus_OSL_Send P buf 8 s) as [[] s'|s'] eqn:E;
    [|vm_compute in E; discriminate E].
  exists s'. split; [reflexivity|].
  destruct (Send_blinks_LED1 P buf 8 s) as (H & _).
  destruct (H s' E) as (Hbits & _).
  split.
  - vm_compute in E. injection E as <-. reflexivity.
  - rewrite Hbits. reflexivity.
Defined.

(** *** The timeout counts, compared *)

(** X13.  On a clock whose products do not overflow, for every rate the
    broadcast delay is at most the response timeout, neither is below the
    counts of the default row (half and a fifth of a second) and both fit
    the 32-bit timer; among the four rates of the table a faster line never
    gets a longer count; and every rate outside the table, one slower than
    1200 included, gets the shortest counts. *)
Theorem timeouts_follow_the_rate :
  forall P s,
    0 <= SysCtlClockGet P -> 5 * SysCtlClockGet P < 4294967296 ->
    let R b := Modbus_OSL_Timeout_R (Modbus_OSL_Set_Timeout_R P b s) in
    let B b := Modbus_OSL_Timeout_B (Modbus_OSL_Set_Timeout_B P b s) in
    (forall b,
       B b <= R b /\
       SysCtlClockGet P / 2 <= R b < 4294967296 /\
       SysCtlClockGet P / 5 <= B b) /\
    (forall b1 b2,
       In b1 [1200; 2400; 4800; 9600] ->
       In b2 [1200; 2400; 4800; 9600] ->
       b1 <= b2 ->
       R b2 <= R b1 /\ B b2 <= B b1) /\
    (forall b,
       ~ In b [1200; 2400; 4800; 9600] ->
       R b = SysCtlClockGet P / 2 /\ B b = SysCtlClockGet P / 5).
Proof.
  intros P s H0 H1 R B.
  assert (HR : forall b,
             R b = spec_response_timeout_tenths b * SysCtlClockGet P / 10)
    by (intros b; apply Timeout_R_count; assumption).
  assert (HB : forall b,
             B b = spec_broadcast_delay_tenths b * SysCtlClockGet P / 10)
    by (intros b; apply Timeout_B_count; assumption).
  split; [|split].
  - intros b. rewrite HR, HB.
    unfold spec_response_timeout_tenths, spec_broadcast_delay_tenths.
    destruct (b =? 1200); [|destruct (b =? 2400);
      [|destruct (b =? 4800); [|destruct (b =? 9600)]]];
      Z.div_mod_to_equations; lia.
  - intros b1 b2 I1 I2 Hle. rewrite !HR, !HB.
    cbn [In] in I1, I2.
    destruct I1 as [<-|[<-|[<-|[<-|[]]]]];
      destruct I2 as [<-|[<-|[<-|[<-|[]]]]];
      try lia;
      cbn [spec_response_timeout_tenths spec_broadcast_delay_tenths
           Z.eqb Pos.eqb];
      Z.div_mod_to_equations; lia.
  - intros b Hb. rewrite HR, HB.
    unfold spec_response_timeout_tenths, spec_broadcast_delay_tenths.
    cbn [In] in Hb.
    destruct (Z.eqb_spec b 1200); [exfalso; apply Hb; auto|].
    destruct (Z.eqb_spec b 2400); [exfalso; apply Hb; auto|].
    destruct (Z.eqb_spec b 4800); [exfalso; apply Hb; auto|].
    destruct (Z.eqb_spec b 9600); [exfalso; apply Hb; auto 6|].
    Z.div_mod_to_equations. lia.
Qed.

(** 300 bps on an 8 MHz clock: the counts of the default row. *)
Lemma timeouts_follow_the_rate_witness :
  let P := Reference.bare UnsignedChar 8000000 in
  let s := Reference.configured 3 in
  (0 <= SysCtlClockGet P /\ 5 * SysCtlClockGet P < 4294967296 /\
   ~ In 300 [1200; 2400; 4800; 9600]) /\
  Modbus_OSL_Timeout_R (Modbus_OSL_Set_Timeout_R P 300 s) = 4000000 /\
  Modbus_OSL_Timeout_B (Modbus_OSL_Set_Timeout_B P 300 s) = 1600000.
Proof.
  intros P s.
  assert (H0 : 0 <= SysCtlClockGet P) by (simpl; lia).
  assert (H1 : 5 * SysCtlClockGet P < 4294967296) by (simpl; lia).
  assert (Hn : ~ In 300 [1200; 2400; 4800; 9600])
    by (cbn [In]; intros [H|[H|[H|[H|[]]]]]; discriminate H).
  split; [exact (conj H0 (conj H1 Hn))|].
  destruct (timeouts_follow_the_rate P s H0 H1) as (_ & _ & H).
  destruct (H 300 Hn) as (HR & HB).
  split; [rewrite HR|rewrite HB]; reflexivity.
Defined.
